(** * PDF metadata viewer: the date normaliser, the metadata accessor and
      the metadata merger/writer of [pdf_meta.py], embedded and verified.

    The Python functions are written as Rocq functions of the same names.
    Strings are sequences of code points below 256 (one [ascii] each),
    integers are [Z], a [try]/[except] is [try_except] over [result], and the
    calls into pikepdf, Streamlit and [logging] are recorded in an event
    trace.  The two libraries the program leans on, pikepdf and the time-zone
    table of pytz, are interfaces ([Pikepdf], [tzinfo]) over which every
    general theorem is quantified. *)

From Stdlib Require Import ZArith List String Ascii Bool Lia DecimalString.
Import ListNotations.
Open Scope string_scope.
Open Scope Z_scope.

(* ================================================================== *)
(** * Exceptions and results *)

Inductive exn_class :=
| ValueError
| OverflowError
| KeyError
| TypeError
| NotImplementedError
| PasswordError
| PdfError.

(** Every class above derives from Python's [Exception]. *)
Record exn := mk_exn { exn_type : exn_class; exn_msg : string }.

Inductive result (A : Type) :=
| Ok (a : A)
| Raise (e : exn).
Arguments Ok {A} a.
Arguments Raise {A} e.

Definition rbind {A B} (r : result A) (k : A -> result B) : result B :=
  match r with
  | Ok a => k a
  | Raise e => Raise e
  end.

(** [try: body / except: handler] with a bare [except]. *)
Definition try_except {A} (body : result A) (handler : exn -> result A) : result A :=
  match body with
  | Ok a => Ok a
  | Raise e => handler e
  end.

Declare Scope result_scope.
Delimit Scope result_scope with result.
Notation "x <- r ;; k" := (rbind r (fun x => k))
  (at level 61, r at next level, right associativity) : result_scope.

(* ================================================================== *)
(** * Python strings *)

Definition ord (c : ascii) : N := N_of_ascii c.

(** [str.isspace] on the code points below 256: TAB..CR, FS..US, space,
    NEL and the no-break space. *)
Definition isspace (c : ascii) : bool :=
  let n := ord c in
  ((9 <=? n) && (n <=? 13) || (28 <=? n) && (n <=? 32) || (n =? 133) || (n =? 160))%N.

Fixpoint lstrip_by (p : ascii -> bool) (s : string) : string :=
  match s with
  | EmptyString => EmptyString
  | String c r => if p c then lstrip_by p r else s
  end.

Fixpoint rstrip_by (p : ascii -> bool) (s : string) : string :=
  match s with
  | EmptyString => EmptyString
  | String c r =>
      match rstrip_by p r with
      | EmptyString => if p c then EmptyString else String c EmptyString
      | r' => String c r'
      end
  end.

(** [s.strip()] *)
Definition strip (s : string) : string := rstrip_by isspace (lstrip_by isspace s).

(** [s.startswith(p)] *)
Fixpoint startswith (s p : string) : bool :=
  match p, s with
  | EmptyString, _ => true
  | String _ _, EmptyString => false
  | String a p', String b s' => Ascii.eqb a b && startswith s' p'
  end.

(** [s[a:b]] for [0 <= a <= b]; Python clips a slice to the string. *)
Definition slice (a b : nat) (s : string) : string := substring a (b - a) s.

(** [s[a:]] *)
Fixpoint slice_from (a : nat) (s : string) : string :=
  match a, s with
  | O, _ => s
  | S _, EmptyString => EmptyString
  | S a', String _ r => slice_from a' r
  end.

(** [len(s)] *)
Definition len (s : string) : Z := Z.of_nat (String.length s).

(** Substring test, [p in s]. *)
Fixpoint contains (s p : string) : bool :=
  startswith s p ||
  match s with
  | EmptyString => false
  | String _ r => contains r p
  end.

(* ------------------------------------------------------------------ *)
(** ** [int(s)] *)

(** The blanks [int] skips at both ends: the C-locale ones, and for a
    string with a code point above 126 the Unicode ones, which are read as
    spaces. *)
Definition int_space (c : ascii) : bool :=
  let n := ord c in
  ((9 <=? n) && (n <=? 13) || (n =? 32) || (n =? 133) || (n =? 160))%N.

Definition digit_value (c : ascii) : option Z :=
  let n := ord c in
  if ((48 <=? n) && (n <=? 57))%N then Some (Z.of_N n - 48) else None.

(** Decimal digits, with single underscores allowed between two digits.
    [after_digit] tells whether the character just read was a digit. *)
Fixpoint digits_value (acc : Z) (after_digit : bool) (s : string) : option Z :=
  match s with
  | EmptyString => if after_digit then Some acc else None
  | String c r =>
      match digit_value c with
      | Some d => digits_value (10 * acc + d) true r
      | None =>
          if (ord c =? 95)%N && after_digit then digits_value acc false r else None
      end
  end.

Definition invalid_literal : exn :=
  mk_exn ValueError "invalid literal for int() with base 10".

(** An optional sign, then the digits. *)
Definition split_sign (s : string) : bool * string :=
  match s with
  | String c r =>
      if Ascii.eqb c "+" then (false, r)
      else if Ascii.eqb c "-" then (true, r)
      else (false, s)
  | EmptyString => (false, s)
  end.

Definition int (s : string) : result Z :=
  let s := rstrip_by int_space (lstrip_by int_space s) in
  let signed := split_sign s in
  match digits_value 0 false (snd signed) with
  | Some n => Ok (if fst signed then - n else n)
  | None => Raise invalid_literal
  end.

(* ================================================================== *)
(** * [datetime] *)

Record datetime := mk_datetime {
  year : Z; month : Z; day : Z; hour : Z; minute : Z; second : Z
}.

Definition MINYEAR : Z := 1.
Definition MAXYEAR : Z := 9999.
Definition MAXORDINAL : Z := 3652059.

Definition is_leap (y : Z) : bool :=
  (y mod 4 =? 0) && (negb (y mod 100 =? 0) || (y mod 400 =? 0)).

Definition days_in_month (y m : Z) : Z :=
  if m =? 2 then (if is_leap y then 29 else 28)
  else if (m =? 4) || (m =? 6) || (m =? 9) || (m =? 11) then 30
  else 31.

(** Days of the year before the first of month [m], leap day apart. *)
Definition DAYS_BEFORE_MONTH (m : Z) : Z :=
  match m with
  | 1 => 0 | 2 => 31 | 3 => 59 | 4 => 90 | 5 => 120 | 6 => 151
  | 7 => 181 | 8 => 212 | 9 => 243 | 10 => 273 | 11 => 304 | 12 => 334
  | _ => 365
  end.

Definition days_before_year (y : Z) : Z :=
  let p := y - 1 in p * 365 + p / 4 - p / 100 + p / 400.

Definition days_before_month (y m : Z) : Z :=
  DAYS_BEFORE_MONTH m + (if (2 <? m) && is_leap y then 1 else 0).

(** Proleptic Gregorian ordinal: 1 January of year 1 is day 1. *)
Definition ymd2ord (y m d : Z) : Z :=
  days_before_year y + days_before_month y m + d.

Definition DI400Y : Z := 146097.
Definition DI100Y : Z := 36524.
Definition DI4Y : Z := 1461.

(** Month and day of the [n]-th day of a year, counted from 0. *)
Definition doy2md (leapyear : bool) (n : Z) : Z * Z :=
  let m := (n + 50) / 32 in
  let preceding := DAYS_BEFORE_MONTH m + (if (2 <? m) && leapyear then 1 else 0) in
  if n <? preceding then
    let m' := m - 1 in
    let dim := if m' =? 2 then (if leapyear then 29 else 28)
               else if (m' =? 4) || (m' =? 6) || (m' =? 9) || (m' =? 11) then 30
               else 31 in
    (m', n - (preceding - dim) + 1)
  else (m, n - preceding + 1).

Definition ord2ymd (ordinal : Z) : Z * Z * Z :=
  let n := ordinal - 1 in
  let n400 := n / DI400Y in
  let n := n mod DI400Y in
  let n100 := n / DI100Y in
  let n := n mod DI100Y in
  let n4 := n / DI4Y in
  let n := n mod DI4Y in
  let n1 := n / 365 in
  let n := n mod 365 in
  let y := n400 * 400 + 1 + n100 * 100 + n4 * 4 + n1 in
  if (n1 =? 4) || (n100 =? 4) then (y - 1, 12, 31)
  else
    let leapyear := (n1 =? 3) && (negb (n4 =? 24) || (n100 =? 3)) in
    let md := doy2md leapyear n in
    (y, fst md, snd md).

Definition in_range (lo x hi : Z) : bool := (lo <=? x) && (x <=? hi).

(** [datetime(year, month, day, hour, minute, second)] *)
Definition datetime_new (y m d h mi s : Z) : result datetime :=
  if negb (in_range MINYEAR y MAXYEAR) then Raise (mk_exn ValueError "year is out of range")
  else if negb (in_range 1 m 12) then Raise (mk_exn ValueError "month must be in 1..12")
  else if negb (in_range 1 d (days_in_month y m)) then
    Raise (mk_exn ValueError "day is out of range for month")
  else if negb (in_range 0 h 23) then Raise (mk_exn ValueError "hour must be in 0..23")
  else if negb (in_range 0 mi 59) then Raise (mk_exn ValueError "minute must be in 0..59")
  else if negb (in_range 0 s 59) then Raise (mk_exn ValueError "second must be in 0..59")
  else Ok (mk_datetime y m d h mi s).

Definition toordinal (dt : datetime) : Z := ymd2ord (year dt) (month dt) (day dt).

Definition seconds_of_day (dt : datetime) : Z :=
  hour dt * 3600 + minute dt * 60 + second dt.

(** [dt + timedelta(seconds=delta)] *)
Definition datetime_add (dt : datetime) (delta : Z) : result datetime :=
  let total := seconds_of_day dt + delta in
  let days := toordinal dt + total / 86400 in
  let secs := total mod 86400 in
  if (0 <? days) && (days <=? MAXORDINAL) then
    let '(y, m, d) := ord2ymd days in
    Ok (mk_datetime y m d (secs / 3600) ((secs mod 3600) / 60) (secs mod 60))
  else Raise (mk_exn OverflowError "date value out of range").

(* ------------------------------------------------------------------ *)
(** ** Time zones *)

(** A pytz zone, as [fromutc] uses it: for an instant given in UTC, the
    offset from UTC in seconds and the abbreviation in force. *)
Record tzinfo := mk_tzinfo {
  utcoffset : datetime -> Z;
  tzname : datetime -> string
}.

(** [pytz.utc.localize(dt).astimezone(tz)]: the local wall clock and the
    abbreviation. *)
Definition astimezone (tz : tzinfo) (dt : datetime) : result (datetime * string) :=
  (local <- datetime_add dt (utcoffset tz dt) ;;
   Ok (local, tzname tz dt))%result.

(* ------------------------------------------------------------------ *)
(** ** [strftime] *)

Definition digit_char (d : Z) : ascii := ascii_of_N (Z.to_N (48 + d)).

(** [%d], [%I], [%M], [%S]: two digits. *)
Definition fmt02 (n : Z) : string :=
  String (digit_char (n / 10)) (String (digit_char (n mod 10)) EmptyString).

(** Four digits: the year as a PDF date string holds it. *)
Definition fmt04 (n : Z) : string := fmt02 (n / 100) ++ fmt02 (n mod 100).

(** [%Y]: the year in decimal.  CPython hands the directive to the C
    library, and glibc does not pad: year 999 is printed [999].  From year
    1000 on these are the four digits every platform prints. *)
Definition fmt_year (y : Z) : string :=
  DecimalString.NilEmpty.string_of_uint (N.to_uint (Z.to_N y)).

(** [%B] *)
Definition month_name (m : Z) : string :=
  match m with
  | 1 => "January" | 2 => "February" | 3 => "March" | 4 => "April"
  | 5 => "May" | 6 => "June" | 7 => "July" | 8 => "August"
  | 9 => "September" | 10 => "October" | 11 => "November" | _ => "December"
  end.

(** [%I] *)
Definition hour12 (h : Z) : Z := if h mod 12 =? 0 then 12 else h mod 12.

(** [%p] *)
Definition am_pm (h : Z) : string := if h <? 12 then "AM" else "PM".

(** The date part, ["%B %d, %Y"]. *)
Definition strftime_date (y m d : Z) : string :=
  month_name m ++ " " ++ fmt02 d ++ ", " ++ fmt_year y.

(** [dt.strftime('%B %d, %Y at %I:%M:%S %p %Z')] *)
Definition strftime (dt : datetime) (zone : string) : string :=
  strftime_date (year dt) (month dt) (day dt) ++ " at " ++
  fmt02 (hour12 (hour dt)) ++ ":" ++ fmt02 (minute dt) ++ ":" ++ fmt02 (second dt) ++
  " " ++ am_pm (hour dt) ++ " " ++ zone.

(* ================================================================== *)
(** * [parse_pdf_date] *)

(** Lines 18-20: the rebinding of [date_str] before any field is read. *)
Definition strip_prefix (date_str : string) : string :=
  let date_str := strip date_str in
  if startswith date_str "D:" then slice_from 2 date_str else date_str.

(** Lines 23-39: the rest of the [try] block. *)
Definition format_fields (tz : tzinfo) (date_str : string) : result string :=
  (y <- int (slice 0 4 date_str) ;;
   m <- int (slice 4 6 date_str) ;;
   d <- int (slice 6 8 date_str) ;;
   h <- (if 10 <=? len date_str then int (slice 8 10 date_str) else Ok 0) ;;
   mi <- (if 12 <=? len date_str then int (slice 10 12 date_str) else Ok 0) ;;
   s <- (if 14 <=? len date_str then int (slice 12 14 date_str) else Ok 0) ;;
   dt <- datetime_new y m d h mi s ;;
   dt_est <- astimezone tz dt ;;
   Ok (strftime (fst dt_est) (snd dt_est)))%result.

(** The handler returns [date_str] as it is bound when the exception is
    raised, that is after lines 18-20. *)
Definition parse_pdf_date (tz : tzinfo) (date_str : string) : result string :=
  let date_str := strip_prefix date_str in
  try_except (format_fields tz date_str) (fun _ => Ok date_str).

(* ------------------------------------------------------------------ *)
(** ** US/Eastern *)

(** Monday is 0. *)
Definition weekday (ordinal : Z) : Z := (ordinal + 6) mod 7.

Definition sunday_on_or_after (y m d : Z) : Z :=
  let o := ymd2ord y m d in o + (6 - weekday o) mod 7.

Definition utc_seconds (dt : datetime) : Z := toordinal dt * 86400 + seconds_of_day dt.

(** Daylight time under the rule in force since 2007: from the second
    Sunday of March, 07:00 UTC, to the first Sunday of November, 06:00 UTC.
    The table pytz ships stops in 2037. *)
Definition eastern_daylight (dt : datetime) : bool :=
  in_range 2007 (year dt) 2037 &&
  (sunday_on_or_after (year dt) 3 8 * 86400 + 7 * 3600 <=? utc_seconds dt) &&
  (utc_seconds dt <? sunday_on_or_after (year dt) 11 1 * 86400 + 6 * 3600).

(** [pytz.timezone('US/Eastern')] for the years 2007 to 2037.  The rows of
    earlier years (other daylight rules, local mean time before 1883) are
    not reproduced: there the definition reads standard time, which is
    not always pytz's offset, and what is proved of the zone by name is
    proved for 2007 to 2037 only. *)
Definition US_Eastern : tzinfo :=
  mk_tzinfo (fun dt => if eastern_daylight dt then -14400 else -18000)
            (fun dt => if eastern_daylight dt then "EDT" else "EST").

(* ================================================================== *)
(** * Python dictionaries *)

(** A [dict] with [str] keys, in insertion order.  The same type serves for
    a PDF dictionary, whose keys are names. *)
Definition dict (V : Type) : Type := list (string * V).

(** [d.get(k)] *)
Fixpoint dict_get {V} (k : string) (d : dict V) : option V :=
  match d with
  | [] => None
  | (k', v) :: r => if String.eqb k k' then Some v else dict_get k r
  end.

(** [d[k] = v]: the value is replaced where the key stands, or the entry is
    added at the end. *)
Fixpoint dict_set {V} (k : string) (v : V) (d : dict V) : dict V :=
  match d with
  | [] => [(k, v)]
  | (k', v') :: r => if String.eqb k k' then (k', v) :: r else (k', v') :: dict_set k v r
  end.

(** [list(d.keys())] *)
Definition dict_keys {V} (d : dict V) : list string := map fst d.

(** [k in d] *)
Definition dict_mem {V} (k : string) (d : dict V) : bool :=
  existsb (String.eqb k) (dict_keys d).

(** Truth value of a [str]: non-empty. *)
Definition truthy (s : string) : bool :=
  match s with
  | EmptyString => false
  | String _ _ => true
  end.

(** Python's [==] on dictionaries: the same keys with the same values,
    whatever the order. *)
Definition dict_eq {V} (d1 d2 : dict V) : Prop :=
  forall k, dict_get k d1 = dict_get k d2.

(* ================================================================== *)
(** * Effects: user interface, log and library calls *)

Definition bytes : Type := list Byte.byte.

(** What a run shows, logs and asks of pikepdf, in order.  A message built
    by an f-string is kept as its text with [{}] for each hole, followed by
    the values; the pictographs that open some of the messages, and purely
    decorative calls ([st.markdown] of headings and styles, [st.metric],
    [st.columns], [st.spinner]), are left out. *)
Inductive event :=
| st_error (msg : string) (values : list string)
| st_warning (msg : string)
| st_success (msg : string) (values : list string)
| st_info (msg : string)
| st_caption (msg : string) (values : list string)
| metadata_card (key value : string)
| st_download_button (label : string) (data : bytes) (file_name : string)
| logging_info (msg : string) (values : list string)
| logging_warning (msg : string)
| logging_error (msg : string) (values : list string)
| call_open (data : bytes)
| call_setitem (key value : string)
| call_save.

Definition trace : Type := list event.

(** A computation: the events it produced, and its value or the exception
    that ended it. *)
Definition M (A : Type) : Type := (trace * result A)%type.

Definition ret {A} (a : A) : M A := ([], Ok a).

Definition bind {A B} (m : M A) (k : A -> M B) : M B :=
  match m with
  | (t, Ok a) => let (t', r) := k a in ((t ++ t')%list, r)
  | (t, Raise e) => (t, Raise e)
  end.

Definition emit (ev : event) : M unit := ([ev], Ok tt).

Definition lift {A} (r : result A) : M A := ([], r).

(** [try: body / except Exception as e: handler(e)] *)
Definition try_catch {A} (body : M A) (handler : exn -> M A) : M A :=
  match body with
  | (t, Ok a) => (t, Ok a)
  | (t, Raise e) => let (t', r) := handler e in ((t ++ t')%list, r)
  end.

Definition events {A} (m : M A) : trace := fst m.
Definition outcome {A} (m : M A) : result A := snd m.

Declare Scope io_scope.
Delimit Scope io_scope with io.
Notation "x <- m ;; k" := (bind m (fun x => k))
  (at level 61, m at next level, right associativity) : io_scope.
Notation "m ;; k" := (bind m (fun _ => k))
  (at level 61, right associativity) : io_scope.

(** Decimal text of a count, as [{len(...)}] prints it. *)
Definition decimal (n : nat) : string :=
  DecimalString.NilEmpty.string_of_uint (Nat.to_uint n).

(* ------------------------------------------------------------------ *)
(** ** Uploaded files *)

(** Streamlit's [UploadedFile]: a [BytesIO] with a name and a size. *)
Record UploadedFile := mk_file {
  name : string;
  size : Z;
  data : bytes;
  closed : bool
}.

(** [pdf_file.seek(0)] followed by [pdf_file.read()] *)
Definition file_read (pdf_file : UploadedFile) : result bytes :=
  if closed pdf_file then Raise (mk_exn ValueError "I/O operation on closed file.")
  else Ok (data pdf_file).

(** [io.BytesIO(b)], rewound. *)
Definition BytesIO (b : bytes) : UploadedFile :=
  mk_file "" (Z.of_nat (List.length b)) b false.

(* ------------------------------------------------------------------ *)
(** ** pikepdf *)

(** The trailer's [/Info] entry of an open document: missing, a dictionary,
    or something whose access raises. *)
Inductive info_slot (O : Type) :=
| InfoAbsent
| InfoDict (d : dict O)
| InfoBroken (e : exn).
Arguments InfoAbsent {O}.
Arguments InfoDict {O} d.
Arguments InfoBroken {O} e.

(** An open [pikepdf.Pdf].  [content] stands for the pages and every other
    object, none of which the program touches.  [assigned] holds the keys
    of the information dictionary assigned since the document was opened,
    the latest first: what a library that stamps the modification time at
    [save] goes by to tell an entry the caller has set. *)
Record Pdf (O : Type) := mk_Pdf {
  is_encrypted : bool;
  Info : info_slot O;
  content : bytes;
  assigned : list string
}.
Arguments mk_Pdf {O}.
Arguments is_encrypted {O}.
Arguments Info {O}.
Arguments content {O}.
Arguments assigned {O}.

(** The part of pikepdf the program calls.  [Object] is the type of the
    values of a PDF dictionary; [object_str] is [str(obj)], which raises on
    objects that have no text; [object_of_str] is the String object a Python
    [str] is stored as; [setitem_check] is the exception, if any, with which
    an assignment to a dictionary entry is refused. *)
Record Pikepdf := mk_Pikepdf {
  Object : Type;
  object_str : Object -> result string;
  object_of_str : string -> Object;
  setitem_check : string -> string -> option exn;
  open : bytes -> result (Pdf Object);
  save : Pdf Object -> result bytes;
  object_str_of_str : forall s, object_str (object_of_str s) = Ok s
}.

(** The dictionary a document's metadata is read from: empty when the slot
    holds none. *)
Definition docinfo_view {O} (pdf : Pdf O) : dict O :=
  match Info pdf with
  | InfoDict d => d
  | _ => []
  end.

(** [pdf.docinfo]: the property installs an empty dictionary when the
    trailer has none, and returns the dictionary. *)
Definition docinfo {O} (pdf : Pdf O) : result (dict O * Pdf O) :=
  match Info pdf with
  | InfoAbsent => Ok ([], mk_Pdf (is_encrypted pdf) (InfoDict []) (content pdf) (assigned pdf))
  | InfoDict d => Ok (d, pdf)
  | InfoBroken e => Raise e
  end.

Section Program.

Variable L : Pikepdf.
Variable tz : tzinfo.

Local Open Scope io_scope.

(** [pikepdf.open(pdf_bytes)] *)
Definition pikepdf_open (pdf_bytes : bytes) : M (Pdf (Object L)) :=
  emit (call_open pdf_bytes) ;; lift (open L pdf_bytes).

(** [pdf.docinfo[dict_key] = value] *)
Definition docinfo_setitem (pdf : Pdf (Object L)) (dict_key value : string)
  : M (Pdf (Object L)) :=
  emit (call_setitem dict_key value) ;;
  lift (match docinfo pdf with
        | Raise e => Raise e
        | Ok (d, pdf) =>
            match setitem_check L dict_key value with
            | Some e => Raise e
            | None =>
                Ok (mk_Pdf (is_encrypted pdf)
                           (InfoDict (dict_set dict_key (object_of_str L value) d))
                           (content pdf)
                           (dict_key :: assigned pdf))
            end
        end).

(** [pdf.save(output_bytes, normalize_content=False)] *)
Definition pdf_save (pdf : Pdf (Object L)) : M bytes :=
  emit call_save ;; lift (save L pdf).

(** [str(docinfo[key])] *)
Definition str_item (d : dict (Object L)) (key : string) : result string :=
  match dict_get key d with
  | Some o => object_str L o
  | None => Raise (mk_exn KeyError key)
  end.

(* ================================================================== *)
(** * [extract_metadata] *)

(** Lines 64-69: a key whose value has no text is skipped. *)
Fixpoint stringify_each (d : dict (Object L)) (keys : list string)
  (metadata_dict : dict string) : dict string :=
  match keys with
  | [] => metadata_dict
  | key :: rest =>
      match str_item d key with
      | Ok s => stringify_each d rest (dict_set key s metadata_dict)
      | Raise _ => stringify_each d rest metadata_dict
      end
  end.

Definition extract_metadata (pdf_file : UploadedFile) : M (option (dict string)) :=
  try_catch
    (pdf_bytes <- lift (file_read pdf_file) ;;
     pdf <- pikepdf_open pdf_bytes ;;
     if is_encrypted pdf then
       emit (logging_warning "Encrypted PDF uploaded.") ;;
       emit (st_error "The uploaded PDF is encrypted and cannot be processed." []) ;;
       ret None
     else
       try_catch
         (di <- lift (docinfo pdf) ;;
          let metadata_dict := stringify_each (fst di) (dict_keys (fst di)) [] in
          emit (logging_info "Metadata successfully extracted: {} fields."
                             [decimal (List.length metadata_dict)]) ;;
          ret (Some metadata_dict))
         (fun meta_error =>
            emit (logging_error "Error accessing PDF metadata: {}" [exn_msg meta_error]) ;;
            ret (Some [])))
    (fun e =>
       match exn_type e with
       | NotImplementedError =>
           emit (logging_error "NotImplementedError: {}" [exn_msg e]) ;;
           emit (st_error "PDF feature not supported or file is invalid." []) ;;
           ret None
       | _ =>
           emit (logging_error "Error extracting metadata: {}" [exn_msg e]) ;;
           emit (st_error "An error occurred while extracting metadata." []) ;;
           ret None
       end).

(* ================================================================== *)
(** * [update_pdf_metadata] *)

(** Lines 101-102 inside their [try]: the loop ends at the first value
    without text, and what was stored before stays. *)
Fixpoint stringify_until (d : dict (Object L)) (keys : list string)
  (existing_metadata : dict string) : dict string :=
  match keys with
  | [] => existing_metadata
  | key :: rest =>
      match str_item d key with
      | Ok s => stringify_until d rest (dict_set key s existing_metadata)
      | Raise _ => existing_metadata
      end
  end.

(** Lines 99-104. *)
Definition read_existing (pdf : Pdf (Object L)) : dict string * Pdf (Object L) :=
  match docinfo pdf with
  | Ok (d, pdf) => (stringify_until d (dict_keys d) [], pdf)
  | Raise _ => ([], pdf)
  end.

(** Line 110. *)
Definition dict_key (key : string) : string :=
  if startswith key "/" then key else "/" ++ key.

(** Lines 107-112. *)
Fixpoint write_items (pdf : Pdf (Object L)) (items : dict string) : M (Pdf (Object L)) :=
  match items with
  | [] => ret pdf
  | (key, value) :: rest =>
      if truthy value then
        pdf <- docinfo_setitem pdf (dict_key key) value ;;
        write_items pdf rest
      else write_items pdf rest
  end.

(** Lines 116-118. *)
Definition keep_moddate (pdf : Pdf (Object L)) (updated_metadata existing_metadata : dict string)
  : M (Pdf (Object L)) :=
  if negb (dict_mem "/ModDate" updated_metadata) && negb (dict_mem "ModDate" updated_metadata) then
    match dict_get "/ModDate" existing_metadata with
    | Some v => if truthy v then docinfo_setitem pdf "/ModDate" v else ret pdf
    | None => ret pdf
    end
  else ret pdf.

(** Lines 98-118: the document as it is handed to [save]. *)
Definition merge_metadata (pdf : Pdf (Object L)) (updated_metadata : dict string)
  : M (Pdf (Object L)) :=
  let existing := read_existing pdf in
  pdf <- write_items (snd existing) updated_metadata ;;
  keep_moddate pdf updated_metadata (fst existing).

Definition update_pdf_metadata (pdf_file : UploadedFile) (updated_metadata : dict string)
  : M (option bytes) :=
  try_catch
    (pdf_bytes <- lift (file_read pdf_file) ;;
     pdf <- pikepdf_open pdf_bytes ;;
     pdf <- merge_metadata pdf updated_metadata ;;
     output_bytes <- pdf_save pdf ;;
     emit (logging_info "Metadata updated successfully: {}" (dict_keys updated_metadata)) ;;
     ret (Some output_bytes))
    (fun e =>
       emit (logging_error "Error updating PDF metadata: {}" [exn_msg e]) ;;
       emit (st_error "Failed to update metadata: {}" [exn_msg e]) ;;
       ret None).

End Program.

(* ================================================================== *)
(** * [get_format_hint] *)

(** [c.lower()] on the code points below 256. *)
Definition lower_char (c : ascii) : ascii :=
  let n := ord c in
  if ((65 <=? n) && (n <=? 90) || (192 <=? n) && (n <=? 222) && negb (n =? 215))%N
  then ascii_of_N (n + 32) else c.

Fixpoint lower (s : string) : string :=
  match s with
  | EmptyString => EmptyString
  | String c r => String (lower_char c) (lower r)
  end.

Definition hints : dict string :=
  [ ("Title", "e.g., My Document Title");
    ("Author", "e.g., John Doe");
    ("Subject", "e.g., Document subject or description");
    ("Keywords", "e.g., keyword1, keyword2, keyword3");
    ("Creator", "e.g., Microsoft Word");
    ("Producer", "e.g., Adobe PDF Library");
    ("CreationDate", "e.g., D:20260211120000 (Format: D:YYYYMMDDHHmmSS)");
    ("ModDate", "e.g., D:20260211120000 (Format: D:YYYYMMDDHHmmSS)") ].

Definition get_format_hint (key : string) : string :=
  match find (fun h => contains (lower key) (lower (fst h))) hints with
  | Some h => snd h
  | None => "Enter new value for this field"
  end.

(* ================================================================== *)
(** * [main]: one run of the Streamlit script *)

(** What the widgets return during the run.  A text input the user left
    alone returns its default, [None] here. *)
Record Run := mk_Run {
  rerun_button : bool;
  uploaded_file : option UploadedFile;
  checkbox : string -> bool;
  submit_button : bool;
  text_input : string -> option string;
  save_option : string;
  save_button : bool
}.

(** The two entries of [st.session_state] the script keeps. *)
Record Session := mk_Session {
  displayed_metadata : option (list string);
  all_metadata : option (dict string)
}.

Definition MAX_UPLOAD : Z := 10 * 1024 * 1024.

(** [str(value)] of what [dict.get] returned. *)
Definition str_of_get (value : option string) : string :=
  match value with
  | Some s => s
  | None => "None"
  end.

Section Script.

Variable L : Pikepdf.
Variable tz : tzinfo.
Variable ui : Run.

Local Open Scope io_scope.

(** Lines 300-312. *)
Fixpoint show_selected (metadata : dict string) (selected_keys : list string) : M unit :=
  match selected_keys with
  | [] => ret tt
  | key :: rest =>
      let value := dict_get key metadata in
      value <- (if contains (lower key) "date" || contains key "Date"
                then lift (parse_pdf_date tz (str_of_get value))
                else ret (str_of_get value)) ;;
      emit (metadata_card key value) ;;
      show_selected metadata rest
  end.

(** Lines 293-317. *)
Definition submit (metadata : dict string) (selected_keys : list string) (session : Session)
  : M Session :=
  if submit_button ui then
    match selected_keys with
    | _ :: _ =>
        show_selected metadata selected_keys ;;
        emit (logging_info "Displayed metadata fields: {}" selected_keys) ;;
        ret (mk_Session (Some selected_keys) (Some metadata))
    | [] =>
        emit (st_warning "Please select at least one metadata field.") ;;
        emit (logging_info "Submit clicked with no fields selected." []) ;;
        ret session
    end
  else ret session.

(** Lines 345-364. *)
Fixpoint enter_values (session : Session) (fields_to_edit : list string)
  (updated_values : dict string) : M (dict string) :=
  match fields_to_edit with
  | [] => ret updated_values
  | key :: rest =>
      stored <- lift (match all_metadata session with
                      | Some m => Ok m
                      | None => Raise (mk_exn KeyError "all_metadata")
                      end) ;;
      let current_value := match dict_get key stored with Some v => v | None => "" end in
      emit (st_caption "Format: {}" [get_format_hint key]) ;;
      emit (st_caption "Current value: `{}`" [current_value]) ;;
      let new_value := match text_input ui ("input_" ++ key) with Some v => v | None => "" end in
      enter_values session rest
        (if truthy new_value then dict_set key new_value updated_values else updated_values)
  end.

(** Lines 367-416. *)
Definition save_section (file : UploadedFile) (updated_values : dict string) : M unit :=
  match updated_values with
  | [] => emit (st_info "Enter new values for the selected fields to enable saving.")
  | _ :: _ =>
      new_filename <-
        (if String.eqb (save_option ui) "Save as new file" then
           ret (match text_input ui "new_filename" with
                | Some v => v
                | None => "updated_" ++ name file
                end)
         else
           emit (st_warning "This will replace the original file when you download it.") ;;
           ret (name file)) ;;
      if save_button ui then
        updated_pdf <- update_pdf_metadata L file updated_values ;;
        match updated_pdf with
        | Some output =>
            emit (st_success "Metadata updated successfully!" []) ;;
            emit (st_download_button
                    (if String.eqb (save_option ui) "Save as new file"
                     then "Download Updated PDF" else "Download (Overwrite Original)")
                    output new_filename) ;;
            emit (logging_info "PDF metadata updated ({}): {}"
                    ((if String.eqb (save_option ui) "Save as new file"
                      then "new file" else "overwrite") :: dict_keys updated_values))
        | None => ret tt
        end
      else ret tt
  end.

(** Lines 320-418. *)
Definition edit_section (file : UploadedFile) (session : Session) : M unit :=
  match displayed_metadata session with
  | Some ((_ :: _) as displayed_keys) =>
      let fields_to_edit := filter (fun key => checkbox ui ("edit_" ++ key)) displayed_keys in
      match fields_to_edit with
      | _ :: _ =>
          updated_values <- enter_values session fields_to_edit [] ;;
          save_section file updated_values
      | [] => emit (st_info "Select fields above to edit their values.")
      end
  | _ => ret tt
  end.

(** Lines 254-418: what follows the size check. *)
Definition process_upload (file : UploadedFile) (session : Session) : M Session :=
  metadata <- extract_metadata L file ;;
  match metadata with
  | None => ret session
  | Some metadata =>
      match dict_keys metadata with
      | [] =>
          emit (st_warning "No metadata found in this PDF.") ;;
          emit (logging_info "No metadata present in the uploaded PDF." []) ;;
          ret session
      | (_ :: _) as keys =>
          emit (st_success "Found {} metadata fields!" [decimal (List.length keys)]) ;;
          session <- submit metadata (filter (checkbox ui) keys) session ;;
          edit_section file session ;;
          ret session
      end
  end.

(** The run ends with the session state it leaves.  The sidebar's button
    clears the state and restarts the script, which ends this run. *)
Definition main (session : Session) : M Session :=
  if rerun_button ui then ret (mk_Session None None)
  else
    match uploaded_file ui with
    | None => ret session
    | Some file =>
        if MAX_UPLOAD <? size file then
          emit (st_error "File is too large. Please upload a PDF under 10MB." []) ;;
          emit (logging_warning "File upload rejected due to size limit.") ;;
          ret session
        else process_upload file session
    end.

End Script.

(* ================================================================== *)
(** * A small instance of the pikepdf interface *)

(** A byte format with just enough of a PDF to run the program on concrete
    files: a flag byte (plain, encrypted and readable, or locked by a
    password), the information dictionary, and the rest of the file. *)
Module Mini.

Import Byte.

Inductive Object :=
| String_ (text : string)
| Name (name : string)
| Array.

Definition object_str (o : Object) : result string :=
  match o with
  | String_ s => Ok s
  | Name s => Ok s
  | Array => Raise (mk_exn NotImplementedError "don't know how to __str__ this object")
  end.

Definition setitem_check (key value : string) : option exn :=
  if String.eqb key "/" then Some (mk_exn KeyError "PDF Dictionary keys may not be '/'")
  else if startswith key "/" then None
  else Some (mk_exn KeyError "PDF Dictionary keys must begin with '/'").

Fixpoint enc_string (s : string) : bytes :=
  match s with
  | EmptyString => [x00]
  | String c r => x01 :: byte_of_ascii c :: enc_string r
  end.

Fixpoint dec_string (b : bytes) : option (string * bytes) :=
  match b with
  | x00 :: r => Some (EmptyString, r)
  | x01 :: c :: r =>
      match dec_string r with
      | Some (s, r') => Some (String (ascii_of_byte c) s, r')
      | None => None
      end
  | _ => None
  end.

Definition enc_object (o : Object) : bytes :=
  match o with
  | String_ s => x01 :: enc_string s
  | Name s => x02 :: enc_string s
  | Array => [x03]
  end.

Definition dec_object (b : bytes) : option (Object * bytes) :=
  match b with
  | x01 :: r => option_map (fun sr => (String_ (fst sr), snd sr)) (dec_string r)
  | x02 :: r => option_map (fun sr => (Name (fst sr), snd sr)) (dec_string r)
  | x03 :: r => Some (Array, r)
  | _ => None
  end.

Fixpoint enc_dict (d : dict Object) : bytes :=
  match d with
  | [] => [x00]
  | (k, o) :: r => (x01 :: enc_string k ++ enc_object o ++ enc_dict r)%list
  end.

Fixpoint dec_dict (fuel : nat) (b : bytes) : option (dict Object * bytes) :=
  match fuel with
  | O => None
  | S fuel =>
      match b with
      | x00 :: r => Some ([], r)
      | x01 :: r =>
          match dec_string r with
          | Some (k, r1) =>
              match dec_object r1 with
              | Some (o, r2) =>
                  match dec_dict fuel r2 with
                  | Some (d, r3) => Some ((k, o) :: d, r3)
                  | None => None
                  end
              | None => None
              end
          | None => None
          end
      | _ => None
      end
  end.

Definition enc_info (i : info_slot Object) : bytes :=
  match i with
  | InfoDict d => x01 :: enc_dict d
  | _ => [x00]
  end.

Definition dec_info (b : bytes) : option (info_slot Object * bytes) :=
  match b with
  | x00 :: r => Some (InfoAbsent, r)
  | x01 :: r => option_map (fun dr => (InfoDict (fst dr), snd dr)) (dec_dict (List.length b) r)
  | _ => None
  end.

Definition not_a_pdf : exn := mk_exn PdfError "unable to find trailer dictionary".

Definition open (b : bytes) : result (Pdf Object) :=
  match b with
  | x02 :: _ => Raise (mk_exn PasswordError "invalid password")
  | flag :: r =>
      match dec_info r with
      | Some (i, rest) =>
          if Byte.eqb flag x00 then Ok (mk_Pdf false i rest [])
          else if Byte.eqb flag x01 then Ok (mk_Pdf true i rest [])
          else Raise not_a_pdf
      | None => Raise not_a_pdf
      end
  | [] => Raise not_a_pdf
  end.

(** As pikepdf does unless asked otherwise, [save] writes the document
    without encryption. *)
Definition save (pdf : Pdf Object) : result bytes :=
  match Info pdf with
  | InfoBroken e => Raise e
  | i => Ok (x00 :: enc_info i ++ content pdf)%list
  end.

Definition lib : Pikepdf :=
  mk_Pikepdf Object object_str String_ setitem_check open save (fun s => eq_refl).

(** A file with the given information dictionary and no other content. *)
Definition pdf_with (d : dict Object) : UploadedFile :=
  BytesIO (x00 :: enc_info (InfoDict d)).

End Mini.

(** The same library, except that [save] stamps the time of saving on
    [/ModDate] unless the caller has assigned that entry since the document
    was opened: the refresh that lines 114-118 are written against. *)
Module Stamping.

Definition now : string := "D:20260211120000".

Definition stamp (pdf : Pdf Mini.Object) : Pdf Mini.Object :=
  match Info pdf with
  | InfoDict d =>
      if existsb (String.eqb "/ModDate") (assigned pdf) then pdf
      else mk_Pdf (is_encrypted pdf)
                  (InfoDict (dict_set "/ModDate" (Mini.String_ now) d))
                  (content pdf) (assigned pdf)
  | _ => pdf
  end.

Definition save (pdf : Pdf Mini.Object) : result bytes := Mini.save (stamp pdf).

Definition lib : Pikepdf :=
  mk_Pikepdf Mini.Object Mini.object_str Mini.String_ Mini.setitem_check
             Mini.open save (fun s => eq_refl).

End Stamping.

(* ================================================================== *)
(** * Vocabulary of the statements *)

Section Vocabulary.

Variable L : Pikepdf.

(** A document is encrypted when pikepdf opens it and flags it so, or
    refuses to open it without a password. *)
Definition encrypted (b : bytes) : Prop :=
  match open L b with
  | Ok pdf => is_encrypted pdf = true
  | Raise e => exn_type e = PasswordError
  end.

(** The text a dictionary shows for a key, if any. *)
Definition text_of (d : dict (Object L)) (k : string) : option string :=
  match str_item L d k with
  | Ok s => Some s
  | Raise _ => None
  end.

End Vocabulary.

(** Two documents agree on what the program reads or keeps of them. *)
Definition same_shell {O} (p q : Pdf O) : Prop :=
  is_encrypted q = is_encrypted p /\ content q = content p.

Definition shows_metadata (ev : event) : bool :=
  match ev with
  | metadata_card _ _ | st_success _ _ | st_download_button _ _ _ => true
  | _ => false
  end.

Definition is_call_open (ev : event) : bool :=
  match ev with
  | call_open _ => true
  | _ => false
  end.

(** The assignments a request asks for: one per entry with a non-empty
    value, under the normalised key, in the order of the request. *)
Definition writes (items : dict string) : trace :=
  map (fun kv => call_setitem (dict_key (fst kv)) (snd kv))
      (filter (fun kv => truthy (snd kv)) items).

(** No entry of the request with a value assigns to [n]. *)
Definition untouched (n : string) (items : dict string) : Prop :=
  forall k v, In (k, v) items -> truthy v = true -> dict_key k <> n.

(** The assumption made of pikepdf wherever a theorem speaks of the bytes
    written: what [save] wrote, [open] reads back as a document with an
    information dictionary of the same entries, and not as an encrypted
    one when the document saved was not.  ([save] removes the encryption
    of a document that had one: nothing is asked of the flag there.) *)
Definition save_open_faithful (L : Pikepdf) : Prop :=
  forall (q : Pdf (Object L)) (b : bytes),
    save L q = Ok b ->
    exists q',
      open L b = Ok q' /\
      (is_encrypted q = false -> is_encrypted q' = false) /\
      dict_eq (docinfo_view q') (docinfo_view q).

(** The least to ask of a library that may set entries of its own at
    [save], the modification time for one: an entry assigned since the
    document was opened is written as it was assigned.  Nothing is asked
    of the other entries. *)
Definition save_keeps_assigned (L : Pikepdf) : Prop :=
  forall (q : Pdf (Object L)) (b : bytes),
    save L q = Ok b ->
    exists q',
      open L b = Ok q' /\
      forall k, In k (assigned q) ->
        dict_get k (docinfo_view q') = dict_get k (docinfo_view q).

(** A field name without its leading slash. *)
Definition bare (n : string) : string :=
  match n with
  | String "/"%char r => r
  | _ => n
  end.

Definition is_setitem (ev : event) : bool :=
  match ev with
  | call_setitem _ _ => true
  | _ => false
  end.

(** ** Dates *)

Definition leap_days (leapyear : bool) (m : Z) : Z :=
  if (2 <? m) && leapyear then 1 else 0.

Definition month_length (leapyear : bool) (m : Z) : Z :=
  if m =? 2 then (if leapyear then 29 else 28)
  else if (m =? 4) || (m =? 6) || (m =? 9) || (m =? 11) then 30
  else 31.

(** The integers [1 .. n]. *)
Definition upto (n : Z) : list Z := map Z.of_nat (seq 1 (Z.to_nat n)).

Definition doy2md_inverts (leapyear : bool) (m d : Z) : bool :=
  let md := doy2md leapyear (DAYS_BEFORE_MONTH m + leap_days leapyear m + d - 1) in
  (fst md =? m) && (snd md =? d).

Definition doy2md_checked (leapyear : bool) : bool :=
  forallb (fun m => forallb (doy2md_inverts leapyear m) (upto (month_length leapyear m)))
          (upto 12).

(** [D:YYYYMMDDHHMMSS] for the given fields. *)
Definition pdf_date_string (y m d h mi s : Z) : string :=
  "D:" ++ fmt04 y ++ fmt02 m ++ fmt02 d ++ fmt02 h ++ fmt02 mi ++ fmt02 s.

(** The fields name a date and a time of day. *)
Definition valid_fields (y m d h mi s : Z) : Prop :=
  1 <= y <= 9999 /\ 1 <= m <= 12 /\ 1 <= d <= days_in_month y m /\
  0 <= h <= 23 /\ 0 <= mi <= 59 /\ 0 <= s <= 59.

(** ** Sample files *)

Module Sample.

Import Byte.

Definition info : dict Mini.Object :=
  [ ("/Title", Mini.String_ "Old");
    ("/Author", Mini.String_ "X");
    ("/ModDate", Mini.String_ "D:20250101000000") ].

Definition doc : Pdf Mini.Object := mk_Pdf false (InfoDict info) [] [].

Definition pdf : UploadedFile := Mini.pdf_with info.

Definition new_title : dict string := [("Title", "New Title")].

(** What [update_pdf_metadata] returns, or no bytes at all. *)
Definition updated (file : UploadedFile) (request : dict string) : bytes :=
  match outcome (update_pdf_metadata Mini.lib file request) with
  | Ok (Some output) => output
  | _ => []
  end.

Definition retitled : bytes := Eval vm_compute in updated pdf new_title.

Definition resaved : bytes := Eval vm_compute in updated pdf [].

(** The same request, with a library that stamps [/ModDate] at [save]. *)
Definition stamped (file : UploadedFile) (request : dict string) : bytes :=
  match outcome (update_pdf_metadata Stamping.lib file request) with
  | Ok (Some output) => output
  | _ => []
  end.


(** A document whose [/ModDate] is the empty string. *)
Definition undated : dict Mini.Object :=
  [ ("/Title", Mini.String_ "Old"); ("/ModDate", Mini.String_ "") ].

Definition undated_pdf : UploadedFile := Mini.pdf_with undated.

(** Readable with the empty password, and flagged as encrypted. *)
Definition encrypted_pdf : UploadedFile := BytesIO [x01; x00].

(** Not readable without a password. *)
Definition locked_pdf : UploadedFile := BytesIO [x02].

(** A document without an information dictionary. *)
Definition bare_pdf : UploadedFile := BytesIO [x00; x00].

(** Twelve megabytes, by its declared size. *)
Definition big_upload : UploadedFile := mk_file "big.pdf" (12 * 1024 * 1024) [] false.

Definition run_with (file : UploadedFile) : Run :=
  mk_Run false (Some file) (fun _ => false) false (fun _ => None) "Save as new file" false.

Definition fresh : Session := mk_Session None None.

End Sample.

(* ------------------------------------------------------------------ *)
(** ** Further vocabulary *)

Definition is_call_save (ev : event) : bool :=
  match ev with
  | call_save => true
  | _ => false
  end.

(** A call into pikepdf. *)
Definition is_library_call (ev : event) : bool :=
  is_call_open ev || is_setitem ev || is_call_save ev.

Definition is_st_error (ev : event) : bool :=
  match ev with
  | st_error _ _ => true
  | _ => false
  end.

(** What a card shows for a field. *)
Definition display_value (tz : tzinfo) (metadata : dict string) (key : string) : string :=
  let value := str_of_get (dict_get key metadata) in
  if contains (lower key) "date" || contains key "Date" then
    match parse_pdf_date tz value with
    | Ok text => text
    | Raise _ => value
    end
  else value.

(** The stored metadata is there whenever displayed fields are. *)
Definition sound_session (session : Session) : Prop :=
  match displayed_metadata session, all_metadata session with
  | Some _, None => False
  | _, _ => True
  end.

(** An event that changes or writes a document. *)
Definition is_write (ev : event) : bool := is_setitem ev || is_call_save ev.

(** The hint for the two date fields. *)
Definition date_hint : string := "e.g., D:20260211120000 (Format: D:YYYYMMDDHHmmSS)".

(** What the user typed for a field, if anything. *)
Definition typed (ui : Run) (key : string) : string :=
  match text_input ui ("input_" ++ key) with
  | Some v => v
  | None => EmptyString
  end.

Definition is_download (ev : event) : bool :=
  match ev with
  | st_download_button _ _ _ => true
  | _ => false
  end.

(** The name the download is given. *)
Definition download_name (ui : Run) (file : UploadedFile) : string :=
  if String.eqb (save_option ui) "Save as new file" then
    match text_input ui "new_filename" with
    | Some v => v
    | None => "updated_" ++ name file
    end
  else name file.

(** ** Further sample inputs *)

Module Cases.

Import Byte.

(** A pikepdf in which reading [/Info] raises for every document. *)
Definition no_info : exn := mk_exn PdfError "object is not a dictionary".

Definition unreadable_info : Pikepdf :=
  mk_Pikepdf Mini.Object Mini.object_str Mini.String_ Mini.setitem_check
             (fun b => Ok (mk_Pdf false (InfoBroken no_info) b []))
             Mini.save (fun s => eq_refl).

(** A dictionary whose first value has no text. *)
Definition kids_first : dict Mini.Object :=
  [ ("/Kids", Mini.Array); ("/ModDate", Mini.String_ "D:20250101000000") ].

Definition kids_doc : Pdf Mini.Object := mk_Pdf false (InfoDict kids_first) [] [].

Definition kids_pdf : UploadedFile := Mini.pdf_with kids_first.

(** A document whose only value has no text. *)
Definition kids_only : dict Mini.Object := [ ("/Kids", Mini.Array) ].

Definition kids_only_doc : Pdf Mini.Object := mk_Pdf false (InfoDict kids_only) [] [].

Definition kids_only_pdf : UploadedFile := Mini.pdf_with kids_only.

(** A file of exactly the limit, by its declared size. *)
Definition ten_megabytes : UploadedFile := mk_file "ten.pdf" MAX_UPLOAD [] false.

(** The user has typed a new title. *)
Definition typing : Run :=
  mk_Run false (Some Sample.pdf) (fun _ => true) false
         (fun key => if String.eqb key "input_/Title" then Some "New Title" else None)
         "Save as new file" false.

(** The same, with the Save button pressed. *)
Definition saving : Run :=
  mk_Run false (Some Sample.pdf) (fun _ => true) false
         (fun key => if String.eqb key "input_/Title" then Some "New Title" else None)
         "Save as new file" true.

Definition viewing : Session :=
  mk_Session (Some ["/Title"]) (Some [("/Title", "Old")]).

(** A record as [extract_metadata] gives it. *)
Definition record : dict string :=
  [("/Title", "Old"); ("/ModDate", "D:20260211170000")].

Definition overflow : exn := mk_exn OverflowError "date value out of range".

End Cases.

(* ================================================================== *)
(** * Theorems *)

(** ** The monad *)

Lemma outcome_bind_ok {A B} (m : M A) (k : A -> M B) (b : B) :
  outcome (bind m k) = Ok b ->
  exists a, outcome m = Ok a /\ outcome (k a) = Ok b.
Proof.
  destruct m as [t [a | e]]; simpl; [| discriminate].
  destruct (k a) as [t' r] eqn:E; simpl; intros ->.
  exists a; rewrite E; auto.
Qed.

Lemma bind_ok {A B} (m : M A) (k : A -> M B) (t : trace) (b : B) :
  bind m k = (t, Ok b) ->
  exists t1 a t2, m = (t1, Ok a) /\ k a = (t2, Ok b) /\ t = (t1 ++ t2)%list.
Proof.
  destruct m as [t1 [a | e]]; simpl; [| discriminate].
  destruct (k a) as [t2 r] eqn:E; intros H; inversion H; subst.
  exists t1, a, t2; auto.
Qed.

(** A handler that returns makes the whole [try] return. *)
Lemma try_catch_returns {A} (body : M A) (handler : exn -> M A) :
  (forall e, exists a, outcome (handler e) = Ok a) ->
  exists a, outcome (try_catch body handler) = Ok a.
Proof.
  intros H; destruct body as [t [a | e]]; simpl; [eauto |].
  destruct (H e) as [a Ha]; destruct (handler e) as [t' r]; simpl in *; eauto.
Qed.

Section Accessor.

Variable L : Pikepdf.

(** ** [extract_metadata] on encrypted and on empty documents *)

(** C5. On an encrypted document [extract_metadata] returns [None]: after
    the call that opens the file the only effects are one log line and one
    error message, and the run that called it ends there, leaving the
    session as it was and showing no metadata. *)
Theorem extract_metadata_encrypted (file : UploadedFile) :
  closed file = false ->
  encrypted L (data file) ->
  outcome (extract_metadata L file) = Ok None /\
  (events (extract_metadata L file) =
     [call_open (data file);
      logging_warning "Encrypted PDF uploaded.";
      st_error "The uploaded PDF is encrypted and cannot be processed." []] \/
   exists e,
     events (extract_metadata L file) =
       [call_open (data file);
        logging_error "Error extracting metadata: {}" [exn_msg e];
        st_error "An error occurred while extracting metadata." []]) /\
  forall tz ui session,
    outcome (process_upload L tz ui file session) = Ok session /\
    existsb shows_metadata (events (process_upload L tz ui file session)) = false.
Proof.
  intros Hc He. unfold encrypted in He.
  assert (E : extract_metadata L file =
                ([call_open (data file);
                  logging_warning "Encrypted PDF uploaded.";
                  st_error "The uploaded PDF is encrypted and cannot be processed." []],
                 Ok None) \/
              exists e,
                extract_metadata L file =
                  ([call_open (data file);
                    logging_error "Error extracting metadata: {}" [exn_msg e];
                    st_error "An error occurred while extracting metadata." []],
                   Ok None)).
  { unfold extract_metadata, file_read, pikepdf_open. rewrite Hc. simpl.
    destruct (open L (data file)) as [pdf | e]; simpl.
    - rewrite He. simpl. now left.
    - rewrite He. simpl. right. now exists e. }
  split; [destruct E as [E | [e E]]; now rewrite E |].
  split; [destruct E as [E | [e E]]; rewrite E; simpl; eauto |].
  intros tz ui session. unfold process_upload.
  destruct E as [E | [e E]]; rewrite E; simpl; split; reflexivity.
Qed.

(** C6. A readable, unencrypted document without an information
    dictionary, or with an empty one, gives the empty record, which is not
    the [None] of a failure. *)
Theorem extract_metadata_empty (file : UploadedFile) (pdf : Pdf (Object L)) :
  closed file = false ->
  open L (data file) = Ok pdf ->
  is_encrypted pdf = false ->
  Info pdf = InfoAbsent \/ Info pdf = InfoDict [] ->
  outcome (extract_metadata L file) = Ok (Some []) /\
  outcome (extract_metadata L file) <> Ok None.
Proof.
  intros Hc Ho He Hi.
  assert (E : outcome (extract_metadata L file) = Ok (Some [])).
  { unfold extract_metadata, file_read, pikepdf_open, docinfo.
    rewrite Hc. simpl. rewrite Ho. simpl. rewrite He.
    destruct Hi as [-> | ->]; reflexivity. }
  split; [exact E | rewrite E; discriminate].
Qed.

(** C9. Neither function lets an exception reach its caller: whatever the
    file, the request and the library do, each returns a value, a record or
    a buffer, or [None]. *)
Theorem no_exception_escapes (file : UploadedFile) (updated_metadata : dict string) :
  (exists r : option (dict string), outcome (extract_metadata L file) = Ok r) /\
  (exists r : option bytes, outcome (update_pdf_metadata L file updated_metadata) = Ok r).
Proof.
  split.
  - apply try_catch_returns. intros e. exists None.
    destruct (exn_type e); reflexivity.
  - apply try_catch_returns. intros e. exists None. reflexivity.
Qed.

End Accessor.

(** ** The size check of [main] *)

(** Every call of [extract_metadata] leaves a mark in the trace. *)
Lemma extract_metadata_leaves_events (L : Pikepdf) (file : UploadedFile) :
  events (extract_metadata L file) <> [].
Proof.
  unfold extract_metadata, file_read, pikepdf_open.
  destruct (closed file); simpl; [discriminate |].
  destruct (open L (data file)) as [pdf | e]; simpl;
    [| destruct (exn_type e); discriminate].
  destruct (is_encrypted pdf); simpl; [discriminate |].
  destruct (docinfo pdf) as [di | e]; simpl; discriminate.
Qed.

(** C8. A file over the limit is turned away at once: the run shows the
    error, logs the rejection and ends; the trace holds nothing else, so the
    file is never opened and no metadata is extracted from it. *)
Theorem oversize_upload_rejected (L : Pikepdf) (tz : tzinfo) (ui : Run)
  (file : UploadedFile) (session : Session) :
  uploaded_file ui = Some file ->
  MAX_UPLOAD < size file ->
  existsb is_call_open (events (main L tz ui session)) = false /\
  (rerun_button ui = false ->
   main L tz ui session =
     ([st_error "File is too large. Please upload a PDF under 10MB." [];
       logging_warning "File upload rejected due to size limit."],
      Ok session)).
Proof.
  intros Hf Hs. unfold main. rewrite Hf.
  apply Z.ltb_lt in Hs. rewrite Hs.
  destruct (rerun_button ui); split; try reflexivity; discriminate.
Qed.

(** ** Dictionaries *)

Lemma dict_get_set_same {V} (k : string) (v : V) (d : dict V) :
  dict_get k (dict_set k v d) = Some v.
Proof.
  induction d as [| [k' v'] r IH]; simpl.
  - now rewrite String.eqb_refl.
  - destruct (String.eqb k k') eqn:E; simpl; rewrite E; auto.
Qed.

Lemma dict_get_set_other {V} (k n : string) (v : V) (d : dict V) :
  k <> n -> dict_get n (dict_set k v d) = dict_get n d.
Proof.
  intros Hn. induction d as [| [k' v'] r IH]; simpl.
  - destruct (String.eqb n k) eqn:E; auto.
    apply String.eqb_eq in E. congruence.
  - destruct (String.eqb k k') eqn:E; simpl.
    + apply String.eqb_eq in E. subst k'.
      destruct (String.eqb n k) eqn:E'; auto.
      apply String.eqb_eq in E'. congruence.
    + now rewrite IH.
Qed.

Lemma dict_get_In {V} (k : string) (v : V) (d : dict V) :
  dict_get k d = Some v -> In (k, v) d.
Proof.
  induction d as [| [k' v'] r IH]; simpl; [discriminate |].
  destruct (String.eqb k k') eqn:E.
  - apply String.eqb_eq in E. intros [= ->]. subst. now left.
  - auto.
Qed.

Lemma dict_get_not_key {V} (k : string) (d : dict V) :
  existsb (String.eqb k) (dict_keys d) = false -> dict_get k d = None.
Proof.
  induction d as [| [k' v'] r IH]; simpl; auto.
  destruct (String.eqb k k'); simpl; [discriminate | auto].
Qed.

Lemma dict_mem_false_In {V} (k : string) (v : V) (d : dict V) :
  dict_mem k d = false -> ~ In (k, v) d.
Proof.
  unfold dict_mem. induction d as [| [k' v'] r IH]; simpl; auto.
  destruct (String.eqb k k') eqn:E; simpl; [discriminate |].
  intros H [Heq | Hin]; [| now apply IH].
  inversion Heq; subst. now rewrite String.eqb_refl in E.
Qed.

Lemma dict_mem_get {V} (k : string) (v : V) (d : dict V) :
  dict_get k d = Some v -> dict_mem k d = true.
Proof.
  unfold dict_mem. induction d as [| [k' v'] r IH]; simpl; [discriminate |].
  destruct (String.eqb k k'); simpl; auto.
Qed.

(** ** Key normalisation *)

Lemma startswith_cons (a b : ascii) (s p : string) :
  startswith (String b s) (String a p) = Ascii.eqb a b && startswith s p.
Proof. reflexivity. Qed.

Lemma startswith_empty (s : string) : startswith s "" = true.
Proof. now destruct s. Qed.

Lemma dict_key_ModDate (key : string) :
  dict_key key = "/ModDate" -> key = "/ModDate" \/ key = "ModDate".
Proof.
  unfold dict_key.
  destruct key as [| c r]; [discriminate |].
  rewrite startswith_cons, startswith_empty, andb_true_r.
  destruct (Ascii.eqb "/" c) eqn:E.
  - auto.
  - intros H. cbn [append] in H. right. congruence.
Qed.

(** A key with its slash is left as it is. *)
Lemma dict_key_slash (r : string) : dict_key (String "/"%char r) = String "/"%char r.
Proof. unfold dict_key. now rewrite startswith_cons, startswith_empty. Qed.

Section Merger.

Variable L : Pikepdf.

Lemma text_of_get (d d' : dict (Object L)) (k : string) :
  dict_get k d = dict_get k d' -> text_of L d k = text_of L d' k.
Proof. unfold text_of, str_item. now intros ->. Qed.

Lemma text_of_str (d : dict (Object L)) (k s : string) :
  dict_get k d = Some (object_of_str L s) -> text_of L d k = Some s.
Proof.
  unfold text_of, str_item. intros ->. now rewrite object_str_of_str.
Qed.

(** ** The two loops that read the dictionary *)

Lemma stringify_each_get (d : dict (Object L)) (keys : list string) :
  forall (acc : dict string) (k : string),
    dict_get k (stringify_each L d keys acc) =
    match (if existsb (String.eqb k) keys then text_of L d k else None) with
    | Some s => Some s
    | None => dict_get k acc
    end.
Proof.
  induction keys as [| key rest IH]; intros acc k; simpl; [reflexivity |].
  destruct (String.eqb k key) eqn:E; simpl.
  - apply String.eqb_eq in E. subst key. unfold text_of at 1.
    destruct (str_item L d k) as [s | e] eqn:Es; rewrite IH.
    + unfold text_of. rewrite Es, dict_get_set_same.
      now destruct (existsb (String.eqb k) rest).
    + unfold text_of. rewrite Es.
      now destruct (existsb (String.eqb k) rest).
  - assert (Hne : key <> k) by (intros ->; now rewrite String.eqb_refl in E).
    destruct (str_item L d key) as [s | e]; rewrite IH; auto.
    now rewrite dict_get_set_other.
Qed.

(** The record [extract_metadata] builds holds, for each key, the text of
    its value. *)
Lemma stringify_each_all (d : dict (Object L)) (k : string) :
  dict_get k (stringify_each L d (dict_keys d) []) = text_of L d k.
Proof.
  rewrite stringify_each_get. simpl.
  destruct (existsb (String.eqb k) (dict_keys d)) eqn:E.
  - now destruct (text_of L d k).
  - unfold text_of, str_item. now rewrite (dict_get_not_key _ _ E).
Qed.

Lemma stringify_until_get (d : dict (Object L)) (keys : list string) :
  forall (acc : dict string) (k s : string),
    dict_get k (stringify_until L d keys acc) = Some s ->
    dict_get k acc = Some s \/ text_of L d k = Some s.
Proof.
  induction keys as [| key rest IH]; intros acc k s; simpl; auto.
  destruct (str_item L d key) as [s' | e] eqn:Es; auto.
  intros H. apply IH in H. destruct H as [H | H]; auto.
  destruct (String.eqb key k) eqn:E.
  - apply String.eqb_eq in E. subst key. rewrite dict_get_set_same in H.
    injection H as ->. right. unfold text_of. now rewrite Es.
  - left. rewrite dict_get_set_other in H; auto.
    intros ->. now rewrite String.eqb_refl in E.
Qed.

Lemma read_existing_spec (pdf : Pdf (Object L)) :
  same_shell pdf (snd (read_existing L pdf)) /\
  docinfo_view (snd (read_existing L pdf)) = docinfo_view pdf /\
  forall k s, dict_get k (fst (read_existing L pdf)) = Some s ->
              text_of L (docinfo_view pdf) k = Some s.
Proof.
  unfold read_existing, docinfo, docinfo_view, same_shell.
  destruct pdf as [enc [| d | e] c]; simpl.
  - repeat split; auto; discriminate.
  - repeat split; auto. intros k s H.
    apply stringify_until_get in H. destruct H as [H | H]; [discriminate | auto].
  - repeat split; auto; discriminate.
Qed.

(** ** Assignments *)

Lemma docinfo_setitem_events (pdf : Pdf (Object L)) (k v : string) :
  events (docinfo_setitem L pdf k v) = [call_setitem k v].
Proof.
  unfold docinfo_setitem, bind, emit, lift. simpl.
  destruct (docinfo pdf) as [[d p] | e]; [destruct (setitem_check L k v) |]; reflexivity.
Qed.

Lemma docinfo_setitem_ok (pdf q : Pdf (Object L)) (k v : string) (t : trace) :
  docinfo_setitem L pdf k v = (t, Ok q) ->
  t = [call_setitem k v] /\ same_shell pdf q /\
  docinfo_view q = dict_set k (object_of_str L v) (docinfo_view pdf).
Proof.
  unfold docinfo_setitem, bind, emit, lift, docinfo, docinfo_view, same_shell. simpl.
  destruct pdf as [enc [| d | e] c]; simpl; try discriminate;
    destruct (setitem_check L k v); simpl; try discriminate;
    intros H; inversion H; subst; simpl; auto.
Qed.


Lemma writes_cons (key value : string) (rest : dict string) :
  writes ((key, value) :: rest) =
  if truthy value then call_setitem (dict_key key) value :: writes rest
  else writes rest.
Proof. unfold writes. simpl. now destruct (truthy value). Qed.

Lemma write_items_ok (items : dict string) :
  forall (pdf q : Pdf (Object L)) (t : trace),
    write_items L pdf items = (t, Ok q) ->
    t = writes items /\ same_shell pdf q /\
    forall n, untouched n items ->
              dict_get n (docinfo_view q) = dict_get n (docinfo_view pdf).
Proof.
  induction items as [| [key value] rest IH]; intros pdf q t; cbn [write_items].
  - intros [= <- <-]. unfold same_shell. auto.
  - rewrite writes_cons. destruct (truthy value) eqn:Ev.
    + intros H. apply bind_ok in H. destruct H as (t1 & p1 & t2 & H1 & H2 & ->).
      apply docinfo_setitem_ok in H1. destruct H1 as (-> & [He Hc] & Hv).
      apply IH in H2. destruct H2 as (-> & [He' Hc'] & Hf).
      split; [reflexivity |]. split; [split; congruence |].
      intros n Hn. rewrite Hf, Hv.
      * apply dict_get_set_other. apply (Hn key value); simpl; auto.
      * intros k v Hin. apply Hn. now right.
    + intros H. apply IH in H. destruct H as (-> & Hs & Hf).
      split; [reflexivity |]. split; [exact Hs |].
      intros n Hn. apply Hf. intros k v Hin. apply Hn. now right.
Qed.

(** Whether or not an assignment is refused on the way, the calls made
    are the first ones of [writes]. *)
Lemma write_items_events (items : dict string) :
  forall pdf : Pdf (Object L),
    exists rest, writes items = (events (write_items L pdf items) ++ rest)%list.
Proof.
  induction items as [| [key value] r IH]; intros pdf; cbn [write_items].
  - now exists [].
  - rewrite writes_cons. destruct (truthy value) eqn:Ev; [| apply IH].
    pose proof (docinfo_setitem_events pdf (dict_key key) value) as He.
    destruct (docinfo_setitem L pdf (dict_key key) value) as [t [p1 | e]] eqn:E;
      simpl in He; subst t; simpl.
    + destruct (IH p1) as [rest Hr]. exists rest.
      destruct (write_items L p1 r) as [t' r']; simpl in *. now rewrite Hr.
    + eexists. reflexivity.
Qed.

Lemma keep_moddate_ok (pdf q : Pdf (Object L)) (upd existing : dict string) (t : trace) :
  keep_moddate L pdf upd existing = (t, Ok q) ->
  (t = [] /\ q = pdf) \/
  (exists s,
     dict_mem "/ModDate" upd = false /\ dict_mem "ModDate" upd = false /\
     dict_get "/ModDate" existing = Some s /\ truthy s = true /\
     t = [call_setitem "/ModDate" s] /\ same_shell pdf q /\
     docinfo_view q = dict_set "/ModDate" (object_of_str L s) (docinfo_view pdf)).
Proof.
  unfold keep_moddate.
  destruct (dict_mem "/ModDate" upd) eqn:M1; simpl;
    [intros [= <- <-]; now left |].
  destruct (dict_mem "ModDate" upd) eqn:M2; simpl;
    [intros [= <- <-]; now left |].
  destruct (dict_get "/ModDate" existing) as [s |] eqn:G;
    [| intros [= <- <-]; now left].
  destruct (truthy s) eqn:T; [| intros [= <- <-]; now left].
  intros H. apply docinfo_setitem_ok in H. destruct H as (-> & Hs & Hv).
  right. exists s. repeat split; auto; apply Hs.
Qed.


(** The frame of the merge: an entry no assignment of the request targets
    reaches [save] as it was read, except that [/ModDate] may have been
    written back as a String object of the same text. *)
Lemma merge_metadata_frame (pdf q : Pdf (Object L)) (upd : dict string) (t : trace) :
  merge_metadata L pdf upd = (t, Ok q) ->
  same_shell pdf q /\
  forall n, untouched n upd ->
    dict_get n (docinfo_view q) = dict_get n (docinfo_view pdf) \/
    (n = "/ModDate" /\
     exists s, text_of L (docinfo_view pdf) n = Some s /\
               dict_get n (docinfo_view q) = Some (object_of_str L s)).
Proof.
  unfold merge_metadata. intros H.
  destruct (read_existing_spec pdf) as ([He0 Hc0] & Hv0 & Hx).
  apply bind_ok in H. destruct H as (t1 & p1 & t2 & H1 & H2 & ->).
  apply write_items_ok in H1. destruct H1 as (_ & [He1 Hc1] & Hf).
  apply keep_moddate_ok in H2.
  destruct H2 as [[-> ->] | (s & M1 & M2 & G & T & -> & [He2 Hc2] & Hv)].
  - split; [split; congruence |].
    intros n Hn. left. rewrite (Hf n Hn). now rewrite Hv0.
  - split; [split; congruence |].
    intros n Hn. rewrite Hv.
    destruct (String.eqb "/ModDate" n) eqn:E.
    + apply String.eqb_eq in E. subst n. right. split; [reflexivity |].
      exists s. split; [now apply Hx | apply dict_get_set_same].
    + left. rewrite dict_get_set_other.
      * rewrite (Hf n Hn). now rewrite Hv0.
      * intros Heq. rewrite Heq in E. now rewrite String.eqb_refl in E.
Qed.

(** In terms of text, nothing untargeted changes at all. *)
Lemma merge_metadata_text (pdf q : Pdf (Object L)) (upd : dict string) (t : trace) (n : string) :
  merge_metadata L pdf upd = (t, Ok q) ->
  untouched n upd ->
  text_of L (docinfo_view q) n = text_of L (docinfo_view pdf) n.
Proof.
  intros H Hn. apply merge_metadata_frame in H. destruct H as [_ H].
  destruct (H n Hn) as [E | (-> & s & Hs & E)].
  - now apply text_of_get.
  - rewrite Hs. now apply text_of_str.
Qed.

(** ** The rule for [/ModDate] at work *)

Lemma dict_get_key {V} (k : string) (d : dict V) :
  In k (dict_keys d) -> exists v, dict_get k d = Some v.
Proof.
  induction d as [| [k' v'] r IH]; simpl; [tauto |].
  destruct (String.eqb k k') eqn:E; [eauto |].
  intros [-> | H]; [now rewrite String.eqb_refl in E | auto].
Qed.

(** When every value has a text, the loop of lines 101-102 runs to its end
    and reads what [extract_metadata] reads. *)
Lemma stringify_until_complete (d : dict (Object L)) (keys : list string) :
  (forall k, In k keys -> exists s, str_item L d k = Ok s) ->
  forall acc, stringify_until L d keys acc = stringify_each L d keys acc.
Proof.
  induction keys as [| key rest IH]; intros H acc; simpl; [reflexivity |].
  destruct (H key (or_introl eq_refl)) as [s ->].
  apply IH. intros k Hk. apply H. now right.
Qed.

Lemma read_existing_complete (pdf : Pdf (Object L)) (d : dict (Object L)) :
  Info pdf = InfoDict d ->
  (forall k o, In (k, o) d -> exists s, object_str L o = Ok s) ->
  forall k, dict_get k (fst (read_existing L pdf)) = text_of L d k.
Proof.
  intros Hi Hs k. unfold read_existing, docinfo. rewrite Hi. cbn [fst].
  rewrite stringify_until_complete; [apply stringify_each_all |].
  intros k' Hk'. destruct (dict_get_key _ _ Hk') as [o Ho].
  unfold str_item. rewrite Ho. apply (Hs k' o). now apply dict_get_In.
Qed.

(** When the request names neither spelling and the text read for
    [/ModDate] is not empty, that text is assigned to [/ModDate] as the
    last write before [save]. *)
Lemma moddate_written_back (pdf q : Pdf (Object L)) (upd : dict string) (s : string) (t : trace) :
  dict_mem "/ModDate" upd = false -> dict_mem "ModDate" upd = false ->
  dict_get "/ModDate" (fst (read_existing L pdf)) = Some s ->
  truthy s = true ->
  merge_metadata L pdf upd = (t, Ok q) ->
  t = (writes upd ++ [call_setitem "/ModDate" s])%list /\
  dict_get "/ModDate" (docinfo_view q) = Some (object_of_str L s).
Proof.
  intros M1 M2 G T H. unfold merge_metadata in H.
  apply bind_ok in H. destruct H as (t1 & p1 & t2 & H1 & H2 & ->).
  apply write_items_ok in H1. destruct H1 as (-> & _ & _).
  unfold keep_moddate in H2. rewrite M1, M2, G, T in H2. cbn [negb andb] in H2.
  apply docinfo_setitem_ok in H2. destruct H2 as (-> & _ & Hv).
  split; [reflexivity |]. rewrite Hv. apply dict_get_set_same.
Qed.


(** A buffer comes back only from a run that opened the file, merged the
    request and saved the result. *)
Lemma update_pdf_metadata_some (file : UploadedFile) (upd : dict string) (output : bytes) :
  outcome (update_pdf_metadata L file upd) = Ok (Some output) ->
  exists pdf q t,
    closed file = false /\ open L (data file) = Ok pdf /\
    merge_metadata L pdf upd = (t, Ok q) /\ save L q = Ok output.
Proof.
  unfold update_pdf_metadata, file_read, pikepdf_open, pdf_save.
  destruct (closed file); simpl; [discriminate |].
  destruct (open L (data file)) as [pdf | e]; simpl; [| discriminate].
  destruct (merge_metadata L pdf upd) as [t [q | e]] eqn:E; simpl; [| discriminate].
  destruct (save L q) as [b | e] eqn:Es; simpl; [| discriminate].
  intros [= <-]. exists pdf, q, t. auto.
Qed.

End Merger.

(** ** What is written out *)

Section Writer.

Variable L : Pikepdf.

Lemma untouched_not_key (n : string) (upd : dict string) :
  dict_mem n upd = false -> dict_mem (bare n) upd = false -> untouched n upd.
Proof.
  intros M1 M2 k v Hin _ Hk. unfold dict_key in Hk.
  destruct (startswith k "/").
  - subst k. exact (dict_mem_false_In _ _ _ M1 Hin).
  - subst n. cbn [append bare] in M2. exact (dict_mem_false_In _ _ _ M2 Hin).
Qed.

(** What [extract_metadata] returns for a document it can read. *)
Lemma extract_metadata_record (file : UploadedFile) (pdf : Pdf (Object L)) :
  closed file = false ->
  open L (data file) = Ok pdf ->
  is_encrypted pdf = false ->
  exists record,
    outcome (extract_metadata L file) = Ok (Some record) /\
    forall k, dict_get k record = text_of L (docinfo_view pdf) k.
Proof.
  intros Hc Ho He.
  unfold extract_metadata, file_read, pikepdf_open, docinfo, docinfo_view.
  rewrite Hc. simpl. rewrite Ho. simpl. rewrite He.
  destruct (Info pdf) as [| d | e]; simpl.
  - exists []. split; reflexivity.
  - eexists. split; [reflexivity |]. intros k. apply stringify_each_all.
  - exists []. split; reflexivity.
Qed.

(** A library that writes the dictionary as it stands also writes what was
    assigned. *)
Lemma faithful_keeps_assigned : save_open_faithful L -> save_keeps_assigned L.
Proof.
  intros H q b Hs. destruct (H q b Hs) as (q' & Ho & _ & Heq).
  exists q'. split; [exact Ho |]. intros k _. apply Heq.
Qed.


(** C3. A field of the original dictionary that the request does not name,
    with or without the slash, is in the bytes written with its value
    unchanged: the same text, and outside [/ModDate] the same object. *)
Theorem untargeted_field_unchanged (file : UploadedFile) (pdf : Pdf (Object L))
  (updated_metadata : dict string) (n : string) (o : Object L) (output : bytes) :
  save_open_faithful L ->
  open L (data file) = Ok pdf ->
  dict_get n (docinfo_view pdf) = Some o ->
  dict_mem n updated_metadata = false ->
  dict_mem (bare n) updated_metadata = false ->
  outcome (update_pdf_metadata L file updated_metadata) = Ok (Some output) ->
  exists saved o',
    open L output = Ok saved /\
    dict_get n (docinfo_view saved) = Some o' /\
    object_str L o' = object_str L o /\
    (n <> "/ModDate" -> o' = o).
Proof.
  intros Hlaw Ho Hg M1 M2 Hu.
  apply update_pdf_metadata_some in Hu.
  destruct Hu as (pdf0 & q & t & _ & Ho' & Hm & Hs).
  rewrite Ho in Ho'. injection Ho' as <-.
  destruct (Hlaw q output Hs) as (saved & Hopen & _ & Heq).
  apply merge_metadata_frame in Hm. destruct Hm as [_ Hf].
  specialize (Hf n (untouched_not_key _ _ M1 M2)).
  exists saved. rewrite (Heq n).
  destruct Hf as [E | (Hn & s & Ht & E)].
  - exists o. rewrite E. rewrite Hg. auto.
  - exists (object_of_str L s). unfold text_of, str_item in Ht. rewrite Hg in Ht.
    destruct (object_str L o) as [s' | e] eqn:Eo; [| discriminate].
    injection Ht as ->. rewrite object_str_of_str.
    repeat split; auto. intros Hne. contradiction.
Qed.

(** C7. Saving with an empty request and extracting from the bytes written
    gives the record that extraction gives on the original file. *)
Theorem unedited_round_trip (file : UploadedFile) (pdf : Pdf (Object L)) (output : bytes) :
  save_open_faithful L ->
  open L (data file) = Ok pdf ->
  is_encrypted pdf = false ->
  outcome (update_pdf_metadata L file []) = Ok (Some output) ->
  exists before after,
    outcome (extract_metadata L file) = Ok (Some before) /\
    outcome (extract_metadata L (BytesIO output)) = Ok (Some after) /\
    dict_eq after before.
Proof.
  intros Hlaw Ho He Hu.
  apply update_pdf_metadata_some in Hu.
  destruct Hu as (pdf0 & q & t & Hc & Ho' & Hm & Hs).
  rewrite Ho in Ho'. injection Ho' as <-.
  destruct (Hlaw q output Hs) as (saved & Hopen & Henc & Heq).
  destruct (extract_metadata_record file pdf Hc Ho He) as (before & Hb & Hbk).
  assert (Hq : is_encrypted q = false).
  { apply merge_metadata_frame in Hm. destruct Hm as [[Hm _] _]. congruence. }
  destruct (extract_metadata_record (BytesIO output) saved eq_refl Hopen) as (after & Ha & Hak);
    [auto |].
  exists before, after. repeat split; auto.
  intros k. rewrite Hak, Hbk.
  rewrite (text_of_get L _ _ k (Heq k)).
  apply (merge_metadata_text L pdf q [] t k Hm).
  intros k' v' [].
Qed.

(** ** The assignments [update_pdf_metadata] makes *)

Lemma writes_all_setitem (items : dict string) :
  forall ev, In ev (writes items) -> is_setitem ev = true.
Proof.
  unfold writes. intros ev H. apply in_map_iff in H.
  destruct H as (kv & <- & _). reflexivity.
Qed.

Lemma filter_all {A} (f : A -> bool) (l : list A) :
  (forall x, In x l -> f x = true) -> filter f l = l.
Proof.
  induction l as [| a l IH]; simpl; intros H; auto.
  rewrite (H a) by now left. rewrite IH; auto.
Qed.

Lemma writes_In (items : dict string) (k v : string) :
  In (call_setitem k v) (writes items) ->
  exists key, In (key, v) items /\ truthy v = true /\ dict_key key = k.
Proof.
  unfold writes. intros H. apply in_map_iff in H.
  destruct H as ([key v'] & E & Hin). apply filter_In in Hin. simpl in *.
  injection E as <- <-. exists key. tauto.
Qed.

(** With either spelling of the key in the request, the assignments made
    are the first ones the request asks for, and nothing more. *)
Lemma update_setitem_calls (file : UploadedFile) (upd : dict string) :
  dict_mem "ModDate" upd = true \/ dict_mem "/ModDate" upd = true ->
  exists rest,
    writes upd =
    (filter is_setitem (events (update_pdf_metadata L file upd)) ++ rest)%list.
Proof.
  intros Hmem.
  assert (Hk : forall p e, keep_moddate L p upd e = ret p).
  { intros p e. unfold keep_moddate.
    destruct Hmem as [-> | ->]; simpl; [now rewrite andb_false_r | reflexivity]. }
  unfold update_pdf_metadata, file_read, pikepdf_open, pdf_save.
  destruct (closed file); simpl; [now exists (writes upd) |].
  destruct (open L (data file)) as [pdf | e]; simpl; [| now exists (writes upd)].
  unfold merge_metadata.
  destruct (write_items_events L upd (snd (read_existing L pdf))) as [rest Hr].
  assert (Hall : filter is_setitem (events (write_items L (snd (read_existing L pdf)) upd))
                 = events (write_items L (snd (read_existing L pdf)) upd)).
  { apply filter_all. intros ev Hin. apply (writes_all_setitem upd).
    rewrite Hr. apply in_or_app. now left. }
  exists rest. rewrite Hr at 1. f_equal.
  destruct (write_items L (snd (read_existing L pdf)) upd) as [tw [p1 | e]];
    simpl in *.
  - rewrite Hk. simpl. rewrite app_nil_r.
    destruct (save L p1); simpl; rewrite !filter_app, Hall; simpl;
      now rewrite !app_nil_r.
  - rewrite !filter_app, Hall. simpl. now rewrite !app_nil_r.
Qed.

(** C10. When the request maps [ModDate] or [/ModDate] to the empty string,
    that empty value is never assigned, and the original is not written
    back either: every assignment made is one the request asks for with a
    non-empty value, so that [/ModDate] is not assigned at all unless
    another entry of the request targets it. *)
Theorem empty_moddate_edit (file : UploadedFile) (updated_metadata : dict string) :
  dict_get "ModDate" updated_metadata = Some "" \/
  dict_get "/ModDate" updated_metadata = Some "" ->
  (forall k, ~ In (call_setitem k "") (events (update_pdf_metadata L file updated_metadata))) /\
  (exists rest,
     writes updated_metadata =
     (filter is_setitem (events (update_pdf_metadata L file updated_metadata)) ++ rest)%list) /\
  (untouched "/ModDate" updated_metadata ->
   forall v, ~ In (call_setitem "/ModDate" v)
                  (events (update_pdf_metadata L file updated_metadata))).
Proof.
  intros H.
  assert (Hmem : dict_mem "ModDate" updated_metadata = true \/
                 dict_mem "/ModDate" updated_metadata = true).
  { destruct H as [H | H]; [left | right]; exact (dict_mem_get _ _ _ H). }
  destruct (update_setitem_calls file updated_metadata Hmem) as [rest Hr].
  assert (Hin : forall k v,
             In (call_setitem k v) (events (update_pdf_metadata L file updated_metadata)) ->
             In (call_setitem k v) (writes updated_metadata)).
  { intros k v Hi. rewrite Hr. apply in_or_app. left.
    apply filter_In. split; [exact Hi | reflexivity]. }
  split; [| split].
  - intros k Hi. apply Hin, writes_In in Hi.
    destruct Hi as (_ & _ & Ht & _). discriminate.
  - now exists rest.
  - intros Hu v Hi. apply Hin, writes_In in Hi.
    destruct Hi as (key & Hk & Ht & Hd). exact (Hu key v Hk Ht Hd).
Qed.

End Writer.

(** ** The calendar *)

Lemma upto_In (n x : Z) : 1 <= x <= n -> In x (upto n).
Proof.
  intros H. unfold upto. apply in_map_iff. exists (Z.to_nat x).
  split; [lia |]. apply in_seq. lia.
Qed.

(** Every day of a common year and of a leap year, one by one. *)
Lemma doy2md_checked_all : doy2md_checked false && doy2md_checked true = true.
Proof. vm_compute. reflexivity. Qed.

Lemma doy2md_spec (leapyear : bool) (m d : Z) :
  1 <= m <= 12 -> 1 <= d <= month_length leapyear m ->
  doy2md leapyear (DAYS_BEFORE_MONTH m + leap_days leapyear m + d - 1) = (m, d).
Proof.
  intros Hm Hd.
  assert (H : doy2md_checked leapyear = true).
  { pose proof doy2md_checked_all as H. apply andb_true_iff in H.
    destruct leapyear; tauto. }
  unfold doy2md_checked in H. rewrite forallb_forall in H.
  specialize (H m (upto_In 12 m Hm)). rewrite forallb_forall in H.
  specialize (H d (upto_In _ d Hd)). unfold doy2md_inverts in H.
  apply andb_true_iff in H. destruct H as [H1 H2].
  apply Z.eqb_eq in H1, H2.
  destruct (doy2md leapyear _) as [m' d']. simpl in *. congruence.
Qed.

(** A year as its place in the 400-, 100- and 4-year cycles. *)
Lemma year_split (y : Z) :
  1 <= y ->
  exists a b c e,
    0 <= a /\ 0 <= b < 4 /\ 0 <= c < 25 /\ 0 <= e < 4 /\
    y = 400 * a + 100 * b + 4 * c + e + 1.
Proof.
  intros H.
  exists ((y - 1) / 400), ((y - 1) mod 400 / 100), ((y - 1) mod 100 / 4), ((y - 1) mod 4).
  Z.div_mod_to_equations. lia.
Qed.

Section Cycles.

Variables a b c e : Z.
Hypothesis Ha : 0 <= a.
Hypothesis Hb : 0 <= b < 4.
Hypothesis Hc : 0 <= c < 25.
Hypothesis He : 0 <= e < 4.

Let y := 400 * a + 100 * b + 4 * c + e + 1.

Lemma days_before_year_cycles :
  days_before_year y = 146097 * a + 36524 * b + 1461 * c + 365 * e.
Proof.
  unfold days_before_year, y. Z.div_mod_to_equations. lia.
Qed.

Lemma is_leap_cycles :
  is_leap y = (e =? 3) && (negb (c =? 24) || (b =? 3)).
Proof.
  unfold is_leap.
  assert (H4 : (y mod 4 =? 0) = (e =? 3)).
  { destruct (Z.eqb_spec (y mod 4) 0), (Z.eqb_spec e 3); auto;
      exfalso; unfold y in *; Z.div_mod_to_equations; lia. }
  assert (H100 : (y mod 100 =? 0) = (e =? 3) && (c =? 24)).
  { destruct (Z.eqb_spec (y mod 100) 0), (Z.eqb_spec e 3), (Z.eqb_spec c 24); auto;
      exfalso; unfold y in *; Z.div_mod_to_equations; lia. }
  assert (H400 : (y mod 400 =? 0) = (e =? 3) && (c =? 24) && (b =? 3)).
  { destruct (Z.eqb_spec (y mod 400) 0), (Z.eqb_spec e 3), (Z.eqb_spec c 24),
      (Z.eqb_spec b 3); auto; exfalso; unfold y in *; Z.div_mod_to_equations; lia. }
  rewrite H4, H100, H400.
  destruct (e =? 3), (c =? 24), (b =? 3); reflexivity.
Qed.

(** Any day of the year but the 366th. *)
Lemma ord2ymd_cycles (k : Z) :
  0 <= k < 365 ->
  ord2ymd (146097 * a + 36524 * b + 1461 * c + 365 * e + k + 1) =
  (y, fst (doy2md (is_leap y) k), snd (doy2md (is_leap y) k)).
Proof.
  intros Hk. rewrite is_leap_cycles. unfold ord2ymd, DI400Y, DI100Y, DI4Y.
  set (n := 146097 * a + 36524 * b + 1461 * c + 365 * e + k + 1 - 1).
  assert (E1 : n / 146097 = a) by (unfold n; Z.div_mod_to_equations; lia).
  assert (R1 : n mod 146097 = 36524 * b + 1461 * c + 365 * e + k)
    by (unfold n; Z.div_mod_to_equations; lia).
  cbv zeta. rewrite E1, R1.
  assert (E2 : (36524 * b + 1461 * c + 365 * e + k) / 36524 = b)
    by (Z.div_mod_to_equations; lia).
  assert (R2 : (36524 * b + 1461 * c + 365 * e + k) mod 36524 = 1461 * c + 365 * e + k)
    by (Z.div_mod_to_equations; lia).
  rewrite E2, R2.
  assert (E3 : (1461 * c + 365 * e + k) / 1461 = c) by (Z.div_mod_to_equations; lia).
  assert (R3 : (1461 * c + 365 * e + k) mod 1461 = 365 * e + k)
    by (Z.div_mod_to_equations; lia).
  rewrite E3, R3.
  assert (E4 : (365 * e + k) / 365 = e) by (Z.div_mod_to_equations; lia).
  assert (R4 : (365 * e + k) mod 365 = k) by (Z.div_mod_to_equations; lia).
  rewrite E4, R4.
  replace (e =? 4) with false by (symmetry; apply Z.eqb_neq; lia).
  replace (b =? 4) with false by (symmetry; apply Z.eqb_neq; lia).
  cbn [orb]. f_equal. f_equal. unfold y. lia.
Qed.

(** The 366th day of a leap year. *)
Lemma ord2ymd_cycles_last :
  is_leap y = true ->
  ord2ymd (146097 * a + 36524 * b + 1461 * c + 365 * e + 365 + 1) = (y, 12, 31).
Proof.
  rewrite is_leap_cycles. intros Hl.
  apply andb_true_iff in Hl. destruct Hl as [He3 Hcb]. apply Z.eqb_eq in He3.
  unfold ord2ymd, DI400Y, DI100Y, DI4Y.
  set (n := 146097 * a + 36524 * b + 1461 * c + 365 * e + 365 + 1 - 1).
  assert (E1 : n / 146097 = a) by (unfold n; Z.div_mod_to_equations; lia).
  assert (R1 : n mod 146097 = 36524 * b + 1461 * c + 1460)
    by (unfold n; Z.div_mod_to_equations; lia).
  cbv zeta. rewrite E1, R1.
  apply orb_true_iff in Hcb. destruct Hcb as [Hc24 | Hb3].
  - apply negb_true_iff, Z.eqb_neq in Hc24.
    assert (E2 : (36524 * b + 1461 * c + 1460) / 36524 = b)
      by (Z.div_mod_to_equations; lia).
    assert (R2 : (36524 * b + 1461 * c + 1460) mod 36524 = 1461 * c + 1460)
      by (Z.div_mod_to_equations; lia).
    rewrite E2, R2.
    assert (E3 : (1461 * c + 1460) / 1461 = c) by (Z.div_mod_to_equations; lia).
    assert (R3 : (1461 * c + 1460) mod 1461 = 1460) by (Z.div_mod_to_equations; lia).
    rewrite E3, R3. change (1460 / 365) with 4. cbn [Z.eqb orb Pos.eqb].
    f_equal. f_equal. unfold y. lia.
  - apply Z.eqb_eq in Hb3.
    destruct (Z.eq_dec c 24) as [Hc24 | Hc24].
    + subst b c e. change (36524 * 3 + 1461 * 24 + 1460) with 146096.
      cbn. f_equal. f_equal. unfold y. lia.
    + assert (E2 : (36524 * b + 1461 * c + 1460) / 36524 = b)
        by (Z.div_mod_to_equations; lia).
      assert (R2 : (36524 * b + 1461 * c + 1460) mod 36524 = 1461 * c + 1460)
        by (Z.div_mod_to_equations; lia).
      rewrite E2, R2.
      assert (E3 : (1461 * c + 1460) / 1461 = c) by (Z.div_mod_to_equations; lia).
      assert (R3 : (1461 * c + 1460) mod 1461 = 1460) by (Z.div_mod_to_equations; lia).
      rewrite E3, R3. change (1460 / 365) with 4. cbn [Z.eqb orb Pos.eqb].
      f_equal. f_equal. unfold y. lia.
Qed.

End Cycles.

Lemma days_in_month_length (y m : Z) : days_in_month y m = month_length (is_leap y) m.
Proof. reflexivity. Qed.

Lemma days_before_month_leap (y m : Z) :
  days_before_month y m = DAYS_BEFORE_MONTH m + leap_days (is_leap y) m.
Proof. reflexivity. Qed.

(** The day of the year, counted from 0, stays below 365, or is the last
    day of a leap year. *)
Lemma day_of_year_range (leapyear : bool) (m d : Z) :
  1 <= m <= 12 -> 1 <= d <= month_length leapyear m ->
  0 <= DAYS_BEFORE_MONTH m + leap_days leapyear m + d - 1 < 365 \/
  (leapyear = true /\ DAYS_BEFORE_MONTH m + leap_days leapyear m + d - 1 = 365).
Proof.
  intros Hm Hd.
  assert (C : m = 1 \/ m = 2 \/ m = 3 \/ m = 4 \/ m = 5 \/ m = 6 \/
              m = 7 \/ m = 8 \/ m = 9 \/ m = 10 \/ m = 11 \/ m = 12) by lia.
  unfold leap_days, month_length in *.
  destruct leapyear; repeat (destruct C as [-> | C]); try subst m;
    cbn [DAYS_BEFORE_MONTH Z.ltb Z.eqb Z.compare Pos.compare Pos.compare_cont
         Pos.eqb andb orb] in Hd |- *;
    destruct (Z.eq_dec d 31);
    first [left; lia | right; split; [reflexivity | lia]].
Qed.

(** [date.fromordinal(d.toordinal()) == d] *)
Theorem ord2ymd_ymd2ord (y m d : Z) :
  1 <= y -> 1 <= m <= 12 -> 1 <= d <= days_in_month y m ->
  ord2ymd (ymd2ord y m d) = (y, m, d).
Proof.
  intros Hy Hm Hd. rewrite days_in_month_length in Hd.
  destruct (year_split y Hy) as (a & b & c & e & Ha & Hb & Hc & He & ->).
  unfold ymd2ord. rewrite days_before_year_cycles, days_before_month_leap by assumption.
  destruct (day_of_year_range _ m d Hm Hd) as [Hk | [Hl Hk]].
  - replace (146097 * a + 36524 * b + 1461 * c + 365 * e +
             (DAYS_BEFORE_MONTH m + leap_days (is_leap (400 * a + 100 * b + 4 * c + e + 1)) m) + d)
      with (146097 * a + 36524 * b + 1461 * c + 365 * e +
            (DAYS_BEFORE_MONTH m + leap_days (is_leap (400 * a + 100 * b + 4 * c + e + 1)) m + d - 1) + 1)
      by lia.
    rewrite ord2ymd_cycles by assumption.
    now rewrite doy2md_spec.
  - replace (146097 * a + 36524 * b + 1461 * c + 365 * e +
             (DAYS_BEFORE_MONTH m + leap_days (is_leap (400 * a + 100 * b + 4 * c + e + 1)) m) + d)
      with (146097 * a + 36524 * b + 1461 * c + 365 * e + 365 + 1) by lia.
    rewrite ord2ymd_cycles_last by assumption.
    assert (m = 12 /\ d = 31) as [-> ->]; [| reflexivity].
    rewrite Hl in Hk, Hd. clear Hl. unfold leap_days, month_length in *.
    assert (C : m = 1 \/ m = 2 \/ m = 3 \/ m = 4 \/ m = 5 \/ m = 6 \/
                m = 7 \/ m = 8 \/ m = 9 \/ m = 10 \/ m = 11 \/ m = 12) by lia.
    repeat (destruct C as [-> | C]); try subst m;
      cbn [DAYS_BEFORE_MONTH Z.ltb Z.eqb Z.compare Pos.compare Pos.compare_cont
           Pos.eqb andb orb] in Hd, Hk |- *; lia.
Qed.

(** Every date a [datetime] can hold has an ordinal within bounds. *)
Lemma ymd2ord_range (y m d : Z) :
  1 <= y <= 9999 -> 1 <= m <= 12 -> 1 <= d <= days_in_month y m ->
  0 < ymd2ord y m d <= MAXORDINAL.
Proof.
  intros Hy Hm Hd. rewrite days_in_month_length in Hd.
  assert (Hy1 : 1 <= y) by lia.
  destruct (year_split y Hy1) as (a & b & c & e & Ha & Hb & Hc & He & E).
  subst y. unfold ymd2ord, MAXORDINAL.
  rewrite days_before_year_cycles, days_before_month_leap by assumption.
  destruct (day_of_year_range _ m d Hm Hd) as [Hk | [Hl Hk]]; [lia |].
  rewrite is_leap_cycles in Hl by assumption.
  apply andb_true_iff in Hl. destruct Hl as [He3 _]. apply Z.eqb_eq in He3.
  rewrite is_leap_cycles in Hk |- * by assumption. lia.
Qed.

(** ** Digits *)

Lemma digit_not_blank (c : ascii) (v : Z) :
  digit_value c = Some v ->
  isspace c = false /\ int_space c = false /\
  Ascii.eqb c "+" = false /\ Ascii.eqb c "-" = false.
Proof.
  destruct c as [[] [] [] [] [] [] [] []]; vm_compute; intros H;
    first [discriminate H | repeat split].
Qed.

Lemma digit_value_digit_char (k : Z) :
  0 <= k <= 9 -> digit_value (digit_char k) = Some k.
Proof.
  intros H.
  assert (C : k = 0 \/ k = 1 \/ k = 2 \/ k = 3 \/ k = 4 \/
              k = 5 \/ k = 6 \/ k = 7 \/ k = 8 \/ k = 9) by lia.
  repeat (destruct C as [-> | C]); try subst k; reflexivity.
Qed.

Lemma rstrip_by_keep (p : ascii -> bool) (c : ascii) (s : string) :
  rstrip_by p s = s -> s <> EmptyString -> rstrip_by p (String c s) = String c s.
Proof.
  intros H Hs. cbn [rstrip_by]. rewrite H. destruct s; congruence.
Qed.

Lemma rstrip_by_one (p : ascii -> bool) (c : ascii) :
  p c = false -> rstrip_by p (String c EmptyString) = String c EmptyString.
Proof. intros H. cbn [rstrip_by]. now rewrite H. Qed.

Lemma int_two_digits (c1 c2 : ascii) (v1 v2 : Z) :
  digit_value c1 = Some v1 -> digit_value c2 = Some v2 ->
  int (String c1 (String c2 EmptyString)) = Ok (10 * v1 + v2).
Proof.
  intros H1 H2.
  destruct (digit_not_blank c1 v1 H1) as (_ & S1 & P1 & M1).
  destruct (digit_not_blank c2 v2 H2) as (_ & S2 & _ & _).
  assert (R : rstrip_by int_space (String c1 (String c2 EmptyString)) =
              String c1 (String c2 EmptyString))
    by (repeat (apply rstrip_by_keep; [| discriminate]); now apply rstrip_by_one).
  unfold int. cbn [lstrip_by]. rewrite S1, R.
  cbn [split_sign]. rewrite P1, M1. cbn [snd fst digits_value].
  rewrite H1, H2. f_equal; lia.
Qed.

Lemma int_four_digits (c1 c2 c3 c4 : ascii) (v1 v2 v3 v4 : Z) :
  digit_value c1 = Some v1 -> digit_value c2 = Some v2 ->
  digit_value c3 = Some v3 -> digit_value c4 = Some v4 ->
  int (String c1 (String c2 (String c3 (String c4 EmptyString)))) =
  Ok (100 * (10 * v1 + v2) + (10 * v3 + v4)).
Proof.
  intros H1 H2 H3 H4.
  destruct (digit_not_blank c1 v1 H1) as (_ & S1 & P1 & M1).
  destruct (digit_not_blank c4 v4 H4) as (_ & S4 & _ & _).
  assert (R : rstrip_by int_space (String c1 (String c2 (String c3 (String c4 EmptyString)))) =
              String c1 (String c2 (String c3 (String c4 EmptyString))))
    by (repeat (apply rstrip_by_keep; [| discriminate]); now apply rstrip_by_one).
  unfold int. cbn [lstrip_by]. rewrite S1, R.
  cbn [split_sign]. rewrite P1, M1. cbn [snd fst digits_value].
  rewrite H1, H2, H3, H4. f_equal; lia.
Qed.

Section FourteenDigits.

Variables c1 c2 c3 c4 c5 c6 c7 c8 c9 c10 c11 c12 c13 c14 : ascii.
Variables v1 v2 v3 v4 v5 v6 v7 v8 v9 v10 v11 v12 v13 v14 : Z.
Hypothesis D1 : digit_value c1 = Some v1.
Hypothesis D2 : digit_value c2 = Some v2.
Hypothesis D3 : digit_value c3 = Some v3.
Hypothesis D4 : digit_value c4 = Some v4.
Hypothesis D5 : digit_value c5 = Some v5.
Hypothesis D6 : digit_value c6 = Some v6.
Hypothesis D7 : digit_value c7 = Some v7.
Hypothesis D8 : digit_value c8 = Some v8.
Hypothesis D9 : digit_value c9 = Some v9.
Hypothesis D10 : digit_value c10 = Some v10.
Hypothesis D11 : digit_value c11 = Some v11.
Hypothesis D12 : digit_value c12 = Some v12.
Hypothesis D13 : digit_value c13 = Some v13.
Hypothesis D14 : digit_value c14 = Some v14.

Let digits : string :=
  String c1 (String c2 (String c3 (String c4 (String c5 (String c6 (String c7
  (String c8 (String c9 (String c10 (String c11 (String c12 (String c13
  (String c14 EmptyString))))))))))))).

Lemma strip_prefix_digits :
  strip_prefix (String "D" (String ":" digits)) = digits.
Proof.
  destruct (digit_not_blank c14 v14 D14) as (S14 & _).
  assert (R : rstrip_by isspace (String "D" (String ":" digits)) =
              String "D" (String ":" digits))
    by (unfold digits; repeat (apply rstrip_by_keep; [| discriminate]);
        now apply rstrip_by_one).
  unfold strip_prefix, strip.
  change (lstrip_by isspace (String "D" ?s)) with (String "D"%char s).
  rewrite R. reflexivity.
Qed.

Lemma format_fields_digits (tz : tzinfo) :
  format_fields tz digits =
  (dt <- datetime_new (100 * (10 * v1 + v2) + (10 * v3 + v4)) (10 * v5 + v6)
                      (10 * v7 + v8) (10 * v9 + v10) (10 * v11 + v12)
                      (10 * v13 + v14) ;;
   dt_est <- astimezone tz dt ;;
   Ok (strftime (fst dt_est) (snd dt_est)))%result.
Proof.
  unfold format_fields, digits.
  change (slice 0 4 ?s) with (String c1 (String c2 (String c3 (String c4 EmptyString)))).
  change (slice 4 6 ?s) with (String c5 (String c6 EmptyString)).
  change (slice 6 8 ?s) with (String c7 (String c8 EmptyString)).
  change (slice 8 10 ?s) with (String c9 (String c10 EmptyString)).
  change (slice 10 12 ?s) with (String c11 (String c12 EmptyString)).
  change (slice 12 14 ?s) with (String c13 (String c14 EmptyString)).
  change (len ?s) with 14.
  rewrite (int_four_digits _ _ _ _ _ _ _ _ D1 D2 D3 D4).
  rewrite (int_two_digits _ _ _ _ D5 D6), (int_two_digits _ _ _ _ D7 D8).
  rewrite (int_two_digits _ _ _ _ D9 D10), (int_two_digits _ _ _ _ D11 D12).
  rewrite (int_two_digits _ _ _ _ D13 D14).
  reflexivity.
Qed.

End FourteenDigits.

Lemma two_digits (n : Z) : 0 <= n <= 99 -> 0 <= n / 10 <= 9 /\ 0 <= n mod 10 <= 9.
Proof. intros H. Z.div_mod_to_equations. lia. Qed.

(** What the [try] block computes on a well-formed date string. *)
Lemma parse_pdf_date_fields (tz : tzinfo) (y m d h mi s : Z) :
  0 <= y <= 9999 -> 0 <= m <= 99 -> 0 <= d <= 99 ->
  0 <= h <= 99 -> 0 <= mi <= 99 -> 0 <= s <= 99 ->
  parse_pdf_date tz (pdf_date_string y m d h mi s) =
  try_except
    (dt <- datetime_new y m d h mi s ;;
     dt_est <- astimezone tz dt ;;
     Ok (strftime (fst dt_est) (snd dt_est)))%result
    (fun _ => Ok (fmt04 y ++ fmt02 m ++ fmt02 d ++ fmt02 h ++ fmt02 mi ++ fmt02 s)%string).
Proof.
  intros Hy Hm Hd Hh Hmi Hs.
  assert (Hy1 : 0 <= y / 100 <= 99) by (Z.div_mod_to_equations; lia).
  assert (Hy2 : 0 <= y mod 100 <= 99) by (Z.div_mod_to_equations; lia).
  destruct (two_digits _ Hy1) as [A1 A2]. destruct (two_digits _ Hy2) as [A3 A4].
  destruct (two_digits _ Hm) as [A5 A6]. destruct (two_digits _ Hd) as [A7 A8].
  destruct (two_digits _ Hh) as [A9 A10]. destruct (two_digits _ Hmi) as [A11 A12].
  destruct (two_digits _ Hs) as [A13 A14].
  unfold parse_pdf_date, pdf_date_string, fmt04, fmt02. cbn [append].
  rewrite (strip_prefix_digits _ _ _ _ _ _ _ _ _ _ _ _ _ _ _ (digit_value_digit_char _ A14)).
  rewrite (format_fields_digits _ _ _ _ _ _ _ _ _ _ _ _ _ _ _ _ _ _ _ _ _ _ _ _ _ _ _ _
             (digit_value_digit_char _ A1) (digit_value_digit_char _ A2)
             (digit_value_digit_char _ A3) (digit_value_digit_char _ A4)
             (digit_value_digit_char _ A5) (digit_value_digit_char _ A6)
             (digit_value_digit_char _ A7) (digit_value_digit_char _ A8)
             (digit_value_digit_char _ A9) (digit_value_digit_char _ A10)
             (digit_value_digit_char _ A11) (digit_value_digit_char _ A12)
             (digit_value_digit_char _ A13) (digit_value_digit_char _ A14)).
  replace (100 * (10 * (y / 100 / 10) + y / 100 mod 10) + (10 * (y mod 100 / 10) + y mod 100 mod 10))
    with y by (Z.div_mod_to_equations; lia).
  replace (10 * (m / 10) + m mod 10) with m by (Z.div_mod_to_equations; lia).
  replace (10 * (d / 10) + d mod 10) with d by (Z.div_mod_to_equations; lia).
  replace (10 * (h / 10) + h mod 10) with h by (Z.div_mod_to_equations; lia).
  replace (10 * (mi / 10) + mi mod 10) with mi by (Z.div_mod_to_equations; lia).
  replace (10 * (s / 10) + s mod 10) with s by (Z.div_mod_to_equations; lia).
  reflexivity.
Qed.

Lemma datetime_new_valid (y m d h mi s : Z) :
  valid_fields y m d h mi s ->
  datetime_new y m d h mi s = Ok (mk_datetime y m d h mi s).
Proof.
  intros (Hy & Hm & Hd & Hh & Hmi & Hs).
  unfold datetime_new, in_range, MINYEAR, MAXYEAR.
  repeat match goal with
         | |- context [ ?a <=? ?b ] =>
             replace (a <=? b) with true by (symmetry; apply Z.leb_le; lia)
         end.
  reflexivity.
Qed.

(** An offset that stays within the day leaves the date alone. *)
Lemma datetime_add_same_day (y m d h mi s delta : Z) :
  valid_fields y m d h mi s ->
  0 <= seconds_of_day (mk_datetime y m d h mi s) + delta < 86400 ->
  exists h' mi' s',
    datetime_add (mk_datetime y m d h mi s) delta = Ok (mk_datetime y m d h' mi' s').
Proof.
  intros (Hy & Hm & Hd & _) Ht. unfold datetime_add, toordinal.
  cbn [year month day].
  set (total := seconds_of_day (mk_datetime y m d h mi s) + delta) in *.
  replace (total / 86400) with 0 by (Z.div_mod_to_equations; lia).
  rewrite Z.add_0_r.
  pose proof (ymd2ord_range y m d Hy Hm Hd) as Hr.
  replace (0 <? ymd2ord y m d) with true by (symmetry; apply Z.ltb_lt; lia).
  replace (ymd2ord y m d <=? MAXORDINAL) with true by (symmetry; apply Z.leb_le; lia).
  cbn [andb]. rewrite ord2ymd_ymd2ord by lia. eauto.
Qed.

(** ** [parse_pdf_date] *)

(** The call always returns. *)
Lemma parse_pdf_date_returns (tz : tzinfo) (date_str : string) :
  exists text, parse_pdf_date tz date_str = Ok text.
Proof.
  unfold parse_pdf_date, try_except.
  destruct (format_fields tz (strip_prefix date_str)); eauto.
Qed.

(** When a step of the conversion raises, what comes back is the string
    as lines 18-20 left it. *)
Lemma parse_pdf_date_fallback (tz : tzinfo) (date_str : string) (e : exn) :
  format_fields tz (strip_prefix date_str) = Raise e ->
  parse_pdf_date tz date_str = Ok (strip_prefix date_str).
Proof. unfold parse_pdf_date. now intros ->. Qed.

(** ... which is the argument itself when it has no blanks around it and
    no [D:] in front. *)
Lemma strip_prefix_unchanged (date_str : string) :
  strip date_str = date_str -> startswith date_str "D:" = false ->
  strip_prefix date_str = date_str.
Proof. unfold strip_prefix. now intros -> ->. Qed.

(** C2, at the input where the code departs from it: the handler returns
    the string without its prefix. *)
Theorem parse_pdf_date_drops_prefix (tz : tzinfo) :
  parse_pdf_date tz "D:2026" = Ok "2026".
Proof. reflexivity. Qed.

(** On a well-formed date string every field is read, and what remains
    is the conversion to the zone. *)
Lemma parse_pdf_date_converts (tz : tzinfo) (y m d h mi s : Z) :
  valid_fields y m d h mi s ->
  parse_pdf_date tz (pdf_date_string y m d h mi s) =
  try_except
    (dt_est <- astimezone tz (mk_datetime y m d h mi s) ;;
     Ok (strftime (fst dt_est) (snd dt_est)))%result
    (fun _ => Ok (fmt04 y ++ fmt02 m ++ fmt02 d ++ fmt02 h ++ fmt02 mi ++ fmt02 s)%string).
Proof.
  intros (Hy & Hm & Hd & Hh & Hmi & Hs).
  assert (Hd' : d <= 31).
  { unfold days_in_month in Hd.
    destruct (m =? 2); [destruct (is_leap y) |
                        destruct ((m =? 4) || (m =? 6) || (m =? 9) || (m =? 11))];
      cbv iota in Hd; lia. }
  rewrite parse_pdf_date_fields by lia.
  rewrite datetime_new_valid by (unfold valid_fields; repeat split; lia).
  reflexivity.
Qed.

Lemma parse_pdf_date_same_day (tz : tzinfo) (y m d h mi s : Z) :
  valid_fields y m d h mi s ->
  0 <= seconds_of_day (mk_datetime y m d h mi s)
       + utcoffset tz (mk_datetime y m d h mi s) < 86400 ->
  exists rest,
    parse_pdf_date tz (pdf_date_string y m d h mi s) = Ok (strftime_date y m d ++ rest)%string.
Proof.
  intros Hv Ht.
  destruct (datetime_add_same_day y m d h mi s _ Hv Ht) as (h' & mi' & s' & Hl).
  rewrite parse_pdf_date_converts by assumption.
  unfold astimezone. rewrite Hl. cbn [rbind try_except fst snd].
  unfold strftime. cbn [year month day]. eexists. reflexivity.
Qed.

(** X7. Where the local time falls outside the years a [datetime] can hold,
    the digits come back, without the prefix. *)
Lemma parse_pdf_date_out_of_range (tz : tzinfo) (y m d h mi s : Z) (e : exn) :
  valid_fields y m d h mi s ->
  datetime_add (mk_datetime y m d h mi s) (utcoffset tz (mk_datetime y m d h mi s)) = Raise e ->
  parse_pdf_date tz (pdf_date_string y m d h mi s) =
  Ok (fmt04 y ++ fmt02 m ++ fmt02 d ++ fmt02 h ++ fmt02 mi ++ fmt02 s)%string.
Proof.
  intros Hv Hl. rewrite parse_pdf_date_converts by assumption.
  unfold astimezone. now rewrite Hl.
Qed.

(** C4, as the code has it. A well-formed [D:YYYYMMDDHHMMSS] is read as
    UTC and shown as the wall clock of the zone: whenever that local time
    exists the result is its long form, and the date in it is the one
    written in the string whenever the offset keeps the time within the
    same day. *)
Theorem parse_pdf_date_valid (tz : tzinfo) (y m d h mi s : Z) :
  valid_fields y m d h mi s ->
  (forall local,
     datetime_add (mk_datetime y m d h mi s) (utcoffset tz (mk_datetime y m d h mi s))
       = Ok local ->
     parse_pdf_date tz (pdf_date_string y m d h mi s) =
       Ok (strftime_date (year local) (month local) (day local) ++ " at " ++
           fmt02 (hour12 (hour local)) ++ ":" ++ fmt02 (minute local) ++ ":" ++
           fmt02 (second local) ++ " " ++ am_pm (hour local) ++ " " ++
           tzname tz (mk_datetime y m d h mi s))%string) /\
  (0 <= seconds_of_day (mk_datetime y m d h mi s)
        + utcoffset tz (mk_datetime y m d h mi s) < 86400 ->
   exists rest,
     parse_pdf_date tz (pdf_date_string y m d h mi s) =
       Ok (strftime_date y m d ++ rest)%string).
Proof.
  intros Hv. split.
  - intros local Hl. rewrite parse_pdf_date_converts by assumption.
    unfold astimezone. rewrite Hl. reflexivity.
  - now apply parse_pdf_date_same_day.
Qed.

(** In a zone at most five hours behind UTC, a time of day from 05:00 on
    is shown under the date written. *)
Lemma parse_pdf_date_behind_utc (tz : tzinfo) (y m d h mi s : Z) :
  valid_fields y m d h mi s ->
  -18000 <= utcoffset tz (mk_datetime y m d h mi s) <= 0 ->
  5 <= h ->
  exists rest,
    parse_pdf_date tz (pdf_date_string y m d h mi s) =
    Ok (strftime_date y m d ++ rest)%string.
Proof.
  intros Hv Ho Hh. apply parse_pdf_date_same_day; [assumption |].
  destruct Hv as (_ & _ & _ & Hh' & Hmi & Hs).
  unfold seconds_of_day. cbn [hour minute second]. lia.
Qed.

(** US/Eastern, in the years the definition covers, is such a zone. *)
Lemma parse_pdf_date_eastern (y m d h mi s : Z) :
  valid_fields y m d h mi s -> 2007 <= y <= 2037 -> 5 <= h ->
  exists rest,
    parse_pdf_date US_Eastern (pdf_date_string y m d h mi s) =
    Ok (strftime_date y m d ++ rest)%string.
Proof.
  intros Hv _ Hh. apply parse_pdf_date_behind_utc; [assumption | | assumption].
  unfold US_Eastern. cbn [utcoffset].
  destruct (eastern_daylight _); lia.
Qed.

(* ================================================================== *)
(** * The small instance meets the assumption, and the theorems apply *)

Module MiniFacts.

Import Byte.
Local Open Scope list_scope.

Lemma dec_enc_string (s : string) (r : bytes) :
  Mini.dec_string (Mini.enc_string s ++ r) = Some (s, r).
Proof.
  induction s as [| c s IH]; simpl; [reflexivity |].
  now rewrite IH, ascii_of_byte_of_ascii.
Qed.

Lemma dec_enc_object (o : Mini.Object) (r : bytes) :
  Mini.dec_object (Mini.enc_object o ++ r) = Some (o, r).
Proof.
  destruct o as [s | s |]; simpl; try reflexivity; now rewrite dec_enc_string.
Qed.

Lemma dec_enc_dict (d : dict Mini.Object) :
  forall (fuel : nat) (r : bytes),
    (List.length d < fuel)%nat ->
    Mini.dec_dict fuel (Mini.enc_dict d ++ r) = Some (d, r).
Proof.
  induction d as [| [k o] d IH]; intros fuel r Hf;
    (destruct fuel as [| fuel]; [inversion Hf |]); simpl.
  - reflexivity.
  - rewrite <- !app_assoc, dec_enc_string, dec_enc_object, IH; auto.
    simpl in Hf. lia.
Qed.

Lemma enc_dict_length (d : dict Mini.Object) :
  (List.length d < List.length (Mini.enc_dict d))%nat.
Proof.
  induction d as [| [k o] d IH]; simpl; [lia |].
  rewrite !length_app. lia.
Qed.

Lemma dec_enc_info (i : info_slot Mini.Object) (r : bytes) :
  (forall e, i <> InfoBroken e) ->
  Mini.dec_info (Mini.enc_info i ++ r) = Some (i, r).
Proof.
  destruct i as [| d | e]; intros H; [reflexivity | | now destruct (H e)].
  cbn [Mini.enc_info Mini.dec_info app]. rewrite dec_enc_dict; [reflexivity |].
  pose proof (enc_dict_length d). cbn [List.length]. rewrite length_app. lia.
Qed.

Lemma open_plain (l : bytes) :
  Mini.open (x00 :: l) =
  match Mini.dec_info l with
  | Some (i, rest) => Ok (mk_Pdf false i rest [])
  | None => Raise Mini.not_a_pdf
  end.
Proof. reflexivity. Qed.

Lemma open_flagged (l : bytes) :
  Mini.open (x01 :: l) =
  match Mini.dec_info l with
  | Some (i, rest) => Ok (mk_Pdf true i rest [])
  | None => Raise Mini.not_a_pdf
  end.
Proof. reflexivity. Qed.

Lemma open_enc (enc : bool) (i : info_slot Mini.Object) (c : bytes) :
  (forall e, i <> InfoBroken e) ->
  Mini.open ((if enc then x01 else x00) :: Mini.enc_info i ++ c) = Ok (mk_Pdf enc i c []).
Proof.
  intros H. destruct enc; [rewrite open_flagged | rewrite open_plain];
    now rewrite dec_enc_info.
Qed.

(** Reading back what was saved gives the document itself, without
    encryption and with nothing assigned yet. *)
Lemma open_save (pdf : Pdf Mini.Object) (b : bytes) :
  Mini.save pdf = Ok b -> Mini.open b = Ok (mk_Pdf false (Info pdf) (content pdf) []).
Proof.
  unfold Mini.save. destruct pdf as [enc i c a]; cbn [Info is_encrypted content].
  destruct i as [| d | e]; [| | discriminate]; intros [= <-].
  - apply (open_enc false InfoAbsent c). discriminate.
  - apply (open_enc false (InfoDict d) c). discriminate.
Qed.

Lemma faithful : save_open_faithful Mini.lib.
Proof.
  intros q b H. eexists. split; [exact (open_save q b H) |].
  split; [reflexivity | intros k; reflexivity].
Qed.

End MiniFacts.

(** The stamping library writes what the caller assigned, and is not one
    that writes the dictionary as it stands. *)
Module StampingFacts.



Lemma not_faithful : ~ save_open_faithful Stamping.lib.
Proof.
  intros H.
  destruct (H (mk_Pdf false (InfoDict []) [] []) _ eq_refl) as (q' & Ho & _ & Heq).
  vm_compute in Ho. injection Ho as <-.
  specialize (Heq "/ModDate"). discriminate Heq.
Qed.

End StampingFacts.

(* ================================================================== *)
(** * More on [parse_pdf_date] *)

(** ** Blanks and the prefix *)

Lemma lstrip_by_idem (p : ascii -> bool) (s : string) :
  lstrip_by p (lstrip_by p s) = lstrip_by p s.
Proof.
  induction s as [| c r IH]; simpl; [reflexivity |].
  destruct (p c) eqn:E; [exact IH | simpl; now rewrite E].
Qed.

Lemma rstrip_by_idem (p : ascii -> bool) (s : string) :
  rstrip_by p (rstrip_by p s) = rstrip_by p s.
Proof.
  induction s as [| c r IH]; simpl; [reflexivity |].
  destruct (rstrip_by p r) as [| c' r'] eqn:E.
  - destruct (p c) eqn:Ec; simpl; [reflexivity | now rewrite Ec].
  - apply rstrip_by_keep; [exact IH | discriminate].
Qed.

Lemma rstrip_by_head (p : ascii -> bool) (c : ascii) (r : string) :
  p c = false -> exists x, rstrip_by p (String c r) = String c x.
Proof.
  intros H. cbn [rstrip_by]. destruct (rstrip_by p r); [rewrite H |]; eauto.
Qed.

Lemma lstrip_rstrip_lstrip (p : ascii -> bool) (s : string) :
  lstrip_by p (rstrip_by p (lstrip_by p s)) = rstrip_by p (lstrip_by p s).
Proof.
  induction s as [| c r IH]; [reflexivity |]. cbn [lstrip_by].
  destruct (p c) eqn:E; [exact IH |].
  destruct (rstrip_by_head p c r E) as [x ->]. cbn [lstrip_by]. now rewrite E.
Qed.

Lemma strip_idem (s : string) : strip (strip s) = strip s.
Proof.
  unfold strip. now rewrite lstrip_rstrip_lstrip, rstrip_by_idem.
Qed.

Lemma strip_fixed (s : string) :
  strip s = s -> lstrip_by isspace s = s /\ rstrip_by isspace s = s.
Proof.
  unfold strip. intros H. split.
  - rewrite <- H at 1. rewrite lstrip_rstrip_lstrip. exact H.
  - rewrite <- H at 1. rewrite rstrip_by_idem. exact H.
Qed.

(** X1. Blanks around the argument never change the result. *)
Theorem parse_pdf_date_ignores_blanks (tz : tzinfo) (date_str : string) :
  parse_pdf_date tz (strip date_str) = parse_pdf_date tz date_str.
Proof.
  unfold parse_pdf_date, strip_prefix. now rewrite strip_idem.
Qed.

Lemma strip_prefix_D (s : string) :
  strip s = s -> strip_prefix (String "D" (String ":" s)) = s.
Proof.
  intros H. destruct (strip_fixed s H) as [_ Hr].
  assert (R : rstrip_by isspace (String "D" (String ":" s)) = String "D" (String ":" s)).
  { destruct s as [| c r]; [reflexivity |].
    repeat (apply rstrip_by_keep; [| discriminate]). exact Hr. }
  unfold strip_prefix, strip.
  change (lstrip_by isspace (String "D" ?x)) with (String "D"%char x).
  rewrite R, !startswith_cons, startswith_empty. reflexivity.
Qed.

(** X2. The prefix is optional: with or without [D:] in front, a string
    without blanks around it gives the same result, the fallback
    included. *)
Theorem parse_pdf_date_prefix_optional (tz : tzinfo) (date_str : string) :
  strip date_str = date_str ->
  startswith date_str "D:" = false ->
  parse_pdf_date tz ("D:" ++ date_str) = parse_pdf_date tz date_str.
Proof.
  intros Hs Hp. unfold parse_pdf_date. cbn [append].
  rewrite (strip_prefix_D _ Hs), (strip_prefix_unchanged _ Hs Hp). reflexivity.
Qed.

(** ** Strings too short to hold a month *)

Lemma slice_month_short (s : string) :
  (String.length s <= 4)%nat -> slice 4 6 s = EmptyString.
Proof.
  unfold slice. intros H.
  do 5 (destruct s as [| ? s]; [reflexivity |]).
  simpl in H. lia.
Qed.

(** X3. Whatever is left with at most four characters once blanks and prefix
    are gone (the empty string, ["D:"], ["D:2026"]) comes back in that
    form: there is no month to read. *)
Theorem parse_pdf_date_short (tz : tzinfo) (date_str : string) :
  (String.length (strip_prefix date_str) <= 4)%nat ->
  parse_pdf_date tz date_str = Ok (strip_prefix date_str).
Proof.
  intros H. unfold parse_pdf_date, format_fields.
  rewrite (slice_month_short _ H).
  destruct (int (slice 0 4 (strip_prefix date_str))); reflexivity.
Qed.

(** ** Fields out of range *)

Lemma datetime_new_invalid (y m d h mi s : Z) :
  ~ valid_fields y m d h mi s -> exists e, datetime_new y m d h mi s = Raise e.
Proof.
  intros H. unfold datetime_new.
  destruct (in_range MINYEAR y MAXYEAR) eqn:E1; cbn [negb]; [| eauto].
  destruct (in_range 1 m 12) eqn:E2; cbn [negb]; [| eauto].
  destruct (in_range 1 d (days_in_month y m)) eqn:E3; cbn [negb]; [| eauto].
  destruct (in_range 0 h 23) eqn:E4; cbn [negb]; [| eauto].
  destruct (in_range 0 mi 59) eqn:E5; cbn [negb]; [| eauto].
  destruct (in_range 0 s 59) eqn:E6; cbn [negb]; [| eauto].
  exfalso. apply H. unfold valid_fields, in_range, MINYEAR, MAXYEAR in *.
  repeat match goal with
         | E : _ && _ = true |- _ => apply andb_true_iff in E; destruct E
         | E : (_ <=? _) = true |- _ => apply Z.leb_le in E
         end.
  lia.
Qed.

(** X4. Fourteen digits that name no date or no time of day (month 13, 30
    February, hour 24) come back as the fourteen digits, the prefix
    gone. *)
Theorem parse_pdf_date_invalid_fields (tz : tzinfo) (y m d h mi s : Z) :
  0 <= y <= 9999 -> 0 <= m <= 99 -> 0 <= d <= 99 ->
  0 <= h <= 99 -> 0 <= mi <= 99 -> 0 <= s <= 99 ->
  ~ valid_fields y m d h mi s ->
  parse_pdf_date tz (pdf_date_string y m d h mi s) =
  Ok (fmt04 y ++ fmt02 m ++ fmt02 d ++ fmt02 h ++ fmt02 mi ++ fmt02 s).
Proof.
  intros Hy Hm Hd Hh Hmi Hs Hv.
  rewrite parse_pdf_date_fields by assumption.
  destruct (datetime_new_invalid _ _ _ _ _ _ Hv) as [e ->]. reflexivity.
Qed.

(** ** What follows the digits, and dates without a time *)

Lemma rstrip_by_app (p : ascii -> bool) (a b : string) :
  rstrip_by p (a ++ b) =
  match rstrip_by p b with
  | EmptyString => rstrip_by p a
  | b' => a ++ b'
  end.
Proof.
  induction a as [| c a IH]; cbn [append].
  - now destruct (rstrip_by p b).
  - cbn [rstrip_by]. rewrite IH.
    destruct (rstrip_by p b) as [| x y]; [reflexivity |].
    destruct a; reflexivity.
Qed.

Lemma substring_none (s : string) : substring 0 0 s = EmptyString.
Proof. now destruct s. Qed.

Section DigitsThenMore.

Variables c1 c2 c3 c4 c5 c6 c7 c8 c9 c10 c11 c12 c13 c14 : ascii.
Variables v1 v2 v3 v4 v5 v6 v7 v8 v9 v10 v11 v12 v13 v14 : Z.
Hypothesis D1 : digit_value c1 = Some v1.
Hypothesis D2 : digit_value c2 = Some v2.
Hypothesis D3 : digit_value c3 = Some v3.
Hypothesis D4 : digit_value c4 = Some v4.
Hypothesis D5 : digit_value c5 = Some v5.
Hypothesis D6 : digit_value c6 = Some v6.
Hypothesis D7 : digit_value c7 = Some v7.
Hypothesis D8 : digit_value c8 = Some v8.
Hypothesis D9 : digit_value c9 = Some v9.
Hypothesis D10 : digit_value c10 = Some v10.
Hypothesis D11 : digit_value c11 = Some v11.
Hypothesis D12 : digit_value c12 = Some v12.
Hypothesis D13 : digit_value c13 = Some v13.
Hypothesis D14 : digit_value c14 = Some v14.

Let date_digits (more : string) : string :=
  String c1 (String c2 (String c3 (String c4 (String c5 (String c6 (String c7
  (String c8 more))))))).

Let time_digits (more : string) : string :=
  String c9 (String c10 (String c11 (String c12 (String c13 (String c14 more))))).

Lemma rstrip_date_digits :
  rstrip_by isspace (String "D" (String ":" (date_digits EmptyString))) =
  String "D" (String ":" (date_digits EmptyString)).
Proof.
  destruct (digit_not_blank c8 v8 D8) as (S8 & _).
  unfold date_digits. repeat (apply rstrip_by_keep; [| discriminate]).
  now apply rstrip_by_one.
Qed.

Lemma strip_prefix_date_digits :
  strip_prefix (String "D" (String ":" (date_digits EmptyString))) = date_digits EmptyString.
Proof.
  unfold strip_prefix, strip.
  change (lstrip_by isspace (String "D" ?s)) with (String "D"%char s).
  rewrite rstrip_date_digits. reflexivity.
Qed.

Lemma format_fields_date_digits (tz : tzinfo) :
  format_fields tz (date_digits EmptyString) =
  (dt <- datetime_new (100 * (10 * v1 + v2) + (10 * v3 + v4)) (10 * v5 + v6)
                      (10 * v7 + v8) 0 0 0 ;;
   dt_est <- astimezone tz dt ;;
   Ok (strftime (fst dt_est) (snd dt_est)))%result.
Proof.
  unfold format_fields, date_digits.
  change (slice 0 4 ?s) with (String c1 (String c2 (String c3 (String c4 EmptyString)))).
  change (slice 4 6 ?s) with (String c5 (String c6 EmptyString)).
  change (slice 6 8 ?s) with (String c7 (String c8 EmptyString)).
  change (len ?s) with 8.
  rewrite (int_four_digits _ _ _ _ _ _ _ _ D1 D2 D3 D4).
  rewrite (int_two_digits _ _ _ _ D5 D6), (int_two_digits _ _ _ _ D7 D8).
  reflexivity.
Qed.

Lemma rstrip_all_digits :
  rstrip_by isspace (String "D" (String ":" (date_digits (time_digits EmptyString)))) =
  String "D" (String ":" (date_digits (time_digits EmptyString))).
Proof.
  destruct (digit_not_blank c14 v14 D14) as (S14 & _).
  unfold date_digits, time_digits. repeat (apply rstrip_by_keep; [| discriminate]).
  now apply rstrip_by_one.
Qed.

Lemma strip_prefix_digits_more (more : string) :
  strip_prefix (String "D" (String ":" (date_digits (time_digits more)))) =
  date_digits (time_digits (rstrip_by isspace more)).
Proof.
  unfold strip_prefix, strip.
  change (lstrip_by isspace (String "D" ?s)) with (String "D"%char s).
  change (String "D" (String ":" (date_digits (time_digits more))))
    with (String "D" (String ":" (date_digits (time_digits EmptyString))) ++ more)%string.
  rewrite rstrip_by_app, rstrip_all_digits.
  destruct (rstrip_by isspace more); reflexivity.
Qed.

Lemma format_fields_digits_more (tz : tzinfo) (more : string) :
  format_fields tz (date_digits (time_digits more)) =
  (dt <- datetime_new (100 * (10 * v1 + v2) + (10 * v3 + v4)) (10 * v5 + v6)
                      (10 * v7 + v8) (10 * v9 + v10) (10 * v11 + v12)
                      (10 * v13 + v14) ;;
   dt_est <- astimezone tz dt ;;
   Ok (strftime (fst dt_est) (snd dt_est)))%result.
Proof.
  unfold format_fields, date_digits, time_digits.
  change (slice 0 4 ?s) with (String c1 (String c2 (String c3 (String c4 EmptyString)))).
  change (slice 4 6 ?s) with (String c5 (String c6 EmptyString)).
  change (slice 6 8 ?s) with (String c7 (String c8 EmptyString)).
  change (slice 8 10 ?s) with (String c9 (String c10 EmptyString)).
  change (slice 10 12 ?s) with (String c11 (String c12 EmptyString)).
  change (slice 12 14 ?s) with (String c13 (String c14 (substring 0 0 more))).
  rewrite substring_none.
  assert (Hl : 14 <= len (String c1 (String c2 (String c3 (String c4 (String c5
                 (String c6 (String c7 (String c8 (String c9 (String c10 (String c11
                 (String c12 (String c13 (String c14 more))))))))))))))).
  { unfold len. cbn [String.length]. lia. }
  repeat match goal with
         | |- context [ ?a <=? len ?s ] =>
             replace (a <=? len s) with true by (symmetry; apply Z.leb_le; lia)
         end.
  rewrite (int_four_digits _ _ _ _ _ _ _ _ D1 D2 D3 D4).
  rewrite (int_two_digits _ _ _ _ D5 D6), (int_two_digits _ _ _ _ D7 D8).
  rewrite (int_two_digits _ _ _ _ D9 D10), (int_two_digits _ _ _ _ D11 D12).
  rewrite (int_two_digits _ _ _ _ D13 D14).
  reflexivity.
Qed.

End DigitsThenMore.

(** X5. A date without a time of day is shown as midnight UTC of that day. *)
Theorem parse_pdf_date_without_time (tz : tzinfo) (y m d : Z) (local : datetime) :
  valid_fields y m d 0 0 0 ->
  datetime_add (mk_datetime y m d 0 0 0) (utcoffset tz (mk_datetime y m d 0 0 0)) = Ok local ->
  parse_pdf_date tz ("D:" ++ fmt04 y ++ fmt02 m ++ fmt02 d) =
  parse_pdf_date tz (pdf_date_string y m d 0 0 0).
Proof.
  intros Hv Hl.
  rewrite (parse_pdf_date_converts tz y m d 0 0 0 Hv).
  destruct Hv as (Hy & Hm & Hd & _).
  assert (Hd' : d <= 31).
  { unfold days_in_month in Hd.
    destruct (m =? 2); [destruct (is_leap y) |
                        destruct ((m =? 4) || (m =? 6) || (m =? 9) || (m =? 11))];
      cbv iota in Hd; lia. }
  assert (Hy1 : 0 <= y / 100 <= 99) by (Z.div_mod_to_equations; lia).
  assert (Hy2 : 0 <= y mod 100 <= 99) by (Z.div_mod_to_equations; lia).
  assert (Hm' : 0 <= m <= 99) by lia. assert (Hd'' : 0 <= d <= 99) by lia.
  destruct (two_digits _ Hy1) as [A1 A2]. destruct (two_digits _ Hy2) as [A3 A4].
  destruct (two_digits _ Hm') as [A5 A6]. destruct (two_digits _ Hd'') as [A7 A8].
  unfold parse_pdf_date, fmt04, fmt02. cbn [append].
  rewrite (strip_prefix_date_digits _ _ _ _ _ _ _ _ _ (digit_value_digit_char _ A8)).
  rewrite (format_fields_date_digits _ _ _ _ _ _ _ _ _ _ _ _ _ _ _ _
             (digit_value_digit_char _ A1) (digit_value_digit_char _ A2)
             (digit_value_digit_char _ A3) (digit_value_digit_char _ A4)
             (digit_value_digit_char _ A5) (digit_value_digit_char _ A6)
             (digit_value_digit_char _ A7) (digit_value_digit_char _ A8)).
  replace (100 * (10 * (y / 100 / 10) + y / 100 mod 10) + (10 * (y mod 100 / 10) + y mod 100 mod 10))
    with y by (Z.div_mod_to_equations; lia).
  replace (10 * (m / 10) + m mod 10) with m by (Z.div_mod_to_equations; lia).
  replace (10 * (d / 10) + d mod 10) with d by (Z.div_mod_to_equations; lia).
  rewrite datetime_new_valid by (unfold valid_fields; repeat split; lia).
  unfold astimezone. cbn [rbind]. rewrite Hl. reflexivity.
Qed.

(** X6. Whatever follows the fourteen digits, an offset such as [+05'00']
    included, changes nothing in what is shown. *)
Theorem parse_pdf_date_ignores_suffix (tz : tzinfo) (y m d h mi s : Z)
  (suffix : string) (local : datetime) :
  valid_fields y m d h mi s ->
  datetime_add (mk_datetime y m d h mi s) (utcoffset tz (mk_datetime y m d h mi s)) = Ok local ->
  parse_pdf_date tz (pdf_date_string y m d h mi s ++ suffix) =
  parse_pdf_date tz (pdf_date_string y m d h mi s).
Proof.
  intros Hv Hl.
  rewrite (parse_pdf_date_converts tz y m d h mi s Hv).
  destruct Hv as (Hy & Hm & Hd & Hh & Hmi & Hs).
  assert (Hd' : d <= 31).
  { unfold days_in_month in Hd.
    destruct (m =? 2); [destruct (is_leap y) |
                        destruct ((m =? 4) || (m =? 6) || (m =? 9) || (m =? 11))];
      cbv iota in Hd; lia. }
  assert (Hy1 : 0 <= y / 100 <= 99) by (Z.div_mod_to_equations; lia).
  assert (Hy2 : 0 <= y mod 100 <= 99) by (Z.div_mod_to_equations; lia).
  assert (Hm' : 0 <= m <= 99) by lia. assert (Hd'' : 0 <= d <= 99) by lia.
  assert (Hh' : 0 <= h <= 99) by lia. assert (Hmi' : 0 <= mi <= 99) by lia.
  assert (Hs' : 0 <= s <= 99) by lia.
  destruct (two_digits _ Hy1) as [A1 A2]. destruct (two_digits _ Hy2) as [A3 A4].
  destruct (two_digits _ Hm') as [A5 A6]. destruct (two_digits _ Hd'') as [A7 A8].
  destruct (two_digits _ Hh') as [A9 A10]. destruct (two_digits _ Hmi') as [A11 A12].
  destruct (two_digits _ Hs') as [A13 A14].
  unfold parse_pdf_date, pdf_date_string, fmt04, fmt02. cbn [append].
  rewrite (strip_prefix_digits_more _ _ _ _ _ _ _ _ _ _ _ _ _ _ _
             (digit_value_digit_char _ A14)).
  rewrite (format_fields_digits_more _ _ _ _ _ _ _ _ _ _ _ _ _ _ _ _ _ _ _ _ _ _ _ _ _ _ _ _
             (digit_value_digit_char _ A1) (digit_value_digit_char _ A2)
             (digit_value_digit_char _ A3) (digit_value_digit_char _ A4)
             (digit_value_digit_char _ A5) (digit_value_digit_char _ A6)
             (digit_value_digit_char _ A7) (digit_value_digit_char _ A8)
             (digit_value_digit_char _ A9) (digit_value_digit_char _ A10)
             (digit_value_digit_char _ A11) (digit_value_digit_char _ A12)
             (digit_value_digit_char _ A13) (digit_value_digit_char _ A14)).
  replace (100 * (10 * (y / 100 / 10) + y / 100 mod 10) + (10 * (y mod 100 / 10) + y mod 100 mod 10))
    with y by (Z.div_mod_to_equations; lia).
  replace (10 * (m / 10) + m mod 10) with m by (Z.div_mod_to_equations; lia).
  replace (10 * (d / 10) + d mod 10) with d by (Z.div_mod_to_equations; lia).
  replace (10 * (h / 10) + h mod 10) with h by (Z.div_mod_to_equations; lia).
  replace (10 * (mi / 10) + mi mod 10) with mi by (Z.div_mod_to_equations; lia).
  replace (10 * (s / 10) + s mod 10) with s by (Z.div_mod_to_equations; lia).
  rewrite datetime_new_valid by (unfold valid_fields; repeat split; lia).
  unfold astimezone. cbn [rbind]. rewrite Hl. reflexivity.
Qed.

(* ================================================================== *)
(** * More on [extract_metadata] *)

Section AccessorMore.

Variable L : Pikepdf.

(** X8. For a document that opens and is not encrypted, the record holds a key
    exactly when its value in the information dictionary has a text, and
    holds that text: the other fields are left out without a failure. *)
Theorem extract_metadata_texts (file : UploadedFile) (pdf : Pdf (Object L)) :
  closed file = false ->
  open L (data file) = Ok pdf ->
  is_encrypted pdf = false ->
  exists record,
    outcome (extract_metadata L file) = Ok (Some record) /\
    forall k,
      dict_get k record =
      match dict_get k (docinfo_view pdf) with
      | Some o => match object_str L o with Ok s => Some s | Raise _ => None end
      | None => None
      end.
Proof.
  intros Hc Ho He.
  destruct (extract_metadata_record L file pdf Hc Ho He) as (record & Hr & Hk).
  exists record. split; [exact Hr |]. intros k. rewrite Hk.
  unfold text_of, str_item. now destruct (dict_get k (docinfo_view pdf)).
Qed.

(** X9. When [pikepdf.open] raises, the result is [None], the cause is logged
    and the user is told: that the file is unsupported or invalid for a
    [NotImplementedError], that an error occurred for anything else. *)
Theorem extract_metadata_open_fails (file : UploadedFile) (e : exn) :
  closed file = false ->
  open L (data file) = Raise e ->
  extract_metadata L file =
  (call_open (data file) ::
   match exn_type e with
   | NotImplementedError =>
       [logging_error "NotImplementedError: {}" [exn_msg e];
        st_error "PDF feature not supported or file is invalid." []]
   | _ =>
       [logging_error "Error extracting metadata: {}" [exn_msg e];
        st_error "An error occurred while extracting metadata." []]
   end,
   Ok None).
Proof.
  intros Hc Ho. unfold extract_metadata, file_read, pikepdf_open.
  rewrite Hc. simpl. rewrite Ho. simpl. destruct (exn_type e); reflexivity.
Qed.

(** X10. When the document opens but reading its information dictionary
    raises, whatever the exception, the result is the empty record, not
    [None], and nothing is shown to the user. *)
Theorem extract_metadata_docinfo_fails (file : UploadedFile) (pdf : Pdf (Object L)) (e : exn) :
  closed file = false ->
  open L (data file) = Ok pdf ->
  is_encrypted pdf = false ->
  Info pdf = InfoBroken e ->
  extract_metadata L file =
  ([call_open (data file);
    logging_error "Error accessing PDF metadata: {}" [exn_msg e]],
   Ok (Some [])).
Proof.
  intros Hc Ho He Hi. unfold extract_metadata, file_read, pikepdf_open, docinfo.
  rewrite Hc. simpl. rewrite Ho. simpl. rewrite He, Hi. reflexivity.
Qed.

(** X11. Extraction only reads: of pikepdf it calls [open], once, and never an
    assignment or [save]. *)
Theorem extract_metadata_reads_only (file : UploadedFile) :
  filter is_library_call (events (extract_metadata L file)) =
  if closed file then [] else [call_open (data file)].
Proof.
  unfold extract_metadata, file_read, pikepdf_open.
  destruct (closed file); simpl.
  - reflexivity.
  - destruct (open L (data file)) as [pdf | e]; simpl.
    + destruct (is_encrypted pdf); simpl; [reflexivity |].
      destruct (docinfo pdf) as [di | e]; reflexivity.
    + destruct (exn_type e); reflexivity.
Qed.

End AccessorMore.

(* ================================================================== *)
(** * More on [update_pdf_metadata] *)

(** ** Events of a computation, step by step *)

Lemma events_bind {A B} (m : M A) (k : A -> M B) :
  events (bind m k) =
  (events m ++ match outcome m with
               | Ok a => events (k a)
               | Raise _ => []
               end)%list.
Proof.
  destruct m as [t [a | e]]; simpl; [| now rewrite app_nil_r].
  now destruct (k a).
Qed.

Lemma outcome_bind {A B} (m : M A) (k : A -> M B) :
  outcome (bind m k) =
  match outcome m with
  | Ok a => outcome (k a)
  | Raise e => Raise e
  end.
Proof.
  destruct m as [t [a | e]]; simpl; [| reflexivity]. now destruct (k a).
Qed.

Lemma events_try_catch {A} (body : M A) (handler : exn -> M A) :
  events (try_catch body handler) =
  (events body ++ match outcome body with
                  | Ok _ => []
                  | Raise e => events (handler e)
                  end)%list.
Proof.
  destruct body as [t [a | e]]; simpl; [now rewrite app_nil_r |].
  now destruct (handler e).
Qed.

Lemma outcome_try_catch {A} (body : M A) (handler : exn -> M A) :
  outcome (try_catch body handler) =
  match outcome body with
  | Ok a => Ok a
  | Raise e => outcome (handler e)
  end.
Proof.
  destruct body as [t [a | e]]; simpl; [reflexivity |]. now destruct (handler e).
Qed.

Lemma dict_key_starts (key : string) : startswith (dict_key key) "/" = true.
Proof.
  unfold dict_key. destruct (startswith key "/") eqn:E; [exact E |].
  cbn [append]. now rewrite startswith_cons, startswith_empty.
Qed.

Lemma In_dict_mem {V} (k : string) (v : V) (d : dict V) :
  In (k, v) d -> dict_mem k d = true.
Proof.
  unfold dict_mem. induction d as [| [k' v'] r IH]; simpl; [tauto |].
  intros [H | H].
  - inversion H; subst. now rewrite String.eqb_refl.
  - rewrite (IH H). apply orb_true_r.
Qed.

Section WriterMore.

Variable L : Pikepdf.

(** The trace of a merge that went through: the assignments of the
    request, then at most the write-back of [/ModDate]. *)
Lemma merge_metadata_trace (pdf q : Pdf (Object L)) (upd : dict string) (t : trace) :
  merge_metadata L pdf upd = (t, Ok q) ->
  t = writes upd \/
  exists s,
    dict_mem "/ModDate" upd = false /\ dict_mem "ModDate" upd = false /\
    dict_get "/ModDate" (fst (read_existing L pdf)) = Some s /\ truthy s = true /\
    t = (writes upd ++ [call_setitem "/ModDate" s])%list.
Proof.
  unfold merge_metadata. intros H.
  apply bind_ok in H. destruct H as (t1 & p1 & t2 & H1 & H2 & ->).
  apply write_items_ok in H1. destruct H1 as (-> & _ & _).
  apply keep_moddate_ok in H2.
  destruct H2 as [[-> ->] | (s & M1 & M2 & G & T & -> & _)].
  - left. apply app_nil_r.
  - right. exists s. auto.
Qed.

(** The whole run, when every step goes through. *)
Lemma update_pdf_metadata_run (file : UploadedFile) (upd : dict string)
  (pdf q : Pdf (Object L)) (t : trace) (output : bytes) :
  closed file = false -> open L (data file) = Ok pdf ->
  merge_metadata L pdf upd = (t, Ok q) -> save L q = Ok output ->
  update_pdf_metadata L file upd =
  ((call_open (data file) :: t ++
    [call_save; logging_info "Metadata updated successfully: {}" (dict_keys upd)])%list,
   Ok (Some output)).
Proof.
  intros Hc Ho Hm Hs. unfold update_pdf_metadata, file_read, pikepdf_open, pdf_save.
  rewrite Hc. simpl. rewrite Ho. simpl. rewrite Hm. simpl. rewrite Hs. simpl.
  reflexivity.
Qed.

(** X12. When bytes come back, pikepdf was asked for exactly this: open the
    file, one assignment per entry of the request with a non-empty value,
    in order, at most one more to write [/ModDate] back, and save. *)
Theorem update_pdf_metadata_calls (file : UploadedFile) (upd : dict string) (output : bytes) :
  outcome (update_pdf_metadata L file upd) = Ok (Some output) ->
  exists tail,
    events (update_pdf_metadata L file upd) =
      (call_open (data file) :: writes upd ++ tail ++
       [call_save; logging_info "Metadata updated successfully: {}" (dict_keys upd)])%list /\
    (tail = [] \/
     exists s, tail = [call_setitem "/ModDate" s] /\ truthy s = true /\
               dict_mem "/ModDate" upd = false /\ dict_mem "ModDate" upd = false).
Proof.
  intros H. apply update_pdf_metadata_some in H.
  destruct H as (pdf & q & t & Hc & Ho & Hm & Hs).
  rewrite (update_pdf_metadata_run file upd pdf q t output Hc Ho Hm Hs).
  apply merge_metadata_trace in Hm.
  destruct Hm as [-> | (s & M1 & M2 & _ & T & ->)].
  - exists []. split; [reflexivity | now left].
  - exists [call_setitem "/ModDate" s]. split.
    + cbn [events fst]. now rewrite <- app_assoc.
    + right. exists s. auto.
Qed.

(** X13. Either bytes come back and no error is shown, or [None] comes back
    and the run ends by logging the cause and showing it to the user. *)
Theorem update_pdf_metadata_outcomes (file : UploadedFile) (upd : dict string) :
  (exists output,
     outcome (update_pdf_metadata L file upd) = Ok (Some output) /\
     existsb is_st_error (events (update_pdf_metadata L file upd)) = false) \/
  (outcome (update_pdf_metadata L file upd) = Ok None /\
   exists before e,
     events (update_pdf_metadata L file upd) =
       (before ++ [logging_error "Error updating PDF metadata: {}" [exn_msg e];
                   st_error "Failed to update metadata: {}" [exn_msg e]])%list).
Proof.
  destruct (closed file) eqn:Hc.
  { right. unfold update_pdf_metadata, file_read. rewrite Hc. simpl.
    split; [reflexivity |].
    exists [], (mk_exn ValueError "I/O operation on closed file."). reflexivity. }
  destruct (open L (data file)) as [pdf | e] eqn:Ho.
  2:{ right. unfold update_pdf_metadata, file_read, pikepdf_open. rewrite Hc. simpl.
      rewrite Ho. simpl. split; [reflexivity |].
      exists [call_open (data file)], e. reflexivity. }
  destruct (merge_metadata L pdf upd) as [t [q | e]] eqn:Hm.
  2:{ right. unfold update_pdf_metadata, file_read, pikepdf_open. rewrite Hc. simpl.
      rewrite Ho. simpl. rewrite Hm. simpl. split; [reflexivity |].
      exists (call_open (data file) :: t), e. reflexivity. }
  destruct (save L q) as [output | e] eqn:Hs.
  - left. exists output.
    rewrite (update_pdf_metadata_run file upd pdf q t output Hc Ho Hm Hs).
    split; [reflexivity |]. cbn [events fst existsb is_st_error orb].
    rewrite existsb_app. cbn [existsb is_st_error orb]. rewrite orb_false_r.
    apply merge_metadata_trace in Hm.
    assert (Hw : existsb is_st_error (writes upd) = false).
    { unfold writes. induction (filter _ upd) as [| kv l IH]; [reflexivity | exact IH]. }
    destruct Hm as [-> | (s & _ & _ & _ & _ & ->)]; [exact Hw |].
    rewrite existsb_app, Hw. reflexivity.
  - right. unfold update_pdf_metadata, file_read, pikepdf_open, pdf_save. rewrite Hc. simpl.
    rewrite Ho. simpl. rewrite Hm. simpl. rewrite Hs. simpl. split; [reflexivity |].
    exists (call_open (data file) :: t ++ [call_save])%list, e.
    cbn [app]. now rewrite <- !app_assoc.
Qed.

Lemma in_bind {A B} (m : M A) (k : A -> M B) (ev : event) :
  In ev (events (bind m k)) ->
  In ev (events m) \/ exists a, outcome m = Ok a /\ In ev (events (k a)).
Proof.
  rewrite events_bind. intros H. apply in_app_or in H. destruct H as [H | H]; [now left |].
  destruct (outcome m) as [a | e]; [right; eauto | destruct H].
Qed.

(** Every assignment made, in a run that succeeds or not, is one that the
    request asks for or the write-back of [/ModDate]. *)
Lemma update_setitem_origin (file : UploadedFile) (upd : dict string) (k v : string) :
  In (call_setitem k v) (events (update_pdf_metadata L file upd)) ->
  In (call_setitem k v) (writes upd) \/ (k = "/ModDate" /\ truthy v = true).
Proof.
  unfold update_pdf_metadata. rewrite events_try_catch. intros H.
  apply in_app_or in H. destruct H as [H | H].
  2:{ destruct (outcome _); simpl in H; intuition discriminate. }
  apply in_bind in H. destruct H as [H | (b & _ & H)]; [destruct H |].
  apply in_bind in H. destruct H as [H | (pdf & _ & H)].
  { unfold pikepdf_open in H. apply in_bind in H.
    destruct H as [H | (? & _ & H)]; simpl in H; intuition discriminate. }
  apply in_bind in H. destruct H as [H | (q & _ & H)].
  - unfold merge_metadata in H. apply in_bind in H. destruct H as [H | (p1 & _ & H)].
    + left. destruct (write_items_events L upd (snd (read_existing L pdf))) as [rest Hr].
      rewrite Hr. apply in_or_app. now left.
    + right. unfold keep_moddate in H.
      destruct (negb (dict_mem "/ModDate" upd) && negb (dict_mem "ModDate" upd));
        [| destruct H].
      destruct (dict_get "/ModDate" (fst (read_existing L pdf))) as [s |]; [| destruct H].
      destruct (truthy s) eqn:T; [| destruct H].
      rewrite docinfo_setitem_events in H. destruct H as [H | []].
      injection H as <- <-. auto.
  - apply in_bind in H. destruct H as [H | (out & _ & H)].
    + unfold pdf_save in H. apply in_bind in H.
      destruct H as [H | (? & _ & H)]; simpl in H; intuition discriminate.
    + apply in_bind in H. destruct H as [H | (? & _ & H)]; simpl in H; intuition discriminate.
Qed.

(** X14. No assignment ever goes to a key without its leading slash, and none
    carries an empty value. *)
Theorem update_pdf_metadata_assigns (file : UploadedFile) (upd : dict string) (k v : string) :
  In (call_setitem k v) (events (update_pdf_metadata L file upd)) ->
  startswith k "/" = true /\ truthy v = true.
Proof.
  intros H. apply update_setitem_origin in H. destruct H as [H | [-> T]].
  - apply writes_In in H. destruct H as (key & _ & T & <-).
    split; [apply dict_key_starts | exact T].
  - split; [reflexivity | exact T].
Qed.

End WriterMore.

Section WriterEdges.

Variable L : Pikepdf.

Lemma untouched_cons (n key value : string) (items : dict string) :
  untouched n ((key, value) :: items) -> untouched n items.
Proof. intros H k v Hin. apply H. now right. Qed.

(** The last entry of the request that assigns to a key decides its
    value. *)
Lemma write_items_last (before after : dict string) (key value : string) :
  truthy value = true ->
  untouched (dict_key key) after ->
  forall (pdf q : Pdf (Object L)) (t : trace),
    write_items L pdf (before ++ (key, value) :: after)%list = (t, Ok q) ->
    dict_get (dict_key key) (docinfo_view q) = Some (object_of_str L value).
Proof.
  intros T Hu. induction before as [| [k0 v0] before IH]; intros pdf q t; cbn [app write_items].
  - rewrite T. intros H. apply bind_ok in H. destruct H as (t1 & p1 & t2 & H1 & H2 & _).
    apply docinfo_setitem_ok in H1. destruct H1 as (_ & _ & Hv).
    apply write_items_ok in H2. destruct H2 as (_ & _ & Hf).
    rewrite (Hf _ Hu), Hv. apply dict_get_set_same.
  - destruct (truthy v0).
    + intros H. apply bind_ok in H. destruct H as (t1 & p1 & t2 & _ & H2 & _).
      exact (IH _ _ _ H2).
    + apply IH.
Qed.

Lemma merge_metadata_new_value (pdf q : Pdf (Object L)) (before after : dict string)
  (key value : string) (t : trace) :
  truthy value = true ->
  untouched (dict_key key) after ->
  merge_metadata L pdf (before ++ (key, value) :: after)%list = (t, Ok q) ->
  dict_get (dict_key key) (docinfo_view q) = Some (object_of_str L value).
Proof.
  intros T Hu Hm.
  unfold merge_metadata in Hm. apply bind_ok in Hm.
  destruct Hm as (t1 & p1 & t2 & H1 & H2 & _).
  pose proof (write_items_last before after key value T Hu _ _ _ H1) as Hg.
  apply keep_moddate_ok in H2.
  destruct H2 as [[_ ->] | (s & M1 & M2 & _ & _ & _ & _ & Hv)]; [exact Hg |].
  rewrite Hv, dict_get_set_other; [exact Hg |].
  intros E. symmetry in E. apply dict_key_ModDate in E.
  assert (Hin : In (key, value) (before ++ (key, value) :: after)%list)
    by (apply in_or_app; right; now left).
  apply In_dict_mem in Hin. destruct E as [-> | ->]; congruence.
Qed.

(** X15. The new value wins: an entry of the request with a non-empty value,
    not followed by another entry for the same field under either
    spelling of its name, is what the written bytes hold for that field. *)
Theorem update_pdf_metadata_new_value (file : UploadedFile) (before after : dict string)
  (key value : string) (output : bytes) :
  save_open_faithful L ->
  truthy value = true ->
  untouched (dict_key key) after ->
  outcome (update_pdf_metadata L file (before ++ (key, value) :: after)%list) = Ok (Some output) ->
  exists saved,
    open L output = Ok saved /\
    dict_get (dict_key key) (docinfo_view saved) = Some (object_of_str L value).
Proof.
  intros Hlaw T Hu H. apply update_pdf_metadata_some in H.
  destruct H as (pdf & q & t & _ & _ & Hm & Hs).
  destruct (Hlaw q output Hs) as (saved & Hopen & _ & Heq).
  exists saved. split; [exact Hopen |]. rewrite (Heq (dict_key key)).
  exact (merge_metadata_new_value pdf q before after key value t T Hu Hm).
Qed.

(** X16. Edit, then look again: extraction from the bytes written shows, for
    the edited field, the text that was asked for. *)
Theorem update_then_extract (file : UploadedFile) (pdf : Pdf (Object L))
  (before after : dict string) (key value : string) (output : bytes) :
  save_open_faithful L ->
  open L (data file) = Ok pdf ->
  is_encrypted pdf = false ->
  truthy value = true ->
  untouched (dict_key key) after ->
  outcome (update_pdf_metadata L file (before ++ (key, value) :: after)%list) = Ok (Some output) ->
  exists record,
    outcome (extract_metadata L (BytesIO output)) = Ok (Some record) /\
    dict_get (dict_key key) record = Some value.
Proof.
  intros Hlaw Ho He T Hu H. apply update_pdf_metadata_some in H.
  destruct H as (pdf0 & q & t & _ & Ho' & Hm & Hs).
  rewrite Ho in Ho'. injection Ho' as <-.
  destruct (Hlaw q output Hs) as (saved & Hopen & Henc & Heq).
  assert (Hq : is_encrypted q = false).
  { pose proof (merge_metadata_frame L pdf q _ t Hm) as [[Hf _] _]. congruence. }
  destruct (extract_metadata_record L (BytesIO output) saved eq_refl Hopen) as (record & Hr & Hk);
    [auto |].
  exists record. split; [exact Hr |]. rewrite Hk.
  unfold text_of, str_item. rewrite (Heq (dict_key key)).
  rewrite (merge_metadata_new_value pdf q before after key value t T Hu Hm).
  now rewrite object_str_of_str.
Qed.

(** X17. The rule for [/ModDate] at work: when every value of the dictionary
    has a text, the text of [/ModDate] is not empty and the request names
    neither spelling of it, that text is written back as the last
    assignment before [save]. *)
Theorem update_pdf_metadata_writes_back (file : UploadedFile) (pdf : Pdf (Object L))
  (d : dict (Object L)) (upd : dict string) (o : Object L) (s : string) (output : bytes) :
  open L (data file) = Ok pdf ->
  Info pdf = InfoDict d ->
  (forall k o', In (k, o') d -> exists s', object_str L o' = Ok s') ->
  dict_get "/ModDate" d = Some o -> object_str L o = Ok s -> truthy s = true ->
  dict_mem "/ModDate" upd = false -> dict_mem "ModDate" upd = false ->
  outcome (update_pdf_metadata L file upd) = Ok (Some output) ->
  events (update_pdf_metadata L file upd) =
    (call_open (data file) :: writes upd ++
     [call_setitem "/ModDate" s; call_save;
      logging_info "Metadata updated successfully: {}" (dict_keys upd)])%list.
Proof.
  intros Ho Hi Hall Hg Hstr T M1 M2 H. apply update_pdf_metadata_some in H.
  destruct H as (pdf0 & q & t & Hc & Ho' & Hm & Hs).
  rewrite Ho in Ho'. injection Ho' as <-.
  rewrite (update_pdf_metadata_run L file upd pdf q t output Hc Ho Hm Hs).
  assert (G : dict_get "/ModDate" (fst (read_existing L pdf)) = Some s).
  { rewrite (read_existing_complete L pdf d Hi Hall).
    unfold text_of, str_item. now rewrite Hg, Hstr. }
  destruct (moddate_written_back L pdf q upd s t M1 M2 G T Hm) as [-> _].
  cbn [events fst]. now rewrite <- app_assoc.
Qed.

(** X18. The other side of that rule: the loop that reads the existing values
    stops at the first one without a text.  When that is the first value
    of the dictionary nothing has been read, and [/ModDate] is not written
    back, whatever the request. *)
Theorem update_pdf_metadata_no_write_back (file : UploadedFile) (pdf : Pdf (Object L))
  (k0 : string) (o0 : Object L) (e0 : exn) (d : dict (Object L)) (upd : dict string) :
  open L (data file) = Ok pdf ->
  Info pdf = InfoDict ((k0, o0) :: d) ->
  object_str L o0 = Raise e0 ->
  exists rest,
    writes upd =
    (filter is_setitem (events (update_pdf_metadata L file upd)) ++ rest)%list.
Proof.
  intros Ho Hi Hstr.
  assert (Hx : read_existing L pdf = ([], pdf)).
  { unfold read_existing, docinfo. rewrite Hi. cbn [dict_keys map fst stringify_until].
    unfold str_item. cbn [dict_get]. rewrite String.eqb_refl, Hstr. reflexivity. }
  unfold update_pdf_metadata, file_read, pikepdf_open, pdf_save.
  destruct (closed file); simpl; [now exists (writes upd) |].
  rewrite Ho. simpl. unfold merge_metadata. rewrite Hx. cbn [fst snd].
  assert (Hk : forall p, keep_moddate L p upd [] = ret p).
  { intros p. unfold keep_moddate. cbn [dict_get]. now destruct (_ && _). }
  destruct (write_items_events L upd pdf) as [rest Hr].
  assert (Hall : filter is_setitem (events (write_items L pdf upd))
                 = events (write_items L pdf upd)).
  { apply filter_all. intros ev Hin. apply (writes_all_setitem upd).
    rewrite Hr. apply in_or_app. now left. }
  exists rest. rewrite Hr at 1. f_equal.
  destruct (write_items L pdf upd) as [tw [p1 | e]]; simpl in *.
  - rewrite Hk. simpl. rewrite app_nil_r.
    destruct (save L p1); simpl; rewrite !filter_app, Hall; simpl;
      now rewrite !app_nil_r.
  - rewrite !filter_app, Hall. simpl. now rewrite !app_nil_r.
Qed.

End WriterEdges.

(* ================================================================== *)
(** * More on [main] *)

Lemma outcome_emit (ev : event) : outcome (emit ev) = Ok tt.
Proof. reflexivity. Qed.

Lemma extract_metadata_returns (L : Pikepdf) (file : UploadedFile) :
  exists r, outcome (extract_metadata L file) = Ok r.
Proof.
  apply try_catch_returns. intros e. exists None. destruct (exn_type e); reflexivity.
Qed.

Lemma update_pdf_metadata_returns (L : Pikepdf) (file : UploadedFile) (upd : dict string) :
  exists r, outcome (update_pdf_metadata L file upd) = Ok r.
Proof. apply try_catch_returns. intros e. exists None. reflexivity. Qed.

(** ** The cards *)

(** One card for each selected field, in the order of selection: a field
    whose name contains "date" in any case shows what [parse_pdf_date]
    makes of the value, any other field the value as it is. *)
Lemma show_selected_cards (tz : tzinfo) (metadata : dict string) (selected_keys : list string) :
  show_selected tz metadata selected_keys =
  (map (fun key => metadata_card key (display_value tz metadata key)) selected_keys, Ok tt).
Proof.
  induction selected_keys as [| key rest IH]; [reflexivity |].
  cbn [show_selected map]. unfold display_value.
  destruct (contains (lower key) "date" || contains key "Date").
  - destruct (parse_pdf_date_returns tz (str_of_get (dict_get key metadata))) as [text ->].
    unfold lift. cbn [bind emit app]. rewrite IH. reflexivity.
  - unfold ret. cbn [bind emit app]. rewrite IH. reflexivity.
Qed.

(** ** The request built from the form *)

Lemma dict_get_set {V} (k n : string) (v : V) (d : dict V) :
  dict_get n (dict_set k v d) = if String.eqb n k then Some v else dict_get n d.
Proof.
  destruct (String.eqb n k) eqn:E.
  - apply String.eqb_eq in E. subst. apply dict_get_set_same.
  - apply dict_get_set_other. intros ->. now rewrite String.eqb_refl in E.
Qed.

Section Form.

Variable ui : Run.

Lemma enter_values_spec (session : Session) (fields : list string) :
  forall (acc upd : dict string) (t : trace),
    enter_values ui session fields acc = (t, Ok upd) ->
    forall k v, dict_get k upd = Some v ->
      dict_get k acc = Some v \/ (In k fields /\ v = typed ui k /\ truthy v = true).
Proof.
  induction fields as [| key rest IH]; intros acc upd t; cbn [enter_values].
  - intros [= <- <-]. auto.
  - intros H. apply bind_ok in H. destruct H as (t1 & stored & t2 & _ & H & _).
    apply bind_ok in H. destruct H as (t3 & [] & t4 & _ & H & _).
    apply bind_ok in H. destruct H as (t5 & [] & t6 & _ & H & _).
    intros k v Hg. destruct (IH _ _ _ H k v Hg) as [Ha | (Hin & Hv & Ht)].
    + fold (typed ui key) in Ha. destruct (truthy (typed ui key)) eqn:T; [| now left].
      rewrite dict_get_set in Ha. destruct (String.eqb k key) eqn:E; [| now left].
      apply String.eqb_eq in E. subst k. injection Ha as <-.
      right. split; [now left | auto].
    + right. split; [now right | auto].
Qed.

(** X19. The request handed to [update_pdf_metadata] holds only fields chosen
    for editing, each with what the user typed for it, and never an empty
    value. *)
Theorem enter_values_request (session : Session) (fields_to_edit : list string)
  (updated_values : dict string) (t : trace) (k v : string) :
  enter_values ui session fields_to_edit [] = (t, Ok updated_values) ->
  dict_get k updated_values = Some v ->
  In k fields_to_edit /\ v = typed ui k /\ truthy v = true.
Proof.
  intros H Hg. destruct (enter_values_spec _ _ _ _ _ H k v Hg) as [Ha | Hb];
    [discriminate | exact Hb].
Qed.

Lemma enter_values_returns (session : Session) (stored : dict string) (fields : list string) :
  all_metadata session = Some stored ->
  forall acc, exists upd, outcome (enter_values ui session fields acc) = Ok upd.
Proof.
  intros Hs. induction fields as [| key rest IH]; intros acc; cbn [enter_values].
  - now exists acc.
  - rewrite Hs. repeat (rewrite outcome_bind; cbn [lift outcome snd emit]). apply IH.
Qed.

End Form.

(** ** A run never fails *)

Section Runs.

Variable L : Pikepdf.
Variable tz : tzinfo.
Variable ui : Run.

Lemma save_section_returns (file : UploadedFile) (updated_values : dict string) :
  outcome (save_section L ui file updated_values) = Ok tt.
Proof.
  unfold save_section. destruct updated_values as [| kv rest]; [reflexivity |].
  rewrite outcome_bind.
  assert (Hn : exists n,
             outcome (if String.eqb (save_option ui) "Save as new file"
                      then ret (match text_input ui "new_filename" with
                                | Some v => v
                                | None => ("updated_" ++ name file)%string
                                end)
                      else bind (emit (st_warning
                                   "This will replace the original file when you download it."))
                                (fun _ => ret (name file))) = Ok n).
  { destruct (String.eqb (save_option ui) "Save as new file"); eexists; reflexivity. }
  destruct Hn as [n ->].
  destruct (save_button ui); [| reflexivity].
  rewrite outcome_bind.
  destruct (update_pdf_metadata_returns L file (kv :: rest)) as [[output |] ->]; reflexivity.
Qed.

Lemma edit_section_returns (file : UploadedFile) (session : Session) :
  sound_session session ->
  outcome (edit_section L ui file session) = Ok tt.
Proof.
  unfold sound_session, edit_section. intros Hs.
  destruct (displayed_metadata session) as [[| k ks] |]; try reflexivity.
  destruct (all_metadata session) as [stored |] eqn:Ha; [| destruct Hs].
  destruct (filter _ (k :: ks)) as [| f fs]; [reflexivity |].
  rewrite outcome_bind.
  destruct (enter_values_returns ui session stored (f :: fs) Ha []) as [upd ->].
  apply save_section_returns.
Qed.

Lemma submit_returns (metadata : dict string) (selected_keys : list string) (session : Session) :
  sound_session session ->
  exists session',
    outcome (submit tz ui metadata selected_keys session) = Ok session' /\
    sound_session session'.
Proof.
  intros Hs. unfold submit.
  destruct (submit_button ui); [| exists session; split; [reflexivity | exact Hs]].
  destruct selected_keys as [| k ks]; [exists session; split; [reflexivity | exact Hs] |].
  rewrite outcome_bind, show_selected_cards.
  eexists. split; [reflexivity | exact I].
Qed.

(** X20. Starting from a session in which the stored metadata is there whenever
    displayed fields are, a run of the script ends without an exception,
    whatever the file, the library and the user do, and leaves such a
    session. *)
Theorem main_never_raises (session : Session) :
  sound_session session ->
  exists session',
    outcome (main L tz ui session) = Ok session' /\ sound_session session'.
Proof.
  intros Hs. unfold main.
  destruct (rerun_button ui); [exists (mk_Session None None); split; [reflexivity | exact I] |].
  destruct (uploaded_file ui) as [file |];
    [| exists session; split; [reflexivity | exact Hs]].
  destruct (MAX_UPLOAD <? size file);
    [exists session; split; [reflexivity | exact Hs] |].
  unfold process_upload. rewrite outcome_bind.
  destruct (extract_metadata_returns L file) as [[metadata |] ->];
    [| exists session; split; [reflexivity | exact Hs]].
  destruct (dict_keys metadata) as [| k ks];
    [exists session; split; [reflexivity | exact Hs] |].
  rewrite outcome_bind. cbn [outcome emit snd]. rewrite outcome_bind.
  destruct (submit_returns metadata (filter (checkbox ui) (k :: ks)) session Hs)
    as (session' & -> & Hs').
  rewrite outcome_bind, (edit_section_returns file session' Hs').
  exists session'. split; [reflexivity | exact Hs'].
Qed.

(** X21. A readable file of exactly the limit, or below it, is handed to
    pikepdf: the first thing the run does is to open the bytes of the
    upload, as they are. *)
Theorem main_within_limit (file : UploadedFile) (session : Session) :
  rerun_button ui = false ->
  uploaded_file ui = Some file ->
  closed file = false ->
  size file <= MAX_UPLOAD ->
  exists rest, events (main L tz ui session) = call_open (data file) :: rest.
Proof.
  intros Hr Hf Hc Hs. unfold main. rewrite Hr, Hf.
  replace (MAX_UPLOAD <? size file) with false by (symmetry; apply Z.ltb_ge; lia).
  unfold process_upload. rewrite events_bind.
  assert (H : exists rest, events (extract_metadata L file) = call_open (data file) :: rest).
  { unfold extract_metadata, file_read, pikepdf_open. rewrite Hc.
    rewrite events_try_catch, events_bind. cbn [lift events outcome fst snd app].
    rewrite events_bind, events_bind. cbn [emit events fst app]. eauto. }
  destruct H as [rest ->]. cbn [app]. eauto.
Qed.

End Runs.

(** ** Looking does not write *)

Section Viewing.

Variable L : Pikepdf.
Variable tz : tzinfo.
Variable ui : Run.

Lemma extract_metadata_no_write (file : UploadedFile) :
  existsb is_write (events (extract_metadata L file)) = false.
Proof.
  unfold extract_metadata, file_read, pikepdf_open.
  destruct (closed file); simpl; [reflexivity |].
  destruct (open L (data file)) as [pdf | e]; simpl.
  - destruct (is_encrypted pdf); simpl; [reflexivity |].
    destruct (docinfo pdf) as [di | e]; reflexivity.
  - destruct (exn_type e); reflexivity.
Qed.

Lemma show_selected_no_write (metadata : dict string) (keys : list string) :
  existsb is_write (events (show_selected tz metadata keys)) = false.
Proof.
  rewrite show_selected_cards. cbn [events fst].
  induction keys as [| k ks IH]; [reflexivity | exact IH].
Qed.

Lemma enter_values_no_write (session : Session) (fields : list string) :
  forall acc, existsb is_write (events (enter_values ui session fields acc)) = false.
Proof.
  induction fields as [| key rest IH]; intros acc; cbn [enter_values]; [reflexivity |].
  destruct (all_metadata session) as [stored |]; [| reflexivity].
  repeat (rewrite events_bind; cbn [lift emit events outcome fst snd app]).
  cbn [existsb is_write is_setitem is_call_save orb]. apply IH.
Qed.

Lemma submit_no_write (metadata : dict string) (keys : list string) (session : Session) :
  existsb is_write (events (submit tz ui metadata keys session)) = false.
Proof.
  unfold submit. destruct (submit_button ui); [| reflexivity].
  destruct keys as [| k ks]; [reflexivity |].
  rewrite events_bind, existsb_app, show_selected_no_write, show_selected_cards.
  reflexivity.
Qed.

Lemma save_section_no_write (file : UploadedFile) (updated_values : dict string) :
  save_button ui = false ->
  existsb is_write (events (save_section L ui file updated_values)) = false.
Proof.
  intros Hb. unfold save_section. rewrite Hb.
  destruct updated_values as [| kv rest]; [reflexivity |].
  destruct (String.eqb (save_option ui) "Save as new file"); reflexivity.
Qed.

Lemma edit_section_no_write (file : UploadedFile) (session : Session) :
  save_button ui = false ->
  existsb is_write (events (edit_section L ui file session)) = false.
Proof.
  intros Hb. unfold edit_section.
  destruct (displayed_metadata session) as [[| k ks] |]; try reflexivity.
  destruct (filter _ (k :: ks)) as [| f fs]; [reflexivity |].
  rewrite events_bind, existsb_app, enter_values_no_write.
  destruct (outcome _); [apply save_section_no_write; exact Hb | reflexivity].
Qed.

(** X22. A run in which the Save button is not pressed asks pikepdf for no
    assignment and no [save]: uploading, selecting and viewing fields, and
    filling in the form leave the document alone. *)
Theorem main_view_only (session : Session) :
  save_button ui = false ->
  existsb is_write (events (main L tz ui session)) = false.
Proof.
  intros Hb. unfold main.
  destruct (rerun_button ui); [reflexivity |].
  destruct (uploaded_file ui) as [file |]; [| reflexivity].
  destruct (MAX_UPLOAD <? size file); [reflexivity |].
  unfold process_upload.
  rewrite events_bind, existsb_app, extract_metadata_no_write.
  destruct (outcome (extract_metadata L file)) as [[metadata |] | e]; try reflexivity.
  destruct (dict_keys metadata) as [| k ks]; [reflexivity |].
  rewrite events_bind. cbn [emit events outcome fst snd app existsb].
  cbn [is_write is_setitem is_call_save orb].
  rewrite events_bind, existsb_app, submit_no_write.
  destruct (outcome (submit _ _ _ _ _)) as [session' | e]; [| reflexivity].
  rewrite events_bind, existsb_app, edit_section_no_write by exact Hb.
  destruct (outcome _); reflexivity.
Qed.

End Viewing.

(* ================================================================== *)
(** * [get_format_hint] *)

Lemma startswith_contains (a b : string) :
  forall s, startswith s (a ++ b) = true -> contains s b = true.
Proof.
  induction a as [| x a IH]; intros s; cbn [append].
  - intros H. destruct s; cbn [contains]; now rewrite H.
  - destruct s as [| c s]; [discriminate |].
    rewrite startswith_cons. intros H. apply andb_true_iff in H. destruct H as [_ H].
    cbn [contains]. rewrite (IH s H). apply orb_true_r.
Qed.

Lemma contains_tail (a b : string) (s : string) :
  contains s (a ++ b) = true -> contains s b = true.
Proof.
  induction s as [| c s IH]; cbn [contains].
  - rewrite orb_false_r. apply startswith_contains.
  - intros H. apply orb_true_iff in H. destruct H as [H | H].
    + apply (startswith_contains a b (String c s) H).
    + rewrite (IH H). apply orb_true_r.
Qed.

(** X25. A selected key that is given the hint for dates is a key whose value
    is shown through [parse_pdf_date]: its card holds the converted text. *)
Theorem date_hint_is_shown_as_date (tz : tzinfo) (metadata : dict string)
  (selected_keys : list string) (key : string) :
  In key selected_keys ->
  get_format_hint key = date_hint ->
  exists text,
    parse_pdf_date tz (str_of_get (dict_get key metadata)) = Ok text /\
    In (metadata_card key text) (events (show_selected tz metadata selected_keys)).
Proof.
  intros Hk H.
  assert (Hd : contains (lower key) "date" = true).
  { unfold get_format_hint in H.
    destruct (find _ hints) as [h |] eqn:F; [| discriminate H].
    apply find_some in F. destruct F as [Hin Hc].
    unfold hints in Hin. cbn [In] in Hin.
    repeat (destruct Hin as [<- | Hin]; [try discriminate H |]); [| | destruct Hin].
    - apply (contains_tail "creation" "date"). exact Hc.
    - apply (contains_tail "mod" "date"). exact Hc. }
  destruct (parse_pdf_date_returns tz (str_of_get (dict_get key metadata))) as [text Ht].
  exists text. split; [exact Ht |].
  rewrite show_selected_cards. cbn [events fst].
  apply in_map_iff. exists key. split; [| exact Hk].
  unfold display_value. now rewrite Hd, Ht.
Qed.

Lemma contains_skip (x c : ascii) (s w : string) :
  Ascii.eqb c x = false ->
  contains (String x s) (String c w) = contains s (String c w).
Proof.
  intros H. cbn [contains]. now rewrite startswith_cons, H.
Qed.

(** X26. The keys pikepdf gives start with a slash, the table of hints has
    bare names: the slash in front makes no difference to the hint. *)
Theorem get_format_hint_slash (key : string) :
  get_format_hint ("/" ++ key) = get_format_hint key.
Proof.
  unfold get_format_hint, hints. cbn [append lower find fst snd].
  change (lower_char "/") with "/"%char.
  change (String (lower_char "T") ?s) with (String "t"%char s).
  change (String (lower_char "A") ?s) with (String "a"%char s).
  change (String (lower_char "S") ?s) with (String "s"%char s).
  change (String (lower_char "K") ?s) with (String "k"%char s).
  change (String (lower_char "C") ?s) with (String "c"%char s).
  change (String (lower_char "P") ?s) with (String "p"%char s).
  change (String (lower_char "M") ?s) with (String "m"%char s).
  rewrite !contains_skip by reflexivity.
  reflexivity.
Qed.

(** ** A document without readable metadata *)

Lemma stringify_each_none (L : Pikepdf) (d : dict (Object L)) (keys : list string) :
  (forall key, In key keys -> exists e, str_item L d key = Raise e) ->
  forall acc, stringify_each L d keys acc = acc.
Proof.
  induction keys as [| key rest IH]; intros H acc; [reflexivity |].
  cbn [stringify_each]. destruct (H key (or_introl eq_refl)) as [e ->].
  apply IH. intros k Hk. apply H. now right.
Qed.

(** X24. When no value of the information dictionary has a text, also when
    there is no dictionary or it cannot be read, the run opens the file,
    logs what extraction found, says that there is no metadata and ends:
    no field is offered and the session stays as it was. *)
Theorem main_no_readable_field (L : Pikepdf) (tz : tzinfo) (ui : Run)
  (file : UploadedFile) (pdf : Pdf (Object L)) (session : Session) :
  rerun_button ui = false ->
  uploaded_file ui = Some file ->
  size file <= MAX_UPLOAD ->
  closed file = false ->
  open L (data file) = Ok pdf ->
  is_encrypted pdf = false ->
  (forall key, In key (dict_keys (docinfo_view pdf)) ->
     exists e, str_item L (docinfo_view pdf) key = Raise e) ->
  main L tz ui session =
  ([call_open (data file);
    match Info pdf with
    | InfoBroken e => logging_error "Error accessing PDF metadata: {}" [exn_msg e]
    | _ => logging_info "Metadata successfully extracted: {} fields." ["0"]
    end;
    st_warning "No metadata found in this PDF.";
    logging_info "No metadata present in the uploaded PDF." []],
   Ok session).
Proof.
  intros Hr Hf Hs Hc Ho He Hn. unfold main. rewrite Hr, Hf.
  replace (MAX_UPLOAD <? size file) with false by (symmetry; apply Z.ltb_ge; lia).
  unfold process_upload, extract_metadata, file_read, pikepdf_open, docinfo.
  rewrite Hc. simpl. rewrite Ho. simpl. rewrite He.
  unfold docinfo_view in Hn.
  destruct (Info pdf) as [| d | e]; [reflexivity | | reflexivity].
  cbn [lift bind fst snd app]. rewrite (stringify_each_none L d _ Hn). reflexivity.
Qed.

(* ================================================================== *)
(** * What is offered for download *)

Section Download.

Variable L : Pikepdf.
Variable tz : tzinfo.
Variable ui : Run.

Lemma extract_metadata_no_download (file : UploadedFile) :
  existsb is_download (events (extract_metadata L file)) = false.
Proof.
  unfold extract_metadata, file_read, pikepdf_open.
  destruct (closed file); simpl; [reflexivity |].
  destruct (open L (data file)) as [pdf | e]; simpl.
  - destruct (is_encrypted pdf); simpl; [reflexivity |].
    destruct (docinfo pdf) as [di | e]; reflexivity.
  - destruct (exn_type e); reflexivity.
Qed.

Lemma enter_values_no_download (session : Session) (fields : list string) :
  forall acc, existsb is_download (events (enter_values ui session fields acc)) = false.
Proof.
  induction fields as [| key rest IH]; intros acc; cbn [enter_values]; [reflexivity |].
  destruct (all_metadata session) as [stored |]; [| reflexivity].
  repeat (rewrite events_bind; cbn [lift emit events outcome fst snd app]).
  cbn [existsb is_download orb]. apply IH.
Qed.

Lemma submit_no_download (metadata : dict string) (keys : list string) (session : Session) :
  existsb is_download (events (submit tz ui metadata keys session)) = false.
Proof.
  unfold submit. destruct (submit_button ui); [| reflexivity].
  destruct keys as [| k ks]; [reflexivity |].
  rewrite events_bind, existsb_app, !show_selected_cards. cbn [events outcome fst snd].
  rewrite orb_false_r.
  induction (k :: ks) as [| x xs IH]; [reflexivity | exact IH].
Qed.

Lemma update_pdf_metadata_no_download (file : UploadedFile) (upd : dict string) (ev : event) :
  In ev (events (update_pdf_metadata L file upd)) -> is_download ev = false.
Proof.
  unfold update_pdf_metadata. rewrite events_try_catch. intros H.
  apply in_app_or in H. destruct H as [H | H].
  2:{ destruct (outcome _); simpl in H; [destruct H |].
      destruct H as [<- | [<- | []]]; reflexivity. }
  apply in_bind in H. destruct H as [H | (b & _ & H)]; [destruct H |].
  apply in_bind in H. destruct H as [H | (pdf & _ & H)].
  { unfold pikepdf_open in H. apply in_bind in H.
    destruct H as [H | (? & _ & H)]; simpl in H; [| destruct H].
    destruct H as [<- | []]. reflexivity. }
  apply in_bind in H. destruct H as [H | (q & _ & H)].
  - unfold merge_metadata in H. apply in_bind in H. destruct H as [H | (p1 & _ & H)].
    + destruct (write_items_events L upd (snd (read_existing L pdf))) as [rest Hr].
      assert (Hs : is_setitem ev = true).
      { apply (writes_all_setitem upd). rewrite Hr. apply in_or_app. now left. }
      destruct ev; try discriminate Hs. reflexivity.
    + unfold keep_moddate in H.
      destruct (negb (dict_mem "/ModDate" upd) && negb (dict_mem "ModDate" upd));
        [| destruct H].
      destruct (dict_get "/ModDate" (fst (read_existing L pdf))) as [s |]; [| destruct H].
      destruct (truthy s); [| destruct H].
      rewrite docinfo_setitem_events in H. destruct H as [<- | []]. reflexivity.
  - apply in_bind in H. destruct H as [H | (out & _ & H)].
    + unfold pdf_save in H. apply in_bind in H.
      destruct H as [H | (? & _ & H)]; simpl in H; [| destruct H].
      destruct H as [<- | []]. reflexivity.
    + apply in_bind in H. destruct H as [H | (? & _ & H)]; simpl in H; [| destruct H].
      destruct H as [<- | []]. reflexivity.
Qed.

Lemma not_download_In (t : trace) (label : string) (output : bytes) (file_name : string) :
  existsb is_download t = false -> ~ In (st_download_button label output file_name) t.
Proof.
  intros H Hin. assert (E : existsb is_download t = true).
  { apply existsb_exists. eexists. split; [exact Hin | reflexivity]. }
  congruence.
Qed.

Lemma save_section_download (file : UploadedFile) (updated_values : dict string)
  (label : string) (output : bytes) (file_name : string) :
  In (st_download_button label output file_name)
     (events (save_section L ui file updated_values)) ->
  save_button ui = true /\
  outcome (update_pdf_metadata L file updated_values) = Ok (Some output) /\
  file_name = download_name ui file.
Proof.
  unfold save_section, download_name.
  destruct updated_values as [| kv rest]; [simpl; intuition discriminate |].
  intros H. apply in_bind in H. destruct H as [H | (n & Hn & H)].
  { destruct (String.eqb (save_option ui) "Save as new file"); simpl in H;
      intuition discriminate. }
  destruct (save_button ui); [| destruct H].
  apply in_bind in H. destruct H as [H | (r & Hr & H)].
  { apply update_pdf_metadata_no_download in H. discriminate H. }
  destruct r as [out |]; [| destruct H].
  simpl in H. destruct H as [H | [H | [H | []]]]; try discriminate H.
  injection H as _ -> <-. split; [reflexivity |]. split; [exact Hr |].
  destruct (String.eqb (save_option ui) "Save as new file");
    simpl in Hn; now injection Hn as <-.
Qed.

(** X23. What is offered for download is what [update_pdf_metadata] made of the
    uploaded file and of what the user typed: the Save button was pressed,
    the bytes are those the update returned for a request that holds only
    typed, non-empty values, and the name is the one chosen with the save
    option. *)
Theorem main_download_is_update (session : Session)
  (label : string) (output : bytes) (file_name : string) :
  In (st_download_button label output file_name) (events (main L tz ui session)) ->
  exists file updated_values,
    uploaded_file ui = Some file /\
    save_button ui = true /\
    outcome (update_pdf_metadata L file updated_values) = Ok (Some output) /\
    (forall k v, dict_get k updated_values = Some v -> v = typed ui k /\ truthy v = true) /\
    file_name = download_name ui file.
Proof.
  unfold main. destruct (rerun_button ui); [intros [] |].
  destruct (uploaded_file ui) as [file |]; [| intros []].
  destruct (MAX_UPLOAD <? size file); [simpl; intuition discriminate |].
  unfold process_upload. intros H.
  apply in_bind in H. destruct H as [H | (metadata & _ & H)].
  { now apply not_download_In in H; [| apply extract_metadata_no_download]. }
  destruct metadata as [metadata |]; [| destruct H].
  destruct (dict_keys metadata) as [| k ks]; [simpl in H; intuition discriminate |].
  apply in_bind in H. destruct H as [H | (? & _ & H)]; [simpl in H; intuition discriminate |].
  apply in_bind in H. destruct H as [H | (session' & _ & H)].
  { now apply not_download_In in H; [| apply submit_no_download]. }
  apply in_bind in H. destruct H as [H | (? & _ & H)]; [| destruct H].
  unfold edit_section in H.
  destruct (displayed_metadata session') as [[| d ds] |]; try (simpl in H; intuition discriminate).
  destruct (filter _ (d :: ds)) as [| f fs]; [simpl in H; intuition discriminate |].
  apply in_bind in H. destruct H as [H | (upd & Hu & H)].
  { now apply not_download_In in H; [| apply enter_values_no_download]. }
  apply save_section_download in H. destruct H as (Hb & Ho & Hn).
  exists file, upd. repeat split; try assumption.
  - destruct (enter_values ui session' (f :: fs) []) as [t r] eqn:E.
    cbn [outcome snd] in Hu. subst r.
    destruct (enter_values_spec ui session' (f :: fs) [] upd t E k0 v) as [Ha | (_ & Hv & _)];
      [assumption | discriminate | exact Hv].
  - destruct (enter_values ui session' (f :: fs) []) as [t r] eqn:E.
    cbn [outcome snd] in Hu. subst r.
    destruct (enter_values_spec ui session' (f :: fs) [] upd t E k0 v) as [Ha | (_ & _ & Hv)];
      [assumption | discriminate | exact Hv].
Qed.

End Download.

(* ================================================================== *)
(** * The theorems at work on the sample files *)

(** The example of the specification: a new title, the author untouched. *)
Example merge_title_keeps_author :
  outcome (extract_metadata Mini.lib
             (BytesIO (Sample.updated
                         (Mini.pdf_with [("/Title", Mini.String_ "Old");
                                         ("/Author", Mini.String_ "X")])
                         [("Title", "New Title")]))) =
  Ok (Some [("/Title", "New Title"); ("/Author", "X")]).
Proof. reflexivity. Qed.


(** Where the assignment of lines 116-118 is not made, here because the
    text of [/ModDate] is empty, the stamping library sets the entry. *)
Example stamping_sets_moddate :
  outcome (extract_metadata Stamping.lib
             (BytesIO (Sample.stamped Sample.undated_pdf Sample.new_title))) =
  Ok (Some [("/Title", "New Title"); ("/ModDate", Stamping.now)]).
Proof. reflexivity. Qed.

Lemma untargeted_field_unchanged_sample :
  exists saved o',
    open Mini.lib Sample.retitled = Ok saved /\
    dict_get "/Author" (docinfo_view saved) = Some o' /\
    object_str Mini.lib o' = object_str Mini.lib (Mini.String_ "X") /\
    ("/Author" <> "/ModDate" -> o' = Mini.String_ "X").
Proof.
  exact (untargeted_field_unchanged Mini.lib Sample.pdf Sample.doc Sample.new_title
           "/Author" (Mini.String_ "X") Sample.retitled
           MiniFacts.faithful eq_refl eq_refl eq_refl eq_refl eq_refl).
Defined.

Lemma extract_metadata_encrypted_sample :
  outcome (extract_metadata Mini.lib Sample.encrypted_pdf) = Ok None /\
  (events (extract_metadata Mini.lib Sample.encrypted_pdf) =
     [call_open (data Sample.encrypted_pdf);
      logging_warning "Encrypted PDF uploaded.";
      st_error "The uploaded PDF is encrypted and cannot be processed." []] \/
   exists e,
     events (extract_metadata Mini.lib Sample.encrypted_pdf) =
       [call_open (data Sample.encrypted_pdf);
        logging_error "Error extracting metadata: {}" [exn_msg e];
        st_error "An error occurred while extracting metadata." []]) /\
  forall tz ui session,
    outcome (process_upload Mini.lib tz ui Sample.encrypted_pdf session) = Ok session /\
    existsb shows_metadata
      (events (process_upload Mini.lib tz ui Sample.encrypted_pdf session)) = false.
Proof.
  exact (extract_metadata_encrypted Mini.lib Sample.encrypted_pdf eq_refl eq_refl).
Defined.

Lemma extract_metadata_empty_sample :
  outcome (extract_metadata Mini.lib Sample.bare_pdf) = Ok (Some []) /\
  outcome (extract_metadata Mini.lib Sample.bare_pdf) <> Ok None.
Proof.
  exact (extract_metadata_empty Mini.lib Sample.bare_pdf (mk_Pdf false InfoAbsent [] [])
           eq_refl eq_refl eq_refl (or_introl eq_refl)).
Defined.

Lemma unedited_round_trip_sample :
  exists before after,
    outcome (extract_metadata Mini.lib Sample.pdf) = Ok (Some before) /\
    outcome (extract_metadata Mini.lib (BytesIO Sample.resaved)) = Ok (Some after) /\
    dict_eq after before.
Proof.
  exact (unedited_round_trip Mini.lib Sample.pdf Sample.doc Sample.resaved
           MiniFacts.faithful eq_refl eq_refl eq_refl).
Defined.

Lemma oversize_upload_rejected_sample :
  existsb is_call_open
    (events (main Mini.lib US_Eastern (Sample.run_with Sample.big_upload) Sample.fresh)) = false /\
  (rerun_button (Sample.run_with Sample.big_upload) = false ->
   main Mini.lib US_Eastern (Sample.run_with Sample.big_upload) Sample.fresh =
     ([st_error "File is too large. Please upload a PDF under 10MB." [];
       logging_warning "File upload rejected due to size limit."],
      Ok Sample.fresh)).
Proof.
  exact (oversize_upload_rejected Mini.lib US_Eastern (Sample.run_with Sample.big_upload)
           Sample.big_upload Sample.fresh eq_refl eq_refl).
Defined.

Lemma empty_moddate_edit_sample :
  (forall k, ~ In (call_setitem k "")
                  (events (update_pdf_metadata Mini.lib Sample.pdf [("ModDate", "")]))) /\
  (exists rest,
     writes [("ModDate", "")] =
     (filter is_setitem (events (update_pdf_metadata Mini.lib Sample.pdf [("ModDate", "")]))
        ++ rest)%list) /\
  (untouched "/ModDate" [("ModDate", "")] ->
   forall v, ~ In (call_setitem "/ModDate" v)
                  (events (update_pdf_metadata Mini.lib Sample.pdf [("ModDate", "")]))).
Proof.
  exact (empty_moddate_edit Mini.lib Sample.pdf [("ModDate", "")] (or_introl eq_refl)).
Defined.

(** The example of the specification: 17:00 UTC on 11 February 2026 is
    noon in New York. *)
Lemma parse_pdf_date_valid_sample :
  (forall local,
     datetime_add (mk_datetime 2026 2 11 17 0 0)
       (utcoffset US_Eastern (mk_datetime 2026 2 11 17 0 0)) = Ok local ->
     parse_pdf_date US_Eastern (pdf_date_string 2026 2 11 17 0 0) =
       Ok (strftime_date (year local) (month local) (day local) ++ " at " ++
           fmt02 (hour12 (hour local)) ++ ":" ++ fmt02 (minute local) ++ ":" ++
           fmt02 (second local) ++ " " ++ am_pm (hour local) ++ " " ++
           tzname US_Eastern (mk_datetime 2026 2 11 17 0 0))%string) /\
  (0 <= seconds_of_day (mk_datetime 2026 2 11 17 0 0)
        + utcoffset US_Eastern (mk_datetime 2026 2 11 17 0 0) < 86400 ->
   exists rest,
     parse_pdf_date US_Eastern (pdf_date_string 2026 2 11 17 0 0) =
       Ok (strftime_date 2026 2 11 ++ rest)%string).
Proof.
  apply (parse_pdf_date_valid US_Eastern 2026 2 11 17 0 0).
  unfold valid_fields. vm_compute. intuition discriminate.
Defined.

Example parse_pdf_date_noon :
  parse_pdf_date US_Eastern "D:20260211170000" = Ok "February 11, 2026 at 12:00:00 PM EST".
Proof. reflexivity. Qed.

(** Midnight UTC on New Year's Day is still the evening of 31 December in
    New York: the string shown carries neither the year nor the month nor
    the day written in the date string. *)
Lemma parse_pdf_date_previous_day :
  valid_fields 2026 1 1 0 0 0 /\
  pdf_date_string 2026 1 1 0 0 0 = "D:20260101000000" /\
  parse_pdf_date US_Eastern "D:20260101000000" = Ok "December 31, 2025 at 07:00:00 PM EST" /\
  contains "December 31, 2025 at 07:00:00 PM EST" (fmt04 2026) = false /\
  contains "December 31, 2025 at 07:00:00 PM EST" (month_name 1) = false /\
  contains "December 31, 2025 at 07:00:00 PM EST" (fmt02 1) = false.
Proof.
  split; [unfold valid_fields; vm_compute; intuition discriminate |].
  repeat split; reflexivity.
Qed.

(** The first hours of year 1 have no local time in New York. *)
Example parse_pdf_date_year_one :
  parse_pdf_date US_Eastern "D:00010101000000" = Ok "00010101000000".
Proof. reflexivity. Qed.

(** Fields are read by position: a day of a single digit is read as well,
    and a time that is not complete counts as midnight. *)
Example parse_pdf_date_short_day :
  parse_pdf_date US_Eastern "2026011" = Ok "December 31, 2025 at 07:00:00 PM EST".
Proof. reflexivity. Qed.

(** A string that is no date comes back as it is. *)
Example parse_pdf_date_not_a_date (tz : tzinfo) :
  parse_pdf_date tz "not-a-date" = Ok "not-a-date".
Proof. reflexivity. Qed.

(** A password-protected file fails in [open] and gives [None] as well. *)
Example extract_metadata_locked :
  extract_metadata Mini.lib Sample.locked_pdf =
  ([call_open [Byte.x02];
    logging_error "Error extracting metadata: {}" ["invalid password"];
    st_error "An error occurred while extracting metadata." []],
   Ok None).
Proof. reflexivity. Qed.

(* ================================================================== *)
(** * The further theorems on sample inputs *)

Lemma parse_pdf_date_prefix_optional_sample :
  parse_pdf_date US_Eastern ("D:" ++ "20260211170000") =
  parse_pdf_date US_Eastern "20260211170000".
Proof.
  exact (parse_pdf_date_prefix_optional US_Eastern "20260211170000" eq_refl eq_refl).
Defined.

Lemma parse_pdf_date_short_sample :
  parse_pdf_date US_Eastern "D:2026" = Ok (strip_prefix "D:2026").
Proof.
  apply (parse_pdf_date_short US_Eastern "D:2026").
  apply Nat.leb_le. reflexivity.
Defined.

Lemma parse_pdf_date_invalid_fields_sample :
  parse_pdf_date US_Eastern (pdf_date_string 2026 2 30 0 0 0) =
  Ok (fmt04 2026 ++ fmt02 2 ++ fmt02 30 ++ fmt02 0 ++ fmt02 0 ++ fmt02 0).
Proof.
  apply (parse_pdf_date_invalid_fields US_Eastern 2026 2 30 0 0 0); try lia.
  intros (_ & _ & [_ H] & _). vm_compute in H. now apply H.
Defined.

Lemma parse_pdf_date_without_time_sample :
  parse_pdf_date US_Eastern ("D:" ++ fmt04 2026 ++ fmt02 2 ++ fmt02 11) =
  parse_pdf_date US_Eastern (pdf_date_string 2026 2 11 0 0 0).
Proof.
  apply (parse_pdf_date_without_time US_Eastern 2026 2 11 (mk_datetime 2026 2 10 19 0 0)).
  - unfold valid_fields. vm_compute. intuition discriminate.
  - reflexivity.
Defined.

Lemma parse_pdf_date_ignores_suffix_sample :
  parse_pdf_date US_Eastern (pdf_date_string 2026 2 11 17 0 0 ++ "+05'00'") =
  parse_pdf_date US_Eastern (pdf_date_string 2026 2 11 17 0 0).
Proof.
  apply (parse_pdf_date_ignores_suffix US_Eastern 2026 2 11 17 0 0 "+05'00'"
           (mk_datetime 2026 2 11 12 0 0)).
  - unfold valid_fields. vm_compute. intuition discriminate.
  - reflexivity.
Defined.

Lemma parse_pdf_date_out_of_range_sample :
  parse_pdf_date US_Eastern (pdf_date_string 1 1 1 0 0 0) =
  Ok (fmt04 1 ++ fmt02 1 ++ fmt02 1 ++ fmt02 0 ++ fmt02 0 ++ fmt02 0).
Proof.
  apply (parse_pdf_date_out_of_range US_Eastern 1 1 1 0 0 0 Cases.overflow).
  - unfold valid_fields. vm_compute. intuition discriminate.
  - reflexivity.
Defined.

Lemma extract_metadata_texts_sample :
  exists record,
    outcome (extract_metadata Mini.lib Sample.pdf) = Ok (Some record) /\
    forall k,
      dict_get k record =
      match dict_get k (docinfo_view Sample.doc) with
      | Some o => match object_str Mini.lib o with Ok s => Some s | Raise _ => None end
      | None => None
      end.
Proof.
  exact (extract_metadata_texts Mini.lib Sample.pdf Sample.doc eq_refl eq_refl eq_refl).
Defined.

Lemma extract_metadata_open_fails_sample :
  extract_metadata Mini.lib Sample.locked_pdf =
  ([call_open (data Sample.locked_pdf);
    logging_error "Error extracting metadata: {}" ["invalid password"];
    st_error "An error occurred while extracting metadata." []],
   Ok None).
Proof.
  exact (extract_metadata_open_fails Mini.lib Sample.locked_pdf
           (mk_exn PasswordError "invalid password") eq_refl eq_refl).
Defined.

Lemma extract_metadata_docinfo_fails_sample :
  extract_metadata Cases.unreadable_info Sample.bare_pdf =
  ([call_open (data Sample.bare_pdf);
    logging_error "Error accessing PDF metadata: {}" [exn_msg Cases.no_info]],
   Ok (Some [])).
Proof.
  exact (extract_metadata_docinfo_fails Cases.unreadable_info Sample.bare_pdf
           (mk_Pdf false (InfoBroken Cases.no_info) (data Sample.bare_pdf) [])
           Cases.no_info eq_refl eq_refl eq_refl eq_refl).
Defined.

Lemma update_pdf_metadata_calls_sample :
  exists tail,
    events (update_pdf_metadata Mini.lib Sample.pdf Sample.new_title) =
      (call_open (data Sample.pdf) :: writes Sample.new_title ++ tail ++
       [call_save;
        logging_info "Metadata updated successfully: {}" (dict_keys Sample.new_title)])%list /\
    (tail = [] \/
     exists s, tail = [call_setitem "/ModDate" s] /\ truthy s = true /\
               dict_mem "/ModDate" Sample.new_title = false /\
               dict_mem "ModDate" Sample.new_title = false).
Proof.
  exact (update_pdf_metadata_calls Mini.lib Sample.pdf Sample.new_title Sample.retitled eq_refl).
Defined.

Lemma update_pdf_metadata_assigns_sample :
  startswith "/Title" "/" = true /\ truthy "New Title" = true.
Proof.
  apply (update_pdf_metadata_assigns Mini.lib Sample.pdf Sample.new_title "/Title" "New Title").
  vm_compute. right. left. reflexivity.
Defined.

Lemma update_pdf_metadata_new_value_sample :
  exists saved,
    open Mini.lib Sample.retitled = Ok saved /\
    dict_get (dict_key "Title") (docinfo_view saved) = Some (object_of_str Mini.lib "New Title").
Proof.
  apply (update_pdf_metadata_new_value Mini.lib Sample.pdf [] [] "Title" "New Title"
           Sample.retitled MiniFacts.faithful eq_refl).
  - intros k v [].
  - reflexivity.
Defined.

Lemma update_pdf_metadata_writes_back_sample :
  events (update_pdf_metadata Mini.lib Sample.pdf Sample.new_title) =
    (call_open (data Sample.pdf) :: writes Sample.new_title ++
     [call_setitem "/ModDate" "D:20250101000000"; call_save;
      logging_info "Metadata updated successfully: {}" (dict_keys Sample.new_title)])%list.
Proof.
  apply (update_pdf_metadata_writes_back Mini.lib Sample.pdf Sample.doc Sample.info
           Sample.new_title (Mini.String_ "D:20250101000000") "D:20250101000000"
           Sample.retitled); try reflexivity.
  intros k o' H. unfold Sample.info in H. cbn [In] in H.
  repeat (destruct H as [H | H]; [inversion H; subst; eexists; reflexivity |]).
  destruct H.
Defined.

Lemma update_pdf_metadata_no_write_back_sample :
  exists rest,
    writes [] =
    (filter is_setitem (events (update_pdf_metadata Mini.lib Cases.kids_pdf [])) ++ rest)%list.
Proof.
  exact (update_pdf_metadata_no_write_back Mini.lib Cases.kids_pdf Cases.kids_doc
           "/Kids" Mini.Array
           (mk_exn NotImplementedError "don't know how to __str__ this object")
           [("/ModDate", Mini.String_ "D:20250101000000")] []
           eq_refl eq_refl eq_refl).
Defined.

Lemma enter_values_request_sample :
  In "/Title" ["/Title"] /\ "New Title" = typed Cases.typing "/Title" /\
  truthy "New Title" = true.
Proof.
  exact (enter_values_request Cases.typing Cases.viewing ["/Title"]
           [("/Title", "New Title")]
           [st_caption "Format: {}" ["e.g., My Document Title"];
            st_caption "Current value: `{}`" ["Old"]]
           "/Title" "New Title" eq_refl eq_refl).
Defined.

Lemma main_never_raises_sample :
  exists session',
    outcome (main Mini.lib US_Eastern Cases.typing Cases.viewing) = Ok session' /\
    sound_session session'.
Proof.
  exact (main_never_raises Mini.lib US_Eastern Cases.typing Cases.viewing I).
Defined.

Lemma main_within_limit_sample :
  exists rest,
    events (main Mini.lib US_Eastern (Sample.run_with Cases.ten_megabytes) Sample.fresh) =
    call_open (data Cases.ten_megabytes) :: rest.
Proof.
  apply (main_within_limit Mini.lib US_Eastern (Sample.run_with Cases.ten_megabytes)
           Cases.ten_megabytes Sample.fresh eq_refl eq_refl eq_refl).
  apply Z.leb_le. reflexivity.
Defined.

Lemma main_view_only_sample :
  existsb is_write (events (main Mini.lib US_Eastern Cases.typing Cases.viewing)) = false.
Proof.
  exact (main_view_only Mini.lib US_Eastern Cases.typing Cases.viewing eq_refl).
Defined.

Lemma date_hint_is_shown_as_date_sample :
  exists text,
    parse_pdf_date US_Eastern (str_of_get (dict_get "/ModDate" Cases.record)) = Ok text /\
    In (metadata_card "/ModDate" text)
       (events (show_selected US_Eastern Cases.record ["/Title"; "/ModDate"])).
Proof.
  apply (date_hint_is_shown_as_date US_Eastern Cases.record ["/Title"; "/ModDate"] "/ModDate").
  - right. left. reflexivity.
  - reflexivity.
Defined.

Lemma main_no_readable_field_sample :
  main Mini.lib US_Eastern (Sample.run_with Cases.kids_only_pdf) Sample.fresh =
  ([call_open (data Cases.kids_only_pdf);
    logging_info "Metadata successfully extracted: {} fields." ["0"];
    st_warning "No metadata found in this PDF.";
    logging_info "No metadata present in the uploaded PDF." []],
   Ok Sample.fresh).
Proof.
  apply (main_no_readable_field Mini.lib US_Eastern (Sample.run_with Cases.kids_only_pdf)
           Cases.kids_only_pdf Cases.kids_only_doc Sample.fresh);
    try reflexivity.
  - apply Z.leb_le. reflexivity.
  - intros key [<- | []]. eexists. reflexivity.
Defined.

Lemma main_download_is_update_sample :
  exists file updated_values,
    uploaded_file Cases.saving = Some file /\
    save_button Cases.saving = true /\
    outcome (update_pdf_metadata Mini.lib file updated_values) = Ok (Some Sample.retitled) /\
    (forall k v, dict_get k updated_values = Some v ->
                 v = typed Cases.saving k /\ truthy v = true) /\
    "updated_" = download_name Cases.saving file.
Proof.
  apply (main_download_is_update Mini.lib US_Eastern Cases.saving Cases.viewing
           "Download Updated PDF" Sample.retitled "updated_").
  vm_compute. repeat (first [left; reflexivity | right]).
Defined.

Lemma update_then_extract_sample :
  exists record,
    outcome (extract_metadata Mini.lib (BytesIO Sample.retitled)) = Ok (Some record) /\
    dict_get (dict_key "Title") record = Some "New Title".
Proof.
  apply (update_then_extract Mini.lib Sample.pdf Sample.doc [] [] "Title" "New Title"
           Sample.retitled MiniFacts.faithful eq_refl eq_refl eq_refl).
  - intros k v [].
  - reflexivity.
Defined.
